(** * VitalSync: signal synthesis and data routing core

    A shallow embedding of the core of the VitalSync patient monitor
    (parameter model, waveform model, demo data provider, data manager,
    and the part of the configuration manager they talk to), followed by
    the properties established about it.

    Conventions of the embedding.
    - C++ [int] and [qint64] values are integers of [Z]; no arithmetic of
      the modelled code leaves the machine range on the inputs considered,
      and where a statement depends on it the range is a hypothesis.
    - C++ [double] is the kernel's binary64 [float].  C++ [float]
      (binary32) values are carried in the same type: every binary32 value
      is a binary64 value and the comparisons [<], [<=], [==] agree on
      them (a NaN compares false with everything).
    - [enum class] values are carried as their underlying [int], because
      the code builds them with [static_cast] from loop counters that run
      past the last enumerator.
    - [QMap]/[QVariantMap] are finite maps; [QVector<float>] is a list.
    - A member function that mutates the object takes the object and
      returns the new object together with the signals it emitted, in
      order.  Mutexes are not modelled: every function is run atomically.
    - [qDebug] output is dropped; [qWarning] and [qCritical] lines are
      kept where a function's result carries a log. *)

From Stdlib Require Import ZArith Floats Lia Bool.
From stdpp Require Import gmap strings list.

#[local] Open Scope Z_scope.
#[local] Set Warnings "-inexact-float".

(** ** Qt value types *)

Record QColor := mkQColor { red : Z; green : Z; blue : Z }.

#[global] Instance QColor_eq_dec : EqDecision QColor.
Proof. solve_decision. Defined.

(** [Qt::yellow] and [Qt::green] of the global colour table. *)
Definition Qt_yellow : QColor := mkQColor 255 255 0.
Definition Qt_green : QColor := mkQColor 0 255 0.

(** The payloads this code base stores in a [QVariant]: the destructors of
    the models, [DemoDataProvider::configure] and
    [ConfigManager::resetToDefaults] write booleans, integers, floating
    point numbers and colours; [SetLastProvider] writes a string. *)
Inductive QVariant :=
| VBool (b : bool)
| VInt (n : Z)
| VDouble (d : float)
| VColor (c : QColor)
| VString (s : string).

Abbreviation QVariantMap := (gmap string QVariant).

(** Truncation of a finite binary64 value towards zero, the conversion
    C++ applies for [int(d)]: the magnitude [m * 2^e] with its fraction
    bits shifted out.  NaN and infinities (undefined in C++) are sent to
    0. *)
Definition trunc (d : float) : Z :=
  match Prim2SF d with
  | S754_finite s m e =>
      let a := match e with
               | Z0 => Zpos m
               | Zpos p => Z.shiftl (Zpos m) (Zpos p)
               | Zneg p => Z.shiftr (Zpos m) (Zpos p)
               end in
      if s then - a else a
  | _ => 0
  end.

(** Conversion of an [int] to [double] (exact below 2^53). *)
Definition of_int (n : Z) : float :=
  if n <? 0 then (- PrimFloat.of_uint63 (Uint63.of_Z (- n)))%float
  else PrimFloat.of_uint63 (Uint63.of_Z n).

(** Conversion of a [double] to [float]: rounding to binary32 (24 bits of
    precision, largest exponent 128); the result is again carried in
    binary64. *)
Definition to_float (d : float) : float :=
  match Prim2SF d with
  | S754_finite s m e => SF2Prim (binary_round 24 128 s m e)
  | _ => d
  end.

(** Conversion of an [int] to [float]. *)
Definition float_of_int (n : Z) : float := to_float (of_int n).

(** [qRound(double)] of QtGlobal:
    [d >= 0.0 ? int(d + 0.5) : int(d - 0.5)]. *)
Definition qRound (d : float) : Z :=
  if (0 <=? d)%float then trunc (d + 0.5)%float else trunc (d - 0.5)%float.

Definition toBool (v : QVariant) : bool :=
  match v with
  | VBool b => b
  | VInt n => negb (n =? 0)
  | VDouble d => negb (d =? 0)%float
  | VColor _ => false
  | VString s => negb (bool_decide (s = ""%string \/ s = "0"%string \/ s = "false"%string))
  end.

Definition toInt (v : QVariant) : Z :=
  match v with
  | VBool b => if b then 1 else 0
  | VInt n => n
  | VDouble d => qRound d
  | _ => 0
  end.

Definition toDouble (v : QVariant) : float :=
  match v with
  | VBool b => if b then 1%float else 0%float
  | VInt n => of_int n
  | VDouble d => d
  | _ => 0%float
  end.

Definition toFloat (v : QVariant) : float := to_float (toDouble v).

Definition toColor (v : QVariant) : QColor :=
  match v with
  | VColor c => c
  | _ => mkQColor 0 0 0
  end.

Definition toString (v : QVariant) : string :=
  match v with
  | VString s => s
  | _ => ""%string
  end.

(** A counted [for (int i = 0; i < n; ++i)] loop over a state. *)
Definition for_loop {S : Type} (n : nat) (body : nat -> S -> S) (s : S) : S :=
  fold_left (fun acc i => body i acc) (seq 0 n) s.

(** ** vital_sync_types.h *)

Module VitalSync.

(** [enum class WaveformType], by underlying value. *)
Definition ECG_I : Z := 0.
Definition ECG_II : Z := 1.
Definition ECG_III : Z := 2.
Definition RESP : Z := 3.
Definition PLETH : Z := 4.
Definition ABP : Z := 5.
Definition CVP : Z := 6.
Definition CAPNO : Z := 7.
Definition EEG : Z := 8.

(** The enumerators of [WaveformType]: the waveform catalog. *)
Definition waveform_catalog : list Z :=
  [ECG_I; ECG_II; ECG_III; RESP; PLETH; ABP; CVP; CAPNO; EEG].

(** [enum class ParameterType], by underlying value. *)
Definition HR : Z := 0.
Definition RR : Z := 1.
Definition SPO2 : Z := 2.
Definition NIBP_SYS : Z := 3.
Definition NIBP_DIA : Z := 4.
Definition NIBP_MAP : Z := 5.
Definition TEMP1 : Z := 6.
Definition TEMP2 : Z := 7.
Definition ETCO2 : Z := 8.
Definition IBP1_SYS : Z := 9.
Definition IBP1_DIA : Z := 10.
Definition IBP1_MAP : Z := 11.
Definition IBP2_SYS : Z := 12.
Definition IBP2_DIA : Z := 13.
Definition IBP2_MAP : Z := 14.

(** The enumerators of [ParameterType]: the parameter catalog. *)
Definition parameter_catalog : list Z :=
  [HR; RR; SPO2; NIBP_SYS; NIBP_DIA; NIBP_MAP; TEMP1; TEMP2; ETCO2;
   IBP1_SYS; IBP1_DIA; IBP1_MAP; IBP2_SYS; IBP2_DIA; IBP2_MAP].

Inductive ConnectionStatus := Disconnected | Connecting | Connected | Error.

#[global] Instance ConnectionStatus_eq_dec : EqDecision ConnectionStatus.
Proof. solve_decision. Defined.

(** [enum class ErrorCode], by value. *)
Definition NoError : Z := 0.
Definition ConnectionError : Z := 100.
Definition ConfigurationError : Z := 200.
Definition DataError : Z := 300.
Definition HardwareError : Z := 400.
Definition CriticalError : Z := 500.
Definition UnknownError : Z := 999.

Definition GetWaveformDisplayName (type : Z) : string :=
  match type with
  | 0 => "ECG I"
  | 1 => "ECG II"
  | 2 => "ECG III"
  | 3 => "Resp"
  | 4 => "SpO2"
  | 5 => "ABP"
  | 6 => "CVP"
  | 7 => "ETCO2"
  | 8 => "EEG"
  | _ => "Unknown"
  end%string.

Definition GetParameterDisplayName (type : Z) : string :=
  match type with
  | 0 => "HR"
  | 1 => "RR"
  | 2 => "SpO2"
  | 3 => "NIBP-S"
  | 4 => "NIBP-D"
  | 5 => "NIBP-M"
  | 6 => "Temp"
  | 7 => "Temp 2"
  | 8 => "ETCO2"
  | 9 => "ABP-S"
  | 10 => "ABP-D"
  | 11 => "ABP-M"
  | 12 => "CVP-S"
  | 13 => "CVP-D"
  | 14 => "CVP-M"
  | _ => "Unknown"
  end%string.

Definition GetDefaultWaveformRange (type : Z) : float * float :=
  match type with
  | 0 | 1 | 2 => (-1.5, 1.5)
  | 3 => (-1.0, 1.0)
  | 4 => (0.0, 1.0)
  | 5 | 6 => (0.0, 2.0)
  | 7 => (0.0, 1.0)
  | 8 => (-50.0, 50.0)
  | _ => (-1.0, 1.0)
  end%float.

Definition GetDefaultParameterRange (type : Z) : float * float :=
  match type with
  | 0 => (30.0, 240.0)
  | 1 => (4.0, 40.0)
  | 2 => (70.0, 100.0)
  | 3 | 9 | 12 => (60.0, 240.0)
  | 4 | 10 | 13 => (30.0, 140.0)
  | 5 | 11 | 14 => (40.0, 160.0)
  | 6 | 7 => (30.0, 42.0)
  | 8 => (0.0, 100.0)
  | _ => (0.0, 100.0)
  end%float.

(** (low critical, low warning, high warning, high critical). *)
Definition GetDefaultAlarmLimits (type : Z) : float * float * float * float :=
  match type with
  | 0 => (40.0, 50.0, 120.0, 150.0)
  | 1 => (6.0, 8.0, 25.0, 30.0)
  | 2 => (85.0, 90.0, 100.0, 100.0)
  | 3 | 9 => (80.0, 90.0, 160.0, 180.0)
  | 4 | 10 => (40.0, 50.0, 90.0, 110.0)
  | 5 | 11 => (50.0, 60.0, 110.0, 130.0)
  | 12 => (0.0, 2.0, 15.0, 20.0)
  | 13 => (0.0, 0.0, 8.0, 12.0)
  | 14 => (0.0, 1.0, 10.0, 15.0)
  | 6 | 7 => (35.0, 36.0, 38.0, 39.0)
  | 8 => (20.0, 25.0, 45.0, 50.0)
  | _ => (0.0, 0.0, 100.0, 100.0)
  end%float.

Definition DEFAULT_SAMPLE_RATE : Z := 250.
Definition DEFAULT_BUFFER_SECONDS : Z := 10.
Definition DEFAULT_SWEEP_SPEED : float := 25.0%float.

End VitalSync.

(** ** config_manager.cpp *)

Module ConfigManager.

Record t := mk {
  settings_ : QVariantMap;
  provider_configs_ : gmap string QVariantMap;
  waveform_configs_ : gmap Z QVariantMap;
  parameter_configs_ : gmap Z QVariantMap;
  dirty_ : bool
}.

Definition KEY_LAST_PROVIDER : string := "lastProvider".
Definition DEFAULT_PROVIDER : string := "Demo".

(** The manager as its constructor leaves it, over an empty store. *)
Definition empty : t := mk ∅ ∅ ∅ ∅ false.

Definition GetString (key defaultValue : string) (c : t) : string :=
  match settings_ c !! key with
  | Some v => toString v
  | None => defaultValue
  end.

Definition SetString (key value : string) (c : t) : t :=
  if bool_decide (GetString key "" c = value) then c
  else mk (<[key := VString value]> (settings_ c)) (provider_configs_ c)
          (waveform_configs_ c) (parameter_configs_ c) true.

Definition GetProviderConfig (providerName : string) (c : t) : QVariantMap :=
  default ∅ (provider_configs_ c !! providerName).

Definition SetProviderConfig (providerName : string) (config : QVariantMap)
    (c : t) : t :=
  mk (settings_ c) (<[providerName := config]> (provider_configs_ c))
     (waveform_configs_ c) (parameter_configs_ c) true.

Definition GetWaveformConfig (waveformType : Z) (c : t) : QVariantMap :=
  default ∅ (waveform_configs_ c !! waveformType).

Definition SetWaveformConfig (waveformType : Z) (config : QVariantMap)
    (c : t) : t :=
  mk (settings_ c) (provider_configs_ c)
     (<[waveformType := config]> (waveform_configs_ c))
     (parameter_configs_ c) true.

Definition GetParameterConfig (parameterType : Z) (c : t) : QVariantMap :=
  default ∅ (parameter_configs_ c !! parameterType).

Definition SetParameterConfig (parameterType : Z) (config : QVariantMap)
    (c : t) : t :=
  mk (settings_ c) (provider_configs_ c) (waveform_configs_ c)
     (<[parameterType := config]> (parameter_configs_ c)) true.

Definition GetLastProvider (c : t) : string :=
  GetString KEY_LAST_PROVIDER DEFAULT_PROVIDER c.

Definition SetLastProvider (providerName : string) (c : t) : t :=
  SetString KEY_LAST_PROVIDER providerName c.

(** *** Typed settings and the factory reset *)

Definition KEY_DEFAULT_SWEEP_SPEED : string := "defaultSweepSpeed".
Definition KEY_DEFAULT_GRID_COLOR : string := "defaultGridColor".
Definition KEY_DEFAULT_BG_COLOR : string := "defaultBackgroundColor".

Definition DEFAULT_SWEEP_SPEED : float := VitalSync.DEFAULT_SWEEP_SPEED.
Definition DEFAULT_GRID_COLOR : QColor := mkQColor 0 128 0.
Definition DEFAULT_BG_COLOR : QColor := mkQColor 0 0 0.

(** [Qt::black], the default of [GetColor]. *)
Definition Qt_black : QColor := mkQColor 0 0 0.

Definition set_setting (key : string) (v : QVariant) (c : t) : t :=
  mk (<[key := v]> (settings_ c)) (provider_configs_ c) (waveform_configs_ c)
     (parameter_configs_ c) true.

Definition GetDouble (key : string) (defaultValue : float) (c : t) : float :=
  match settings_ c !! key with
  | Some v => toDouble v
  | None => defaultValue
  end.

Definition SetDouble (key : string) (value : float) (c : t) : t :=
  if negb (GetDouble key 0.0 c =? value)%float then set_setting key (VDouble value) c
  else c.

Definition GetColor (key : string) (defaultValue : QColor) (c : t) : QColor :=
  match settings_ c !! key with
  | Some v => toColor v
  | None => defaultValue
  end.

Definition setColor (key : string) (value : QColor) (c : t) : t :=
  if bool_decide (GetColor key Qt_black c = value) then c
  else set_setting key (VColor value) c.

Definition GetDefaultSweepSpeed (c : t) : float :=
  GetDouble KEY_DEFAULT_SWEEP_SPEED DEFAULT_SWEEP_SPEED c.
Definition SetDefaultSweepSpeed (speed : float) (c : t) : t :=
  SetDouble KEY_DEFAULT_SWEEP_SPEED speed c.
Definition GetDefaultGridColor (c : t) : QColor :=
  GetColor KEY_DEFAULT_GRID_COLOR DEFAULT_GRID_COLOR c.
Definition SetDefaultGridColor (color : QColor) (c : t) : t :=
  setColor KEY_DEFAULT_GRID_COLOR color c.
Definition GetDefaultBackgroundColor (c : t) : QColor :=
  GetColor KEY_DEFAULT_BG_COLOR DEFAULT_BG_COLOR c.
Definition SetDefaultBackgroundColor (color : QColor) (c : t) : t :=
  setColor KEY_DEFAULT_BG_COLOR color c.

(** The default configuration [resetToDefaults] stores for the waveform
    with counter value [i]. *)
Definition default_waveform_config (i : nat) : QVariantMap :=
  let type := Z.of_nat i in
  let range := VitalSync.GetDefaultWaveformRange type in
  <["bufferSize" :=
      VInt (VitalSync.DEFAULT_SAMPLE_RATE * VitalSync.DEFAULT_BUFFER_SECONDS)]>
  (<["maxValue" := VDouble (snd range)]>
  (<["minValue" := VDouble (fst range)]>
  (<["color" := VColor Qt_green]>
  (<["active" := VBool (i <? 5)%nat]> ∅)))).

(** The default configuration stored for the parameter with counter value
    [i]. *)
Definition default_parameter_config (i : nat) : QVariantMap :=
  let type := Z.of_nat i in
  let range := VitalSync.GetDefaultParameterRange type in
  let '(lc, lw, hw, hc) := VitalSync.GetDefaultAlarmLimits type in
  <["highCritical" := VDouble hc]>
  (<["highWarning" := VDouble hw]>
  (<["lowWarning" := VDouble lw]>
  (<["lowCritical" := VDouble lc]>
  (<["maxValue" := VDouble (snd range)]>
  (<["minValue" := VDouble (fst range)]>
  (<["color" := VColor Qt_yellow]>
  (<["active" := VBool (i <? 8)%nat]> ∅))))))).

(** [resetToDefaults]: the store and the caches are cleared, the four
    general settings are written through their setters, and a default
    configuration is stored for 13 waveform and 18 parameter counter
    values. *)
Definition resetToDefaults (c : t) : t :=
  let c := mk ∅ ∅ ∅ ∅ (dirty_ c) in
  let c := SetLastProvider DEFAULT_PROVIDER c in
  let c := SetDefaultSweepSpeed DEFAULT_SWEEP_SPEED c in
  let c := SetDefaultGridColor DEFAULT_GRID_COLOR c in
  let c := SetDefaultBackgroundColor DEFAULT_BG_COLOR c in
  let c :=
    for_loop 13
      (fun i c => SetWaveformConfig (Z.of_nat i) (default_waveform_config i) c) c in
  let c :=
    for_loop 18
      (fun i c => SetParameterConfig (Z.of_nat i) (default_parameter_config i) c)
      c in
  mk (settings_ c) (provider_configs_ c) (waveform_configs_ c)
     (parameter_configs_ c) true.

End ConfigManager.

(** ** parameter_model.cpp *)

Module ParameterModel.

(** [IParameterModel::AlarmState]. *)
Inductive AlarmState :=
| Normal | HighWarning | HighCritical | LowWarning | LowCritical | Technical.

#[global] Instance AlarmState_eq_dec : EqDecision AlarmState.
Proof. solve_decision. Defined.

Inductive Signal :=
| propertiesChanged
| alarmStateChanged (state : AlarmState)
| activeStateChanged (active : bool).

Record t := mk {
  parameter_type_ : Z;
  value_ : float;
  timestamp_ : Z;
  color_ : QColor;
  min_value_ : float;
  max_value_ : float;
  low_critical_ : float;
  low_warning_ : float;
  high_warning_ : float;
  high_critical_ : float;
  alarm_state_ : AlarmState;
  active_ : bool
}.

Definition set_active (b : bool) (m : t) : t :=
  mk (parameter_type_ m) (value_ m) (timestamp_ m) (color_ m) (min_value_ m)
     (max_value_ m) (low_critical_ m) (low_warning_ m) (high_warning_ m)
     (high_critical_ m) (alarm_state_ m) b.

Definition set_color (c : QColor) (m : t) : t :=
  mk (parameter_type_ m) (value_ m) (timestamp_ m) c (min_value_ m)
     (max_value_ m) (low_critical_ m) (low_warning_ m) (high_warning_ m)
     (high_critical_ m) (alarm_state_ m) (active_ m).

Definition set_range (lo hi : float) (m : t) : t :=
  mk (parameter_type_ m) (value_ m) (timestamp_ m) (color_ m) lo hi
     (low_critical_ m) (low_warning_ m) (high_warning_ m)
     (high_critical_ m) (alarm_state_ m) (active_ m).

Definition set_limits (lc lw hw hc : float) (m : t) : t :=
  mk (parameter_type_ m) (value_ m) (timestamp_ m) (color_ m) (min_value_ m)
     (max_value_ m) lc lw hw hc (alarm_state_ m) (active_ m).

Definition set_alarm_state (s : AlarmState) (m : t) : t :=
  mk (parameter_type_ m) (value_ m) (timestamp_ m) (color_ m) (min_value_ m)
     (max_value_ m) (low_critical_ m) (low_warning_ m) (high_warning_ m)
     (high_critical_ m) s (active_ m).

Definition set_value (v : float) (ts : Z) (m : t) : t :=
  mk (parameter_type_ m) v ts (color_ m) (min_value_ m)
     (max_value_ m) (low_critical_ m) (low_warning_ m) (high_warning_ m)
     (high_critical_ m) (alarm_state_ m) (active_ m).

(** A key of the loaded configuration overrides a field when present. *)
Definition load {A : Type} (cfg : QVariantMap) (key : string)
    (conv : QVariant -> A) (dflt : A) : A :=
  match cfg !! key with
  | Some v => conv v
  | None => dflt
  end.

(** The constructor; [now] is [QDateTime::currentDateTime()] in
    milliseconds since the epoch. *)
Definition new (config : ConfigManager.t) (now : Z) (parameterType : Z) : t :=
  let range := VitalSync.GetDefaultParameterRange parameterType in
  let '(lc, lw, hw, hc) := VitalSync.GetDefaultAlarmLimits parameterType in
  let paramConfig := ConfigManager.GetParameterConfig parameterType config in
  mk parameterType 0%float now
     (load paramConfig "color" toColor Qt_yellow)
     (load paramConfig "minValue" toFloat (fst range))
     (load paramConfig "maxValue" toFloat (snd range))
     (load paramConfig "lowCritical" toFloat lc)
     (load paramConfig "lowWarning" toFloat lw)
     (load paramConfig "highWarning" toFloat hw)
     (load paramConfig "highCritical" toFloat hc)
     Normal
     (load paramConfig "active" toBool false).

(** The destructor's write-back to the configuration manager. *)
Definition save_config (m : t) (config : ConfigManager.t) : ConfigManager.t :=
  let cfg : QVariantMap :=
    <["active" := VBool (active_ m)]>
    (<["color" := VColor (color_ m)]>
    (<["minValue" := VDouble (min_value_ m)]>
    (<["maxValue" := VDouble (max_value_ m)]>
    (<["lowCritical" := VDouble (low_critical_ m)]>
    (<["lowWarning" := VDouble (low_warning_ m)]>
    (<["highWarning" := VDouble (high_warning_ m)]>
    (<["highCritical" := VDouble (high_critical_ m)]> ∅))))))) in
  ConfigManager.SetParameterConfig (parameter_type_ m) cfg config.

Definition GetParameterId (m : t) : Z := parameter_type_ m.
Definition GetDisplayName (m : t) : string :=
  VitalSync.GetParameterDisplayName (parameter_type_ m).
Definition GetValue (m : t) : float := value_ m.
Definition GetAlarmState (m : t) : AlarmState := alarm_state_ m.
Definition isActive (m : t) : bool := active_ m.

Definition setColor (color : QColor) (m : t) : t * list Signal :=
  if bool_decide (color_ m = color) then (m, [])
  else (set_color color m, [propertiesChanged]).

(** [UpdateValue]: the alarm state is derived inline, high limits
    first, with strict comparisons. *)
Definition UpdateValue (now : Z) (timestamp : Z) (new_value : float) (m : t)
    : t * list Signal :=
  let old_value := value_ m in
  let old_alarm_state := alarm_state_ m in
  let state :=
    if (high_critical_ m <? new_value)%float then HighCritical
    else if (high_warning_ m <? new_value)%float then HighWarning
    else if (new_value <? low_critical_ m)%float then LowCritical
    else if (new_value <? low_warning_ m)%float then LowWarning
    else Normal in
  let m1 := set_alarm_state state m in
  let m2 := set_value new_value (if 0 <? timestamp then timestamp else now) m1 in
  let value_changed := negb (old_value =? value_ m2)%float in
  let alarm_changed := negb (bool_decide (old_alarm_state = alarm_state_ m2)) in
  (m2, if value_changed || alarm_changed then [propertiesChanged] else []).

(** [UpdateAlarmState]: the private re-evaluation used by
    [SetAlarmLimits]; low limits first, with non-strict comparisons. *)
Definition UpdateAlarmState (m : t) : t :=
  let newState :=
    if (value_ m <=? low_critical_ m)%float then LowCritical
    else if (value_ m <=? low_warning_ m)%float then LowWarning
    else if (high_critical_ m <=? value_ m)%float then HighCritical
    else if (high_warning_ m <=? value_ m)%float then HighWarning
    else Normal in
  set_alarm_state newState m.

Definition SetAlarmLimits (lowCritical lowWarning highWarning highCritical : float)
    (m : t) : t * list Signal :=
  let oldState := alarm_state_ m in
  let m1 := UpdateAlarmState
              (set_limits lowCritical lowWarning highWarning highCritical m) in
  (m1, propertiesChanged ::
         (if bool_decide (oldState = alarm_state_ m1) then []
          else [alarmStateChanged (alarm_state_ m1)])).

Definition SetActive (active : bool) (m : t) : t * list Signal :=
  if bool_decide (active_ m = active) then (m, [])
  else (set_active active m, [activeStateChanged active; propertiesChanged]).

End ParameterModel.

(** ** waveform_model.cpp *)

Module WaveformModel.

Inductive Signal :=
| dataUpdated
| propertiesChanged
| activeStateChanged (active : bool).

(** What a call leaves behind besides the new object: emitted signals
    and [qWarning] lines, in order. *)
Inductive Output :=
| emit (s : Signal)
| warn_out_of_order (name : string) (expected_after got : Z).

Record t := mk {
  waveform_type_ : Z;
  display_name_ : string;
  color_ : QColor;
  min_value_ : float;
  max_value_ : float;
  max_buffer_size_ : Z;
  data_ : list float;
  active_ : bool;
  is_demo_ : bool;
  last_update_timestamp_ : Z;
  last_timestamp_ : Z
}.

Definition DEFAULT_BUFFER_SIZE : Z := 1000.

(** [M_PI] of <cmath>. *)
Definition M_PI : float := 0x1.921fb54442d18p+1%float.

(** [QVector::resize]: truncate, or pad with default-constructed
    (zero) samples.  A negative size is outside the function's contract;
    it is read as 0 here. *)
Definition resize (n : Z) (l : list float) : list float :=
  take (Z.to_nat n) l ++ replicate (Z.to_nat n - length l)%nat 0%float.

(** [QVector::mid(pos)]: the elements from [pos] to the end. *)
Definition mid (pos : nat) (l : list float) : list float := drop pos l.

Definition default_color (waveformType : Z) : QColor :=
  match waveformType with
  | 0 | 1 | 2 => mkQColor 0 255 0
  | 3 => mkQColor 255 255 0
  | 4 => mkQColor 0 255 255
  | 5 => mkQColor 255 0 0
  | 7 => mkQColor 255 255 255
  | _ => mkQColor 255 255 255
  end.

Definition load {A : Type} (cfg : QVariantMap) (key : string)
    (conv : QVariant -> A) (dflt : A) : A :=
  match cfg !! key with
  | Some v => conv v
  | None => dflt
  end.

Section Construction.

(** [sinf] of <cmath>, applied to the phase computed in [double]. *)
Variable sinf : float -> float.

(** The constructor's seeding loop over a buffer of [size] samples:
    [data_[i] = 0.5f * sinf((double)i / size * 2 * M_PI)]. *)
Definition seed (size : Z) (d : list float) : list float :=
  for_loop (Z.to_nat size)
    (fun i d =>
       let phase := (of_int (Z.of_nat i) / of_int size * 2 * M_PI)%float in
       <[i := (0.5 * sinf phase)%float]> d)
    d.

Definition new (config : ConfigManager.t) (waveformType : Z) : t :=
  let range := VitalSync.GetDefaultWaveformRange waveformType in
  let data0 := seed DEFAULT_BUFFER_SIZE (resize DEFAULT_BUFFER_SIZE []) in
  let waveformConfig := ConfigManager.GetWaveformConfig waveformType config in
  let size := load waveformConfig "bufferSize" toInt DEFAULT_BUFFER_SIZE in
  mk waveformType
     (VitalSync.GetWaveformDisplayName waveformType)
     (load waveformConfig "color" toColor (default_color waveformType))
     (load waveformConfig "minValue" toFloat (fst range))
     (load waveformConfig "maxValue" toFloat (snd range))
     size
     (match waveformConfig !! "bufferSize" with
      | Some _ => resize size data0
      | None => data0
      end)
     (load waveformConfig "active" toBool true)
     true 0 0.

End Construction.

Definition save_config (m : t) (config : ConfigManager.t) : ConfigManager.t :=
  let cfg : QVariantMap :=
    <["active" := VBool (active_ m)]>
    (<["color" := VColor (color_ m)]>
    (<["minValue" := VDouble (min_value_ m)]>
    (<["maxValue" := VDouble (max_value_ m)]>
    (<["bufferSize" := VInt (max_buffer_size_ m)]> ∅)))) in
  ConfigManager.SetWaveformConfig (waveform_type_ m) cfg config.

Definition set_data (d : list float) (ts : Z) (m : t) : t :=
  mk (waveform_type_ m) (display_name_ m) (color_ m) (min_value_ m)
     (max_value_ m) (max_buffer_size_ m) d (active_ m) (is_demo_ m)
     (last_update_timestamp_ m) ts.

Definition set_buffer (size : Z) (d : list float) (m : t) : t :=
  mk (waveform_type_ m) (display_name_ m) (color_ m) (min_value_ m)
     (max_value_ m) size d (active_ m) (is_demo_ m)
     (last_update_timestamp_ m) (last_timestamp_ m).

Definition set_range (lo hi : float) (m : t) : t :=
  mk (waveform_type_ m) (display_name_ m) (color_ m) lo hi
     (max_buffer_size_ m) (data_ m) (active_ m) (is_demo_ m)
     (last_update_timestamp_ m) (last_timestamp_ m).

Definition set_active (b : bool) (m : t) : t :=
  mk (waveform_type_ m) (display_name_ m) (color_ m) (min_value_ m)
     (max_value_ m) (max_buffer_size_ m) (data_ m) b (is_demo_ m)
     (last_update_timestamp_ m) (last_timestamp_ m).

Definition GetWaveformId (m : t) : Z := waveform_type_ m.
Definition GetDisplayName (m : t) : string := display_name_ m.
Definition GetData (m : t) : list float := data_ m.
Definition GetMaxBufferSize (m : t) : Z := max_buffer_size_ m.
Definition isActive (m : t) : bool := active_ m.
Definition GetLastUpdateTime (m : t) : Z := last_timestamp_ m.

Definition SetScalingRange (min max : float) (m : t) : t * list Output :=
  if ((min_value_ m =? min) && (max_value_ m =? max))%float then (m, [])
  else (set_range min max m, [emit propertiesChanged]).

Definition SetMaxBufferSize (size : Z) (m : t) : t * list Output :=
  if bool_decide (max_buffer_size_ m = size) then (m, [])
  else (set_buffer size (resize size (data_ m)) m, [emit propertiesChanged]).

Definition SetActive (active : bool) (m : t) : t * list Output :=
  if bool_decide (active_ m = active) then (m, [])
  else (set_active active m,
        [emit (activeStateChanged active); emit propertiesChanged]).

(** First loop of [addWaveformData]:
    [for (i = 0; i < bufferSize - numToAdd; ++i) data_[i] = data_[i + numToAdd]]. *)
Definition shift_left (numToAdd bufferSize : nat) (d : list float) : list float :=
  for_loop (bufferSize - numToAdd)
    (fun i d =>
       match d !! (i + numToAdd)%nat with
       | Some x => <[i := x]> d
       | None => d
       end)
    d.

(** Second loop:
    [for (i = 0; i < numToAdd; ++i) data_[bufferSize - numToAdd + i] = data[i]]. *)
Definition write_tail (data : list float) (numToAdd bufferSize : nat)
    (d : list float) : list float :=
  for_loop numToAdd
    (fun i d =>
       match data !! i with
       | Some x => <[(bufferSize - numToAdd + i)%nat := x]> d
       | None => d
       end)
    d.

Definition addWaveformData (timestamp : Z) (data : list float) (m : t)
    : t * list Output :=
  if bool_decide (data = []) || negb (active_ m) then (m, [])
  else if (timestamp <=? last_timestamp_ m) && negb (last_timestamp_ m =? 0) then
    (m, [warn_out_of_order (GetDisplayName m) (last_timestamp_ m) timestamp])
  else
    let numToAdd := length data in
    let bufferSize := length (data_ m) in
    let d :=
      if (bufferSize <=? numToAdd)%nat then mid (length data - bufferSize) data
      else write_tail data numToAdd bufferSize
             (shift_left numToAdd bufferSize (data_ m)) in
    (set_data d timestamp m, [emit dataUpdated]).

End WaveformModel.

(** ** i_data_provider.h *)

Module IDataProvider.

(** The signals of the interface. *)
Inductive Signal :=
| connectionStatusChanged (status : VitalSync.ConnectionStatus)
| waveformDataReceived (waveformType : Z) (timestamp : Z) (data : list float)
| parameterDataReceived (parameterType : Z) (timestamp : Z) (value : float)
| errorOccurred (errorCode : Z) (errorMessage : string).

(** The virtual member functions the data manager calls.  [configure]
    may write to the configuration manager singleton. *)
Class Ops (P : Type) := {
  start : P -> P * bool * list Signal;
  stop : P -> P * list Signal;
  isActive : P -> bool;
  GetName : P -> string;
  configure : QVariantMap -> P -> ConfigManager.t -> P * ConfigManager.t * bool
}.

End IDataProvider.

(** ** demo_data_provider.cpp *)

Module DemoDataProvider.

(** What a [throw] carries, as far as the handlers of this file tell
    apart: [catch (const std::exception&)] and [catch (...)]. *)
Inductive exn :=
| std_exception (what : string)
| other_exception.

Inductive outcome (A : Type) :=
| Returned (a : A)
| Thrown (e : exn).
Arguments Returned {A} a.
Arguments Thrown {A} e.

Export IDataProvider.

Definition DEFAULT_PARAMETER_UPDATE_MS : Z := 1000.
Definition DEFAULT_WAVEFORM_UPDATE_MS : Z := 40.

(** The object's fields; [Rng] is the state of [QRandomGenerator].  The
    two [QTimer]s are kept as their running flag and interval. *)
Record t {Rng : Type} := mk {
  status_ : VitalSync.ConnectionStatus;
  active_ : bool;
  waveform_timer_running : bool;
  waveform_timer_interval : Z;
  parameter_timer_running : bool;
  parameter_timer_interval : Z;
  cycleCounter : Z;
  waveform_update_interval_ms_ : Z;
  parameter_update_interval_ms_ : Z;
  heart_rate_ : float;
  respiration_rate_ : float;
  spo2_ : float;
  systolic_bp_ : float;
  diastolic_bp_ : float;
  mean_bp_ : float;
  etco2_ : float;
  temperature_ : float;
  temperature2_ : float;
  ibp1_systolic_ : float;
  ibp1_diastolic_ : float;
  ibp1_mean_ : float;
  ibp2_systolic_ : float;
  ibp2_diastolic_ : float;
  ibp2_mean_ : float;
  amplitude_ : float;
  frequency_ : float;
  noise_ : float;
  artifacts_ : bool;
  random_ : Rng
}.
Arguments t Rng : clear implicits.
Arguments mk {Rng}.

Section WithRandom.

Context {Rng : Type}.

(** [QRandomGenerator::bounded(int highest)] and [generateDouble()],
    and [sin] of <cmath>: library functions, taken as given. *)
Variable bounded : Z -> Rng -> Z * Rng.
Variable generateDouble : Rng -> float * Rng.
Variable sin : float -> float.

Definition set_random (r : Rng) (p : t Rng) : t Rng :=
  mk (status_ p) (active_ p) (waveform_timer_running p)
     (waveform_timer_interval p) (parameter_timer_running p)
     (parameter_timer_interval p) (cycleCounter p)
     (waveform_update_interval_ms_ p) (parameter_update_interval_ms_ p)
     (heart_rate_ p) (respiration_rate_ p) (spo2_ p) (systolic_bp_ p)
     (diastolic_bp_ p) (mean_bp_ p) (etco2_ p) (temperature_ p)
     (temperature2_ p) (ibp1_systolic_ p) (ibp1_diastolic_ p)
     (ibp1_mean_ p) (ibp2_systolic_ p) (ibp2_diastolic_ p) (ibp2_mean_ p)
     (amplitude_ p) (frequency_ p) (noise_ p) (artifacts_ p) r.

Definition set_cycleCounter (c : Z) (p : t Rng) : t Rng :=
  mk (status_ p) (active_ p) (waveform_timer_running p)
     (waveform_timer_interval p) (parameter_timer_running p)
     (parameter_timer_interval p) c
     (waveform_update_interval_ms_ p) (parameter_update_interval_ms_ p)
     (heart_rate_ p) (respiration_rate_ p) (spo2_ p) (systolic_bp_ p)
     (diastolic_bp_ p) (mean_bp_ p) (etco2_ p) (temperature_ p)
     (temperature2_ p) (ibp1_systolic_ p) (ibp1_diastolic_ p)
     (ibp1_mean_ p) (ibp2_systolic_ p) (ibp2_diastolic_ p) (ibp2_mean_ p)
     (amplitude_ p) (frequency_ p) (noise_ p) (artifacts_ p) (random_ p).

(** Connection state and timers, set together by [start]/[stop]. *)
Definition set_run (st : VitalSync.ConnectionStatus) (act timers : bool)
    (p : t Rng) : t Rng :=
  mk st act timers (waveform_timer_interval p) timers
     (parameter_timer_interval p) (cycleCounter p)
     (waveform_update_interval_ms_ p) (parameter_update_interval_ms_ p)
     (heart_rate_ p) (respiration_rate_ p) (spo2_ p) (systolic_bp_ p)
     (diastolic_bp_ p) (mean_bp_ p) (etco2_ p) (temperature_ p)
     (temperature2_ p) (ibp1_systolic_ p) (ibp1_diastolic_ p)
     (ibp1_mean_ p) (ibp2_systolic_ p) (ibp2_diastolic_ p) (ibp2_mean_ p)
     (amplitude_ p) (frequency_ p) (noise_ p) (artifacts_ p) (random_ p).

Definition set_status (st : VitalSync.ConnectionStatus) (p : t Rng) : t Rng :=
  mk st (active_ p) (waveform_timer_running p)
     (waveform_timer_interval p) (parameter_timer_running p)
     (parameter_timer_interval p) (cycleCounter p)
     (waveform_update_interval_ms_ p) (parameter_update_interval_ms_ p)
     (heart_rate_ p) (respiration_rate_ p) (spo2_ p) (systolic_bp_ p)
     (diastolic_bp_ p) (mean_bp_ p) (etco2_ p) (temperature_ p)
     (temperature2_ p) (ibp1_systolic_ p) (ibp1_diastolic_ p)
     (ibp1_mean_ p) (ibp2_systolic_ p) (ibp2_diastolic_ p) (ibp2_mean_ p)
     (amplitude_ p) (frequency_ p) (noise_ p) (artifacts_ p) (random_ p).

Definition load {A : Type} (cfg : QVariantMap) (key : string)
    (conv : QVariant -> A) (dflt : A) : A :=
  match cfg !! key with
  | Some v => conv v
  | None => dflt
  end.

Definition int_field (v : QVariant) : float := of_int (toInt v).

(** [configure]: recognised keys overwrite the baselines, the means
    are recomputed, and the merged settings are written back under
    the provider name "Demo". *)
Definition configure (params : QVariantMap) (p : t Rng)
    (config : ConfigManager.t) : t Rng * ConfigManager.t * bool :=
  let heart_rate := load params "heartRate" int_field (heart_rate_ p) in
  let respiration_rate :=
    load params "respirationRate" int_field (respiration_rate_ p) in
  let spo2 := load params "spo2" int_field (spo2_ p) in
  let systolic_bp := load params "systolicBP" int_field (systolic_bp_ p) in
  let diastolic_bp := load params "diastolicBP" int_field (diastolic_bp_ p) in
  let mean_bp := (diastolic_bp + (systolic_bp - diastolic_bp) / 3)%float in
  let temperature := load params "temperature" toDouble (temperature_ p) in
  let temperature2 := load params "temperature2" toDouble (temperature2_ p) in
  let etco2 := load params "etco2" int_field (etco2_ p) in
  let ibp1_systolic := load params "ibp1Systolic" int_field (ibp1_systolic_ p) in
  let ibp1_diastolic :=
    load params "ibp1Diastolic" int_field (ibp1_diastolic_ p) in
  let ibp1_mean :=
    (ibp1_diastolic + (ibp1_systolic - ibp1_diastolic) / 3)%float in
  let ibp2_systolic := load params "ibp2Systolic" int_field (ibp2_systolic_ p) in
  let ibp2_diastolic :=
    load params "ibp2Diastolic" int_field (ibp2_diastolic_ p) in
  let ibp2_mean :=
    (ibp2_diastolic + (ibp2_systolic - ibp2_diastolic) / 3)%float in
  let interval :=
    load params "UpdateInterval" toInt (waveform_update_interval_ms_ p) in
  let amplitude := load params "amplitude" toDouble (amplitude_ p) in
  let frequency := load params "frequency" toDouble (frequency_ p) in
  let noise := load params "noise" toDouble (noise_ p) in
  let artifacts := load params "artifacts" toBool (artifacts_ p) in
  let p' :=
    mk (status_ p) (active_ p) (waveform_timer_running p)
       (if waveform_timer_running p then interval
        else waveform_timer_interval p)
       (parameter_timer_running p) (parameter_timer_interval p)
       (cycleCounter p) interval (parameter_update_interval_ms_ p)
       heart_rate respiration_rate spo2 systolic_bp diastolic_bp mean_bp
       etco2 temperature temperature2 ibp1_systolic ibp1_diastolic
       ibp1_mean ibp2_systolic ibp2_diastolic ibp2_mean amplitude
       frequency noise artifacts (random_ p) in
  let saved : QVariantMap :=
    <["heartRate" := VDouble heart_rate]>
    (<["respirationRate" := VDouble respiration_rate]>
    (<["spo2" := VDouble spo2]>
    (<["systolicBP" := VDouble systolic_bp]>
    (<["diastolicBP" := VDouble diastolic_bp]>
    (<["temperature" := VDouble temperature]>
    (<["temperature2" := VDouble temperature2]>
    (<["etco2" := VDouble etco2]>
    (<["ibp1Systolic" := VDouble ibp1_systolic]>
    (<["ibp1Diastolic" := VDouble ibp1_diastolic]>
    (<["ibp2Systolic" := VDouble ibp2_systolic]>
    (<["ibp2Diastolic" := VDouble ibp2_diastolic]>
    (<["UpdateInterval" := VInt interval]>
    (<["amplitude" := VDouble amplitude]>
    (<["frequency" := VDouble frequency]>
    (<["noise" := VDouble noise]>
    (<["artifacts" := VBool artifacts]> ∅)))))))))))))))) in
  (p', ConfigManager.SetProviderConfig "Demo" saved config, true).

(** The constructor; [seeded] is the generator after
    [random_.seed(QDateTime::currentMSecsSinceEpoch())]. *)
Definition new (seeded : Rng) (config : ConfigManager.t)
    : t Rng * ConfigManager.t :=
  let p :=
    mk VitalSync.Disconnected false false 40 false
       DEFAULT_PARAMETER_UPDATE_MS 0 40 DEFAULT_PARAMETER_UPDATE_MS
       70 15 98 120 80 93 35 37.0 36.5 125 75 92 15 5 8
       1.0 1.0 0.02 false seeded in
  let providerConfig := ConfigManager.GetProviderConfig "Demo" config in
  if bool_decide (providerConfig = ∅) then (p, config)
  else fst (configure providerConfig p config).

Definition GetName (p : t Rng) : string := "Demo".
Definition isActive (p : t Rng) : bool := active_ p.
Definition GetConnectionStatus (p : t Rng) : VitalSync.ConnectionStatus :=
  status_ p.

(** [start]: the synchronous part.  The 500 ms single-shot it arms
    when it was not yet active is [connection_delay_completed]. *)
Definition start (p : t Rng) : t Rng * bool * list Signal :=
  if active_ p then (p, true, [])
  else (set_status VitalSync.Connecting p, true,
        [connectionStatusChanged VitalSync.Connecting]).

Definition connection_delay_completed (p : t Rng) : t Rng * list Signal :=
  (set_run VitalSync.Connected true true p,
   [connectionStatusChanged VitalSync.Connected]).

Definition stop (p : t Rng) : t Rng * list Signal :=
  if active_ p then
    (set_run VitalSync.Disconnected false false p,
     [connectionStatusChanged VitalSync.Disconnected])
  else (set_status VitalSync.Disconnected p, []).

(** *** Parameter synthesis *)

(** Computations that draw from [random_]. *)
Definition M (A : Type) : Type := Rng -> A * Rng.
Definition ret {A : Type} (a : A) : M A := fun r => (a, r).
Definition bind {A B : Type} (c : M A) (k : A -> M B) : M B :=
  fun r => let '(a, r') := c r in k a r'.

Notation "x <- c ;; k" := (bind c (fun x => k))
  (at level 100, c at next level, right associativity).

(** [cycleCount % every == 0 && random_.bounded(100) < pct]: the draw
    happens only when the first conjunct holds. *)
Definition gate (cycleCount every pct : Z) : M bool :=
  if Z.rem cycleCount every =? 0 then
    b <- bounded 100 ;; ret (b <? pct)
  else ret false.

Definition generateExtremeValue (baseValue minValue maxValue : float)
    (cycleCount : Z) : M float :=
  hit <- gate cycleCount 8 40 ;;
  if hit : bool then
    side <- bounded 100 ;;
    if side <? 60 then
      b <- bounded 20 ;;
      let exceedFactor := (1.10 + of_int b / 100.0)%float in
      ret (maxValue * exceedFactor)%float
    else
      b <- bounded 20 ;;
      let exceedFactor := (0.90 - of_int b / 100.0)%float in
      ret (minValue * exceedFactor)%float
  else ret baseValue.

Definition generateCriticalExtremeValue (baseValue minValue maxValue : float)
    (cycleCount : Z) : M float :=
  hit <- gate cycleCount 5 60 ;;
  if hit : bool then
    side <- bounded 100 ;;
    if side <? 70 then
      b <- bounded 25 ;;
      let exceedFactor := (1.15 + of_int b / 100.0)%float in
      ret (maxValue * exceedFactor)%float
    else
      b <- bounded 25 ;;
      let exceedFactor := (0.85 - of_int b / 100.0)%float in
      ret (minValue * exceedFactor)%float
  else ret baseValue.

(** [std::clamp(v, lo, hi)]. *)
Definition clamp (v lo hi : float) : float :=
  if (v <? lo)%float then lo else if (hi <? v)%float then hi else v.

Definition addVariation (base_value variation_pct : float) : M float :=
  let variation_pct :=
    if ((variation_pct <? 0.0) || (1.0 <? variation_pct))%float
    then clamp variation_pct 0.0 1.0 else variation_pct in
  let max_variation := (base_value * variation_pct)%float in
  g <- generateDouble ;;
  let random_factor := (g * 2.0 - 1.0)%float in
  let variation := (random_factor * max_variation)%float in
  ret (base_value + variation)%float.

(** The values one parameter tick computes, as the locals of
    [generateParameterData] hold them when the signals are emitted.  The
    three systolic locals are assigned twice, by their initialiser and by
    the statement that forces them above the diastolic value; the
    [sampled...] fields keep what the initialiser gave them. *)
Record Sample := mkSample {
  heartRate : Z;
  respirationRate : Z;
  spo2 : Z;
  systolicBP : Z;
  diastolicBP : Z;
  meanBP : Z;
  ibp1Systolic : Z;
  ibp1Diastolic : Z;
  ibp1Mean : Z;
  ibp2Systolic : Z;
  ibp2Diastolic : Z;
  ibp2Mean : Z;
  temperature : float;
  temperature2 : float;
  etco2 : Z;
  sampledSystolicBP : Z;
  sampledIbp1Systolic : Z;
  sampledIbp2Systolic : Z
}.

(** The body of the [try] block up to the emissions; [cc] is the
    cycle counter after its increment, [p] supplies the baselines
    copied under the mutex. *)
Definition synthesize (cc : Z) (p : t Rng) : M Sample :=
  let heart_rate := heart_rate_ p in
  let respiration_rate := respiration_rate_ p in
  let spo2_value := spo2_ p in
  let systolic_bp := systolic_bp_ p in
  let diastolic_bp := diastolic_bp_ p in
  let temperature_value := temperature_ p in
  let temperature2_value := temperature2_ p in
  let etco2_value := etco2_ p in
  let ibp2_sys := ibp2_systolic_ p in
  let ibp2_dia := ibp2_diastolic_ p in
  (* heart rate *)
  let hrFactor := (sin (of_int cc * 0.005) * 3.0)%float in
  let hr_base := (heart_rate + hrFactor)%float in
  hr_base <- generateCriticalExtremeValue hr_base 40 150 cc ;;
  v <- addVariation hr_base 0.02 ;;
  let heartRate := qRound v in
  (* respiration rate *)
  let rrFactor :=
    (if heart_rate <? of_int heartRate then 0.2 else -0.2)%float in
  let rr_base := (respiration_rate + rrFactor)%float in
  rr_base <- generateExtremeValue rr_base 8 30 (cc + 3) ;;
  v <- addVariation rr_base 0.03 ;;
  let respirationRate := qRound v in
  (* SpO2 *)
  let spo2Factor :=
    (if heart_rate + 10 <? of_int heartRate then -0.2 else 0.1)%float in
  let spo2_base := (spo2_value + spo2Factor)%float in
  spo2_base <- generateCriticalExtremeValue spo2_base 94 100 (cc + 7) ;;
  hypox <- gate cc 30 25 ;;
  spo2_base <-
    (if hypox : bool then
       b <- bounded 16 ;; ret (70.0 + of_int b)%float
     else ret spo2_base) ;;
  v <- addVariation spo2_base 0.01 ;;
  let spo2 := qRound v in
  let spo2 := Z.min spo2 100 in
  (* non-invasive blood pressure *)
  let sysFactor :=
    (if heart_rate <? of_int heartRate then 0.5 else -0.3)%float in
  let diaFactor :=
    (if heart_rate <? of_int heartRate then -0.3 else 0.2)%float in
  let sys_base := (systolic_bp + sysFactor)%float in
  let dia_base := (diastolic_bp + diaFactor)%float in
  sys_base <- generateCriticalExtremeValue sys_base 90 140 (cc + 11) ;;
  dia_base <- generateCriticalExtremeValue dia_base 60 90 (cc + 13) ;;
  v <- addVariation sys_base 0.03 ;;
  let sampledSystolicBP := qRound v in
  v <- addVariation dia_base 0.03 ;;
  let diastolicBP := qRound v in
  let systolicBP :=
    if sampledSystolicBP <=? diastolicBP then diastolicBP + 20
    else sampledSystolicBP in
  let meanBP :=
    qRound (of_int diastolicBP + of_int (systolicBP - diastolicBP) / 3.0)%float in
  (* invasive pressure 1 (arterial) *)
  let ibp1_sys_base := of_int (systolicBP + 5) in
  let ibp1_dia_base := of_int (diastolicBP - 2) in
  ibp1_sys_base <- generateExtremeValue ibp1_sys_base 90 140 (cc + 17) ;;
  ibp1_dia_base <- generateExtremeValue ibp1_dia_base 60 90 (cc + 19) ;;
  v <- addVariation ibp1_sys_base 0.02 ;;
  let sampledIbp1Systolic := qRound v in
  v <- addVariation ibp1_dia_base 0.02 ;;
  let ibp1Diastolic := qRound v in
  let ibp1Systolic :=
    if sampledIbp1Systolic <=? ibp1Diastolic then ibp1Diastolic + 20
    else sampledIbp1Systolic in
  let ibp1Mean :=
    qRound (of_int ibp1Diastolic
            + of_int (ibp1Systolic - ibp1Diastolic) / 3.0)%float in
  (* invasive pressure 2 (central venous) *)
  let cvpFactor := sin (of_int (cc + 50) * 0.025)%float in
  let ibp2_sys_base := (ibp2_sys + cvpFactor * 2)%float in
  let ibp2_dia_base := (ibp2_dia + cvpFactor * 1.5)%float in
  ibp2_sys_base <- generateExtremeValue ibp2_sys_base 2 8 (cc + 23) ;;
  ibp2_dia_base <- generateExtremeValue ibp2_dia_base 2 8 (cc + 29) ;;
  v <- addVariation ibp2_sys_base 0.08 ;;
  let sampledIbp2Systolic := qRound v in
  v <- addVariation ibp2_dia_base 0.08 ;;
  let ibp2Diastolic := qRound v in
  let ibp2Systolic :=
    if sampledIbp2Systolic <=? ibp2Diastolic then ibp2Diastolic + 2
    else sampledIbp2Systolic in
  let ibp2Mean :=
    qRound (of_int ibp2Diastolic
            + of_int (ibp2Systolic - ibp2Diastolic) / 3.0)%float in
  (* temperatures *)
  temp_base <- generateExtremeValue temperature_value 36.0 38.0 (cc + 31) ;;
  fever <- gate cc 25 30 ;;
  temp_base <-
    (if fever : bool then
       b <- bounded 200 ;; ret (39.0 + of_int b / 100.0)%float
     else
       hypothermia <- gate cc 40 20 ;;
       if hypothermia : bool then
         b <- bounded 200 ;; ret (33.0 + of_int b / 100.0)%float
       else ret temp_base) ;;
  temperature <- addVariation temp_base 0.005 ;;
  let temp2Factor :=
    (if (heartRate <? 60)%Z then -0.1
     else if (100 <? heartRate)%Z then 0.1 else 0)%float in
  let temp2_base := (temperature2_value + temp2Factor)%float in
  temp2_base <- generateExtremeValue temp2_base 35.5 37.5 (cc + 37) ;;
  temperature2 <- addVariation temp2_base 0.008 ;;
  (* end-tidal CO2 *)
  let etco2Factor :=
    (if (20 <? respirationRate)%Z
     then -0.2 * of_int (respirationRate - 20)
     else if (respirationRate <? 10)%Z
     then 0.3 * of_int (10 - respirationRate)
     else 0)%float in
  let etco2_base := (etco2_value + etco2Factor)%float in
  etco2_base <- generateExtremeValue etco2_base 35 45 (cc + 41) ;;
  capnia <- gate cc 22 35 ;;
  etco2_base <-
    (if capnia : bool then
       side <- bounded 100 ;;
       if side <? 50 then b <- bounded 31 ;; ret (of_int (50 + b))
       else b <- bounded 16 ;; ret (of_int (15 + b))
     else ret etco2_base) ;;
  v <- addVariation etco2_base 0.04 ;;
  let etco2 := qRound v in
  ret (mkSample heartRate respirationRate spo2 systolicBP diastolicBP meanBP
         ibp1Systolic ibp1Diastolic ibp1Mean ibp2Systolic ibp2Diastolic
         ibp2Mean temperature temperature2 etco2
         sampledSystolicBP sampledIbp1Systolic sampledIbp2Systolic).

(** The fifteen [emit parameterDataReceived(...)] statements, in
    order; the [int] and [double] locals convert to the signal's
    [float] argument. *)
Definition emissions (timestamp : Z) (s : Sample) : list Signal :=
  [ parameterDataReceived VitalSync.HR timestamp (float_of_int (heartRate s));
    parameterDataReceived VitalSync.RR timestamp (float_of_int (respirationRate s));
    parameterDataReceived VitalSync.SPO2 timestamp (float_of_int (spo2 s));
    parameterDataReceived VitalSync.NIBP_SYS timestamp (float_of_int (systolicBP s));
    parameterDataReceived VitalSync.NIBP_DIA timestamp (float_of_int (diastolicBP s));
    parameterDataReceived VitalSync.NIBP_MAP timestamp (float_of_int (meanBP s));
    parameterDataReceived VitalSync.ETCO2 timestamp (float_of_int (etco2 s));
    parameterDataReceived VitalSync.TEMP1 timestamp (to_float (temperature s));
    parameterDataReceived VitalSync.TEMP2 timestamp (to_float (temperature2 s));
    parameterDataReceived VitalSync.IBP1_SYS timestamp (float_of_int (ibp1Systolic s));
    parameterDataReceived VitalSync.IBP1_DIA timestamp (float_of_int (ibp1Diastolic s));
    parameterDataReceived VitalSync.IBP1_MAP timestamp (float_of_int (ibp1Mean s));
    parameterDataReceived VitalSync.IBP2_SYS timestamp (float_of_int (ibp2Systolic s));
    parameterDataReceived VitalSync.IBP2_DIA timestamp (float_of_int (ibp2Diastolic s));
    parameterDataReceived VitalSync.IBP2_MAP timestamp (float_of_int (ibp2Mean s)) ].

(** *** The two timer slots *)

(** The receiver connected to the provider's data signals.  A slot
    invoked by a direct connection runs inside the [emit] statement;
    [Some e] is a slot that throws [e]. *)
Variable slot : Signal -> option exn.

(** Emitting a sequence of signals: each is delivered in turn, and a
    throwing slot ends the sequence with the signal that was being
    delivered. *)
Fixpoint emit_all (sigs : list Signal) : list Signal * option exn :=
  match sigs with
  | [] => ([], None)
  | sg :: rest =>
      match slot sg with
      | Some e => ([sg], Some e)
      | None => let '(done, e) := emit_all rest in (sg :: done, e)
      end
  end.

(** What one firing of a timer slot leaves behind. *)
Record Tick := mkTick {
  after : t Rng;            (* the provider afterwards *)
  emitted : list Signal;    (* signals emitted, in order *)
  critical : list string;   (* [qCritical] lines *)
  escaped : option exn      (* an exception that left the slot *)
}.

(** [generateParameterData]; [now] is
    [QDateTime::currentMSecsSinceEpoch()]. *)
Definition generateParameterData (now : Z) (p : t Rng) : Tick :=
  if negb (bool_decide (status_ p = VitalSync.Connected)) || negb (active_ p)
  then mkTick p [] [] None
  else
    (* try { *)
    let cc := cycleCounter p + 1 in
    let '(smp, r) := synthesize cc p (random_ p) in
    let p' := set_random r (set_cycleCounter cc p) in
    let '(sent, thrown) := emit_all (emissions now smp) in
    match thrown with
    | None => mkTick p' sent [] None
    (* } catch (const std::exception& e) { *)
    | Some (std_exception what) =>
        mkTick p' sent
          [("Exception in generateParameterData: " ++ what)%string] None
    (* } catch (...) { *)
    | Some other_exception =>
        mkTick p' sent ["Unknown exception in generateParameterData"%string]
          None
    end.

(** A waveform generator as stored in [waveform_generators_]: a
    closure over the provider, called with the elapsed time and the
    number of points; it may update the provider (random state,
    baselines) and, like any call, may throw. *)
Definition generator : Type :=
  float -> Z -> t Rng -> outcome (list float * t Rng).

Variables generateECG generateRespiration generatePlethysmograph
  generateArterialPressure generateCapnograph : generator.

(** [initialize]: the generator map. *)
Definition waveform_generators_ : gmap Z generator :=
  <[VitalSync.CAPNO := generateCapnograph]>
  (<[VitalSync.ABP := generateArterialPressure]>
  (<[VitalSync.PLETH := generatePlethysmograph]>
  (<[VitalSync.RESP := generateRespiration]>
  (<[VitalSync.ECG_III := generateECG]>
  (<[VitalSync.ECG_II := generateECG]>
  (<[VitalSync.ECG_I := generateECG]> ∅)))))).

(** The loop of [generateWaveformData] over the map's entries. *)
Fixpoint waveform_loop (entries : list (Z * generator))
    (elapsedTimeSeconds : float) (timestamp : Z) (p : t Rng)
    (sent : list Signal) : Tick :=
  match entries with
  | [] => mkTick p sent [] None
  | (waveformId, generatorFunc) :: rest =>
      let pointsPerUpdate := 3 in
      match generatorFunc elapsedTimeSeconds pointsPerUpdate p with
      | Thrown e => mkTick p sent [] (Some e)
      | Returned (data, p') =>
          let sg := waveformDataReceived waveformId timestamp data in
          match slot sg with
          | Some e => mkTick p' (sent ++ [sg]) [] (Some e)
          | None =>
              waveform_loop rest elapsedTimeSeconds timestamp p'
                (sent ++ [sg])
          end
      end
  end.

(** [generateWaveformData]; [elapsed] is [elapsed_timer_.elapsed()]
    in milliseconds.  The iteration order of the unordered map is the
    order of [map_to_list]. *)
Definition generateWaveformData (elapsed now : Z) (p : t Rng) : Tick :=
  if negb (active_ p) then mkTick p [] [] None
  else
    let elapsedTimeSeconds := (of_int elapsed / 1000.0)%float in
    waveform_loop (map_to_list waveform_generators_) elapsedTimeSeconds now
      p [].

End WithRandom.

#[global] Instance provider_ops {Rng : Type} : IDataProvider.Ops (t Rng) := {
  IDataProvider.start := start;
  IDataProvider.stop := stop;
  IDataProvider.isActive := isActive;
  IDataProvider.GetName := GetName;
  IDataProvider.configure := configure
}.

End DemoDataProvider.

(** ** data_manager.cpp *)

Module DataManager.

(** The manager's own signals. *)
Inductive Signal :=
| activeProviderChanged (providerName : string)
| connectionStatusChanged (status : VitalSync.ConnectionStatus)
| errorOccurred (errorCode : Z) (errorMessage : string).

(** What a call leaves behind: the manager's signals, its [qWarning]
    lines, and what the models it called emitted. *)
Inductive Output :=
| emit (s : Signal)
| qWarning (msg : string)
| waveform_output (id : Z) (o : WaveformModel.Output)
| parameter_output (id : Z) (s : ParameterModel.Signal).

(** Provider objects live in [heap], by address; [providers_] and
    [current_provider_] hold addresses, as the shared pointers do.
    [connections] lists the providers whose four signals are connected
    to the manager's slots, once per [connect]. *)
Record t {P : Type} := mk {
  heap : gmap nat P;
  providers_ : gmap string nat;
  current_provider_ : option nat;
  connections : list nat;
  waveform_models_ : gmap Z WaveformModel.t;
  parameter_models_ : gmap Z ParameterModel.t
}.
Arguments t P : clear implicits.
Arguments mk {P}.

(** The manager together with the configuration manager singleton. *)
Definition World (P : Type) : Type := t P * ConfigManager.t.

Section Manager.

Context {P : Type} `{IDataProvider.Ops P}.

(** The manager as its constructor leaves it. *)
Definition new : t P := mk ∅ ∅ None [] ∅ ∅.

Definition set_heap (h : gmap nat P) (dm : t P) : t P :=
  mk h (providers_ dm) (current_provider_ dm) (connections dm)
     (waveform_models_ dm) (parameter_models_ dm).

Definition set_providers (ps : gmap string nat) (dm : t P) : t P :=
  mk (heap dm) ps (current_provider_ dm) (connections dm)
     (waveform_models_ dm) (parameter_models_ dm).

Definition set_current (c : option nat) (dm : t P) : t P :=
  mk (heap dm) (providers_ dm) c (connections dm)
     (waveform_models_ dm) (parameter_models_ dm).

Definition set_connections (cs : list nat) (dm : t P) : t P :=
  mk (heap dm) (providers_ dm) (current_provider_ dm) cs
     (waveform_models_ dm) (parameter_models_ dm).

Definition set_waveform_models (ms : gmap Z WaveformModel.t) (dm : t P) : t P :=
  mk (heap dm) (providers_ dm) (current_provider_ dm) (connections dm)
     ms (parameter_models_ dm).

Definition set_parameter_models (ms : gmap Z ParameterModel.t) (dm : t P)
    : t P :=
  mk (heap dm) (providers_ dm) (current_provider_ dm) (connections dm)
     (waveform_models_ dm) ms.

Definition GetWaveformModel (waveformId : Z) (dm : t P)
    : option WaveformModel.t :=
  waveform_models_ dm !! waveformId.

Definition GetParameterModel (parameterId : Z) (dm : t P)
    : option ParameterModel.t :=
  parameter_models_ dm !! parameterId.

Definition GetCurrentProvider (dm : t P) : option P :=
  a ← current_provider_ dm; heap dm !! a.

Definition HandleWaveformData (waveformType timestamp : Z) (data : list float)
    (dm : t P) : t P * list Output :=
  match GetWaveformModel waveformType dm with
  | Some model =>
      if WaveformModel.isActive model then
        let '(model', out) :=
          WaveformModel.addWaveformData timestamp data model in
        (set_waveform_models (<[waveformType := model']> (waveform_models_ dm)) dm,
         waveform_output waveformType <$> out)
      else (dm, [])
  | None => (dm, [])
  end.

Definition HandleParameterData (now : Z) (parameterType timestamp : Z)
    (value : float) (dm : t P) : t P * list Output :=
  match GetParameterModel parameterType dm with
  | Some model =>
      if ParameterModel.isActive model then
        let '(model', out) :=
          ParameterModel.UpdateValue now timestamp value model in
        (set_parameter_models
           (<[parameterType := model']> (parameter_models_ dm)) dm,
         parameter_output parameterType <$> out)
      else (dm, [])
  | None => (dm, [])
  end.

Definition HandleConnectionStatusChanged (status : VitalSync.ConnectionStatus)
    (dm : t P) : t P * list Output :=
  (dm, [emit (connectionStatusChanged status)]).

Definition HandleProviderError (errorCode : Z) (errorMessage : string)
    (dm : t P) : t P * list Output :=
  (dm, [emit (errorOccurred errorCode errorMessage)]).

(** The slot a provider signal is connected to. *)
Definition handle (now : Z) (sg : IDataProvider.Signal) (dm : t P)
    : t P * list Output :=
  match sg with
  | IDataProvider.waveformDataReceived ty ts data =>
      HandleWaveformData ty ts data dm
  | IDataProvider.parameterDataReceived ty ts v =>
      HandleParameterData now ty ts v dm
  | IDataProvider.connectionStatusChanged st =>
      HandleConnectionStatusChanged st dm
  | IDataProvider.errorOccurred code msg =>
      HandleProviderError code msg dm
  end.

(** Delivery of the signals provider [a] emitted: each runs the slot
    once per connection of [a]. *)
Definition deliver (now : Z) (a : nat) (sigs : list IDataProvider.Signal)
    (dm : t P) : t P * list Output :=
  fold_left
    (fun acc sg =>
       fold_left
         (fun acc _ =>
            let '(dm', out) := handle now sg (fst acc) in
            (dm', snd acc ++ out))
         (filter (fun b => b = a) (connections (fst acc))) acc)
    sigs (dm, []).

Definition connectProviderSignals (dm : t P) : t P :=
  match current_provider_ dm with
  | Some a => set_connections (connections dm ++ [a]) dm
  | None => dm
  end.

Definition disconnectProviderSignals (dm : t P) : t P :=
  match current_provider_ dm with
  | Some a => set_connections (filter (fun b => b <> a) (connections dm)) dm
  | None => dm
  end.

Definition saveCurrentProviderToSettings (w : World P) : World P :=
  let '(dm, config) := w in
  match GetCurrentProvider dm with
  | Some p =>
      (dm, ConfigManager.SetLastProvider (IDataProvider.GetName p) config)
  | None => w
  end.

(** [current_provider_->stop()] with delivery of what it emits. *)
Definition stop_provider (now : Z) (a : nat) (dm : t P) : t P * list Output :=
  match heap dm !! a with
  | Some p =>
      let '(p', sigs) := IDataProvider.stop p in
      deliver now a sigs (set_heap (<[a := p']> (heap dm)) dm)
  | None => (dm, [])
  end.

Definition registerProvider (provider : P) (dm : t P) : t P :=
  let a := fresh (dom (heap dm)) in
  let name := IDataProvider.GetName provider in
  set_providers (<[name := a]> (providers_ dm))
    (set_heap (<[a := provider]> (heap dm)) dm).

Definition SetActiveProvider (now : Z) (providerName : string) (w : World P)
    : World P * bool * list Output :=
  let '(dm, config) := w in
  match (if bool_decide (providerName = ""%string)
         then current_provider_ dm else None) with
  | Some a =>
      (* Deactivate current provider *)
      let dm1 := disconnectProviderSignals dm in
      let '(dm2, out) := stop_provider now a dm1 in
      let dm3 := set_current None dm2 in
      (* Save the setting *)
      let w4 := saveCurrentProviderToSettings (dm3, config) in
      (w4, true, out ++ [emit (activeProviderChanged providerName)])
  | None =>
      match providers_ dm !! providerName with
      | None =>
          (w, false, [qWarning ("Unknown provider: " ++ providerName)%string])
      | Some b =>
          (* First, stop and disconnect old provider *)
          let '(dm2, out) :=
            match current_provider_ dm with
            | Some a => stop_provider now a (disconnectProviderSignals dm)
            | None => (dm, [])
            end in
          (* Activate new provider *)
          let dm3 := set_current (Some b) dm2 in
          (* Connect new provider signals *)
          let dm4 := connectProviderSignals dm3 in
          (* Save the provider name in configuration *)
          let config' := ConfigManager.SetLastProvider providerName config in
          ((dm4, config'), true,
           out ++ [emit (activeProviderChanged providerName)])
      end
  end.

Definition stopAcquisition (now : Z) (dm : t P) : t P * list Output :=
  match current_provider_ dm with
  | Some a => stop_provider now a dm
  | None => (dm, [])
  end.

(** The loop of [startAcquisition] that forces every parameter model
    active. *)
Definition activate_parameter_models (dm : t P) : t P * list Output :=
  fold_left
    (fun acc km =>
       let '(id, model) := km in
       if ParameterModel.isActive model then acc
       else
         let '(model', out) := ParameterModel.SetActive true model in
         (set_parameter_models
            (<[id := model']> (parameter_models_ (fst acc))) (fst acc),
          snd acc ++ (parameter_output id <$> out)))
    (map_to_list (parameter_models_ dm)) (dm, []).

Definition startAcquisition (now : Z) (dm : t P) : t P * bool * list Output :=
  match current_provider_ dm with
  | None =>
      (dm, false,
       [qWarning "Cannot start acquisition: No active provider";
        emit (errorOccurred VitalSync.ConfigurationError
                "Cannot start acquisition: No active provider")])
  | Some a =>
      match heap dm !! a with
      | None => (dm, false, [])
      | Some p =>
          let '(dm1, out1) :=
            if IDataProvider.isActive p then stop_provider now a dm
            else (dm, []) in
          let '(dm2, out2) := activate_parameter_models dm1 in
          match heap dm2 !! a with
          | None => (dm2, false, out1 ++ out2)
          | Some p2 =>
              let '(p3, success, sigs) := IDataProvider.start p2 in
              let '(dm3, out3) :=
                deliver now a sigs (set_heap (<[a := p3]> (heap dm2)) dm2) in
              (dm3, success, out1 ++ out2 ++ out3)
          end
      end
  end.

Definition configureCurrentProvider (params : QVariantMap) (w : World P)
    : World P * bool :=
  let '(dm, config) := w in
  match current_provider_ dm with
  | None => (w, false)
  | Some a =>
      match heap dm !! a with
      | None => (w, false)
      | Some p =>
          let '(p', config', ok) := IDataProvider.configure params p config in
          ((set_heap (<[a := p']> (heap dm)) dm, config'), ok)
      end
  end.

Section Models.

Variable sinf : float -> float.

(** [for (int i = 0; i < 13; ++i)]: one waveform model per
    counter value. *)
Definition initializeWaveformModels (config : ConfigManager.t) (dm : t P)
    : t P :=
  for_loop 13
    (fun i dm =>
       let type := Z.of_nat i in
       let model := WaveformModel.new sinf config type in
       set_waveform_models (<[type := model]> (waveform_models_ dm)) dm)
    dm.

(** [for (int i = 0; i < 18; ++i)]: one parameter model per
    counter value. *)
Definition initializeParameterModels (config : ConfigManager.t) (now : Z)
    (dm : t P) : t P :=
  for_loop 18
    (fun i dm =>
       let type := Z.of_nat i in
       let model := ParameterModel.new config now type in
       set_parameter_models (<[type := model]> (parameter_models_ dm)) dm)
    dm.

End Models.

(** [providers_.begin().key()]: the least registered name. *)
Definition first_provider (dm : t P) : option string :=
  foldr
    (fun k acc =>
       match acc with
       | Some k' => if String.ltb k k' then Some k else Some k'
       | None => Some k
       end)
    None (fst <$> map_to_list (providers_ dm)).

End Manager.

(** [initialize]: the demo provider is created and registered, the
    models are created, and the last used provider is activated.
    [seeded] is the demo provider's seeded random generator. *)
Definition initialize {Rng : Type} (sinf : float -> float) (seeded : Rng)
    (now : Z) (w : World (DemoDataProvider.t Rng))
    : World (DemoDataProvider.t Rng) * bool * list Output :=
  let '(dm, config) := w in
  let '(demoProvider, config) := DemoDataProvider.new seeded config in
  let dm := registerProvider demoProvider dm in
  let dm := initializeWaveformModels sinf config dm in
  let dm := initializeParameterModels config now dm in
  let lastProvider := ConfigManager.GetLastProvider config in
  if negb (bool_decide (lastProvider = ""%string)) then
    let '(w', _, out) := SetActiveProvider now lastProvider (dm, config) in
    (w', true, out)
  else
    match first_provider dm with
    | Some name =>
        let '(w', _, out) := SetActiveProvider now name (dm, config) in
        (w', true, out)
    | None => ((dm, config), true, [])
    end.

End DataManager.

(** * Definitions used in the statements *)

(** ** Parameter model *)

Module ParameterModelSpec.
Import ParameterModel.

(** The priority order of the specification: above high critical,
    else above high warning, else below low critical, else below low
    warning, else normal. *)
Definition severity_by_priority (lowCritical lowWarning highWarning highCritical v : float)
    : AlarmState :=
  if (highCritical <? v)%float then HighCritical
  else if (highWarning <? v)%float then HighWarning
  else if (v <? lowCritical)%float then LowCritical
  else if (v <? lowWarning)%float then LowWarning
  else Normal.

(** A heart-rate model with the limits (40, 50, 120, 150). *)
Definition hr_model : t := new ConfigManager.empty 0 VitalSync.HR.

(** The severities reported after each of a sequence of updates
    [(timestamp, value)], applied in order. *)
Fixpoint severities (now : Z) (updates : list (Z * float)) (m : t)
    : list AlarmState :=
  match updates with
  | [] => []
  | (ts, v) :: rest =>
      let m' := fst (UpdateValue now ts v m) in
      GetAlarmState m' :: severities now rest m'
  end.

End ParameterModelSpec.

(** ** Waveform model *)

Module WaveformModelSpec.
Import WaveformModel.

(** A freshly constructed ECG II model whose stored configuration asks
    for a buffer of five samples; the seed function is immaterial. *)
Definition fresh5 : t :=
  new (fun _ => 0%float)
    (ConfigManager.SetWaveformConfig VitalSync.ECG_II
       {["bufferSize" := VInt 5]} ConfigManager.empty)
    VitalSync.ECG_II.

(** A freshly constructed ECG I model over an empty configuration. *)
Definition fresh_default : t :=
  new (fun _ => 0%float) ConfigManager.empty VitalSync.ECG_I.

(** The phase of the [i]-th seed sample of a buffer of [size]. *)
Definition phase (size : Z) (i : nat) : float :=
  (of_int (Z.of_nat i) / of_int size * 2 * M_PI)%float.

(** The last [n] elements of a list (all of it when it is shorter). *)
Definition last_n {A : Type} (n : nat) (l : list A) : list A :=
  drop (length l - n) l.

(** Batches that [addWaveformData] accepts one after the other on a model
    whose last accepted timestamp is [last]: none is empty, and each
    timestamp is later than the one before (any timestamp is, while the
    stored one is 0). *)
Fixpoint in_order (last : Z) (batches : list (Z * list float)) : Prop :=
  match batches with
  | [] => True
  | (ts, data) :: rest =>
      data <> [] /\ (last < ts \/ last = 0) /\ in_order ts rest
  end.

(** The calls of [addWaveformData] for a sequence of batches. *)
Definition add_all (batches : list (Z * list float)) (m : t) : t :=
  fold_left (fun acc b => fst (addWaveformData (fst b) (snd b) acc)) batches m.

End WaveformModelSpec.

(** ** Demo provider *)

Module DemoDataProviderSpec.
Import DemoDataProvider.

(** The mean pressure as [generateParameterData] computes it from a
    diastolic and a systolic value:
    [qRound(dia + (sys - dia) / 3.0)]. *)
Definition mean_of (dia sys : Z) : Z :=
  qRound (of_int dia + of_int (sys - dia) / 3.0)%float.

(** [m] is the integer nearest to [dia + (sys - dia) / 3]: three times
    [m] is within 1 of [2 dia + sys]. *)
Definition nearest_third (dia sys m : Z) : Prop :=
  Z.abs (3 * m - (2 * dia + sys)) <= 1.

(** The two assignments the code makes after sampling a group: the
    systolic value is the sampled one, replaced by the diastolic value plus
    [margin] exactly when the sampled one was not above the diastolic
    value, and the mean is computed from the two resulting values. *)
Definition forced (margin sampled sys dia mean : Z) : Prop :=
  sys = (if sampled <=? dia then dia + margin else sampled)
  /\ mean = mean_of dia sys.

(** What every tick's sample satisfies, whatever was drawn. *)
Definition sample_ok (s : Sample) : Prop :=
  spo2 s <= 100
  /\ forced 20 (sampledSystolicBP s) (systolicBP s) (diastolicBP s) (meanBP s)
  /\ forced 20 (sampledIbp1Systolic s) (ibp1Systolic s) (ibp1Diastolic s)
       (ibp1Mean s)
  /\ forced 2 (sampledIbp2Systolic s) (ibp2Systolic s) (ibp2Diastolic s)
       (ibp2Mean s).

(** The pressures considered: within [-300, 300] every [int] the tick
    computes from a sampled pressure is far from [INT_MAX], and every
    [float] it emits for one is exact. *)
Definition in_range (n : Z) : bool := (-300 <=? n) && (n <=? 300).

(** The six pressures a tick samples, before any forcing. *)
Definition sampled_pressures (s : Sample) : list Z :=
  [ sampledSystolicBP s; diastolicBP s;
    sampledIbp1Systolic s; ibp1Diastolic s;
    sampledIbp2Systolic s; ibp2Diastolic s ].

Definition sampled_in_range (s : Sample) : Prop :=
  forallb in_range (sampled_pressures s) = true.

(** One blood pressure group of a tick, in terms of the [int] locals
    [sampled] (the systolic value as sampled), [sys], [dia] and [mean] (as
    emitted).  The emitted systolic value is the sampled one when that is
    above the diastolic value and the diastolic value plus [margin]
    otherwise; either way it is above the diastolic value.  The mean is
    [qRound(dia + (sys - dia) / 3.0)], which is the integer nearest to
    [dia + (sys - dia) / 3].  The three [float] values emitted convert
    back to the three integers, and the emitted systolic [float] is above
    the emitted diastolic one. *)
Definition bp_group (margin sampled sys dia mean : Z) : Prop :=
  sys = (if sampled <=? dia then dia + margin else sampled)
  /\ dia < sys
  /\ mean = mean_of dia sys
  /\ nearest_third dia sys mean
  /\ trunc (float_of_int sys) = sys
  /\ trunc (float_of_int dia) = dia
  /\ trunc (float_of_int mean) = mean
  /\ (float_of_int dia <? float_of_int sys)%float = true.

(** The three signals of a group, as [generateParameterData] emits
    them. *)
Definition group_signals (sysId diaId mapId timestamp sys dia mean : Z)
    : list IDataProvider.Signal :=
  [ IDataProvider.parameterDataReceived sysId timestamp (float_of_int sys);
    IDataProvider.parameterDataReceived diaId timestamp (float_of_int dia);
    IDataProvider.parameterDataReceived mapId timestamp (float_of_int mean) ].

Definition mean_check (dia sys : Z) : bool :=
  Z.abs (3 * mean_of dia sys - (2 * dia + sys)) <=? 1.

(** Every pair [-R <= dia < sys <= R]. *)
Definition mean_check_upto (R : Z) : bool :=
  forallb
    (fun dia => forallb (fun sys => mean_check dia sys) (seqZ (dia + 1) (R - dia)))
    (seqZ (- R) (2 * R + 1)).

(** The [float] images of the integers of [-R, R], in order. *)
Definition float_table (R : Z) : list float :=
  map float_of_int (seqZ (- R) (2 * R + 1)).

(** Each element is below all later ones. *)
Fixpoint increasing (l : list float) : bool :=
  match l with
  | [] => true
  | x :: rest => forallb (fun y => (x <? y)%float) rest && increasing rest
  end.

(** Every integer of [-R, R] converts to [float] and back unchanged. *)
Definition exact_upto (R : Z) : bool :=
  forallb (fun n => trunc (float_of_int n) =? n) (seqZ (- R) (2 * R + 1)).

(** The sample behind a firing of the parameter timer. *)
Definition sample_of {Rng : Type} (bounded : Z -> Rng -> Z * Rng)
    (generateDouble : Rng -> float * Rng) (sin : float -> float) (p : t Rng)
    : Sample :=
  fst (synthesize bounded generateDouble sin (cycleCounter p + 1) p (random_ p)).

(** A generator stub for worked examples: every [bounded] draw is
    [highest - 1] (no gate opens), every [generateDouble] draw is 0.5 (no
    variation); the state counts the draws. *)
Definition quiet_bounded (highest : Z) (r : nat) : Z * nat := (highest - 1, S r).
Definition quiet_double (r : nat) : float * nat := (0.5%float, S r).
Definition flat_sin (x : float) : float := 0%float.

(** A demo provider configured for a blood pressure of 82/80, connected
    and running. *)
Definition narrow_pulse : t nat :=
  let config :=
    ConfigManager.SetProviderConfig "Demo"
      (<["systolicBP" := VInt 82]> {["diastolicBP" := VInt 80]})
      ConfigManager.empty in
  fst (connection_delay_completed (fst (new 0%nat config))).

(** A demo provider configured for a blood pressure of 80/80 and a
    central venous pressure of 5/5, connected and running. *)
Definition level_pulse : t nat :=
  let config :=
    ConfigManager.SetProviderConfig "Demo"
      (<["systolicBP" := VInt 80]>
       (<["diastolicBP" := VInt 80]>
       (<["ibp2Systolic" := VInt 5]> {["ibp2Diastolic" := VInt 5]})))
      ConfigManager.empty in
  fst (connection_delay_completed (fst (new 0%nat config))).

(** The [qCritical] line of the handler that catches [e]. *)
Definition critical_line (e : exn) : string :=
  match e with
  | std_exception what => "Exception in generateParameterData: " ++ what
  | other_exception => "Unknown exception in generateParameterData"
  end.

(** The waveform identifier a signal carries, if it is a waveform
    signal. *)
Definition waveform_id_of (sg : Signal) : option Z :=
  match sg with
  | waveformDataReceived waveformType _ _ => Some waveformType
  | _ => None
  end.

(** A receiver that throws [std::runtime_error("full")] when handed an
    SpO2 value, and returns otherwise. *)
Definition spo2_receiver_throws (sg : Signal) : option exn :=
  match sg with
  | parameterDataReceived parameterType _ _ =>
      if parameterType =? VitalSync.SPO2 then Some (std_exception "full")
      else None
  | _ => None
  end.

End DemoDataProviderSpec.

(** ** Data manager *)

Module DataManagerSpec.
Import DataManager.

(** A manager after [initialize] over an empty configuration, after
    [startAcquisition] and after the demo provider's connection delay: the
    demo provider (at address 0) is the current provider, connected to the
    manager, active and generating. *)
Definition running_world : World (DemoDataProvider.t nat) :=
  let '(w, _, _) :=
    initialize (fun _ => 0%float) 0%nat 1000 (new, ConfigManager.empty) in
  let '(dm, _, _) := startAcquisition 1000 (fst w) in
  match heap dm !! 0%nat with
  | Some p =>
      let '(p', sigs) := DemoDataProvider.connection_delay_completed p in
      (fst (deliver 1500 0%nat sigs (set_heap (<[0%nat := p']> (heap dm)) dm)),
       snd w)
  | None => (dm, snd w)
  end.

(** Two managers with the same registered providers, the same current
    provider, the same connections, and models for the same
    identifiers. *)
Definition same_wiring {P : Type} (dm' dm : t P) : Prop :=
  providers_ dm' = providers_ dm
  /\ current_provider_ dm' = current_provider_ dm
  /\ connections dm' = connections dm
  /\ (forall id, is_Some (GetWaveformModel id dm')
                 <-> is_Some (GetWaveformModel id dm))
  /\ (forall id, is_Some (GetParameterModel id dm')
                 <-> is_Some (GetParameterModel id dm)).

(** The signals of the current provider, and of no other, are connected
    to the manager's slots, once. *)
Definition wired {P : Type} (dm : t P) : Prop :=
  connections dm = match current_provider_ dm with
                   | Some a => [a]
                   | None => []
                   end.

(** Every parameter model the manager holds is active. *)
Definition all_parameters_active {P : Type} (dm : t P) : Prop :=
  forall id m, GetParameterModel id dm = Some m -> ParameterModel.isActive m = true.

(** A manager holding a registered, current demo provider and a single
    heart-rate model, which its configuration leaves inactive. *)
Definition one_inactive_model : t (DemoDataProvider.t nat) :=
  let demo := fst (DemoDataProvider.new 0%nat ConfigManager.empty) in
  let dm := registerProvider demo new in
  let dm := fst (fst (fst (SetActiveProvider 0 "Demo" (dm, ConfigManager.empty)))) in
  set_parameter_models
    {[ VitalSync.HR := ParameterModel.new ConfigManager.empty 0 VitalSync.HR ]} dm.

End DataManagerSpec.

(** * Properties *)

(** Lookups in a map written as a chain of insertions under literal keys. *)
Ltac lookup_string_keys :=
  repeat first
    [ rewrite lookup_insert_eq
    | rewrite lookup_insert_ne by (let Hk := fresh in intros Hk; discriminate Hk)
    | rewrite lookup_empty ].

(** ** Counted loops *)

Lemma for_loop_S {S : Type} (n : nat) (body : nat -> S -> S) (s : S) :
  for_loop (Datatypes.S n) body s = body n (for_loop n body s).
Proof.
  unfold for_loop. rewrite seq_S, fold_left_app. reflexivity.
Qed.

Lemma for_loop_invariant {S : Type} (I : nat -> S -> Prop) (n : nat)
    (body : nat -> S -> S) (s : S) :
  I 0%nat s ->
  (forall i acc, (i < n)%nat -> I i acc -> I (Datatypes.S i) (body i acc)) ->
  I n (for_loop n body s).
Proof.
  intros H0 Hstep.
  assert (forall j, (j <= n)%nat -> I j (for_loop j body s)) as Hall.
  { induction j as [|j IH]; intros Hj; [exact H0|].
    rewrite for_loop_S. apply Hstep; [lia|]. apply IH. lia. }
  apply Hall. lia.
Qed.

(** ** Parameter model: alarm severity *)

(** C2. [UpdateValue] derives the severity by the priority order (high
    critical, high warning, low critical, low warning, normal) from the
    new value and the model's four limits, and stores the new value.  With
    the limits (40, 50, 120, 150) the values 160, 125, 90, 35, delivered
    in this order, give HighCritical, HighWarning, Normal, LowCritical.
    The high limits are looked at first: a value above the high warning
    limit gives a high state whatever the low limits are, also when it is
    below the low critical limit. *)
Theorem UpdateValue_priority_order :
  (forall now ts v m,
     let m' := fst (ParameterModel.UpdateValue now ts v m) in
     ParameterModel.GetAlarmState m' =
       ParameterModelSpec.severity_by_priority
         (ParameterModel.low_critical_ m) (ParameterModel.low_warning_ m)
         (ParameterModel.high_warning_ m) (ParameterModel.high_critical_ m) v
     /\ ParameterModel.GetValue m' = v
     /\ ParameterModel.low_critical_ m' = ParameterModel.low_critical_ m
     /\ ParameterModel.low_warning_ m' = ParameterModel.low_warning_ m
     /\ ParameterModel.high_warning_ m' = ParameterModel.high_warning_ m
     /\ ParameterModel.high_critical_ m' = ParameterModel.high_critical_ m)
  /\ (ParameterModel.low_critical_ ParameterModelSpec.hr_model,
      ParameterModel.low_warning_ ParameterModelSpec.hr_model,
      ParameterModel.high_warning_ ParameterModelSpec.hr_model,
      ParameterModel.high_critical_ ParameterModelSpec.hr_model)
     = (40, 50, 120, 150)%float
  /\ (forall now t,
        ParameterModelSpec.severities now
          [(t, 160%float); (t + 1, 125%float); (t + 2, 90%float);
           (t + 3, 35%float)]
          ParameterModelSpec.hr_model
        = [ParameterModel.HighCritical; ParameterModel.HighWarning;
           ParameterModel.Normal; ParameterModel.LowCritical])
  /\ (forall now ts v m,
        (ParameterModel.high_warning_ m <? v)%float = true ->
        let s := ParameterModel.GetAlarmState
                   (fst (ParameterModel.UpdateValue now ts v m)) in
        s = ParameterModel.HighCritical \/ s = ParameterModel.HighWarning)
  /\ (let m := fst (ParameterModel.SetAlarmLimits 100 110 50 60
                      ParameterModelSpec.hr_model) in
      (55 <? ParameterModel.low_critical_ m)%float = true
      /\ (ParameterModel.high_warning_ m <? 55)%float = true
      /\ ParameterModel.GetAlarmState (fst (ParameterModel.UpdateValue 0 1 55 m))
         = ParameterModel.HighWarning).
Proof.
  split; [|split; [|split; [|split]]].
  - intros now ts v m. cbn. repeat split.
  - reflexivity.
  - intros now t. reflexivity.
  - intros now ts v m Hhw. cbn.
    destruct (ParameterModel.high_critical_ m <? v)%float; [left|right]; [reflexivity|].
    rewrite Hhw. reflexivity.
  - vm_compute. repeat split.
Qed.

(** The theorem applied to a heart rate of 125 against the default
    limits: above the high warning limit, so a high state. *)
Lemma UpdateValue_priority_order_witness :
  let s := ParameterModel.GetAlarmState
             (fst (ParameterModel.UpdateValue 0 1 125 ParameterModelSpec.hr_model)) in
  s = ParameterModel.HighCritical \/ s = ParameterModel.HighWarning.
Proof.
  apply (proj1 (proj2 (proj2 (proj2 UpdateValue_priority_order))) 0 1 125%float
           ParameterModelSpec.hr_model).
  reflexivity.
Defined.

(** C1. The severity a model reports is not a function of its value and
    limits alone.  Two heart-rate models end with the same value 120 and
    the same limits (40, 50, 120, 150); the one whose value was set last
    (by [UpdateValue], strict comparisons) reports Normal, the one whose
    limits were set last (by [SetAlarmLimits], which re-evaluates with
    [UpdateAlarmState], non-strict comparisons) reports HighWarning. *)
Theorem severity_depends_on_update_order :
  let value_last :=
    fst (ParameterModel.UpdateValue 0 1 120
           (fst (ParameterModel.SetAlarmLimits 40 50 120 150
                   ParameterModelSpec.hr_model))) in
  let limits_last :=
    fst (ParameterModel.SetAlarmLimits 40 50 120 150
           (fst (ParameterModel.UpdateValue 0 1 120 ParameterModelSpec.hr_model))) in
  ParameterModel.GetValue value_last = ParameterModel.GetValue limits_last
  /\ ParameterModel.low_critical_ value_last = ParameterModel.low_critical_ limits_last
  /\ ParameterModel.low_warning_ value_last = ParameterModel.low_warning_ limits_last
  /\ ParameterModel.high_warning_ value_last = ParameterModel.high_warning_ limits_last
  /\ ParameterModel.high_critical_ value_last = ParameterModel.high_critical_ limits_last
  /\ ParameterModel.GetAlarmState value_last = ParameterModel.Normal
  /\ ParameterModel.GetAlarmState limits_last = ParameterModel.HighWarning.
Proof. vm_compute. repeat split. Qed.

(** ** Waveform model: the rolling buffer *)

Section WaveformBuffer.
Import WaveformModel.

Lemma shift_left_spec (k : nat) (d : list float) :
  (k <= length d)%nat ->
  length (shift_left k (length d) d) = length d
  /\ forall p, shift_left k (length d) d !! p
               = if decide (p < length d - k)%nat then d !! (p + k)%nat
                 else d !! p.
Proof.
  intros Hk. unfold shift_left.
  set (I := fun (j : nat) (acc : list float) =>
              length acc = length d
              /\ forall p, acc !! p = if decide (p < j)%nat then d !! (p + k)%nat
                                      else d !! p).
  match goal with
  | |- context [for_loop ?n ?body d] =>
      enough (I n (for_loop n body d)) as HI by exact HI
  end.
  apply for_loop_invariant; unfold I.
  - split; [reflexivity|]. intros p. destruct (decide (p < 0)%nat); [lia|reflexivity].
  - intros i acc Hi [Hlen Hacc].
    assert (acc !! (i + k)%nat = d !! (i + k)%nat) as Hread.
    { rewrite Hacc. destruct (decide (i + k < i)%nat); [lia|reflexivity]. }
    destruct (lookup_lt_is_Some_2 d (i + k)%nat ltac:(lia)) as [x Hx].
    rewrite Hread, Hx. split; [rewrite length_insert; exact Hlen|].
    intros p. destruct (decide (p = i)) as [->|Hne].
    + rewrite list_lookup_insert_eq by lia.
      destruct (decide (i < S i)%nat); [congruence|lia].
    + rewrite list_lookup_insert_ne by congruence. rewrite Hacc.
      destruct (decide (p < i)%nat), (decide (p < S i)%nat); try lia; reflexivity.
Qed.

Lemma write_tail_spec (data d : list float) :
  (length data <= length d)%nat ->
  length (write_tail data (length data) (length d) d) = length d
  /\ forall p, write_tail data (length data) (length d) d !! p
               = if decide (length d - length data <= p < length d)%nat
                 then data !! (p - (length d - length data))%nat
                 else d !! p.
Proof.
  intros Hk. unfold write_tail.
  set (n := length d). set (k := length data).
  assert (forall j, (j <= k)%nat ->
    let acc := for_loop j
      (fun i d0 => match data !! i with
                   | Some x => <[(n - k + i)%nat := x]> d0
                   | None => d0
                   end) d in
    length acc = n
    /\ forall p, acc !! p = if decide (n - k <= p < n - k + j)%nat
                            then data !! (p - (n - k))%nat else d !! p) as Hall.
  { induction j as [|j IH]; intros Hj; cbn zeta.
    - split; [reflexivity|]. intros p.
      destruct (decide (n - k <= p < n - k + 0)%nat); [lia|reflexivity].
    - rewrite for_loop_S. destruct (IH ltac:(lia)) as [Hlen Hacc].
      destruct (lookup_lt_is_Some_2 data j ltac:(unfold k in Hj; lia)) as [x Hx].
      rewrite Hx. split; [rewrite length_insert; exact Hlen|].
      intros p. destruct (decide (p = n - k + j)%nat) as [->|Hne].
      + rewrite list_lookup_insert_eq by (rewrite Hlen; unfold n, k in *; lia).
        destruct (decide (n - k <= n - k + j < n - k + S j)%nat); [|lia].
        replace (n - k + j - (n - k))%nat with j by lia. congruence.
      + rewrite list_lookup_insert_ne by congruence. rewrite Hacc.
        destruct (decide (n - k <= p < n - k + j)%nat),
                 (decide (n - k <= p < n - k + S j)%nat); try lia; reflexivity. }
  destruct (Hall k ltac:(lia)) as [Hlen Hacc]. split; [exact Hlen|].
  intros p. rewrite Hacc.
  destruct (decide (n - k <= p < n - k + k)%nat), (decide (n - k <= p < n)%nat);
    try (unfold n, k in *; lia); reflexivity.
Qed.

(** The two loops together: the old samples move left by the batch
    size and the batch fills the end. *)
Lemma shift_then_write (data d : list float) :
  (length data < length d)%nat ->
  write_tail data (length data) (length d) (shift_left (length data) (length d) d)
  = drop (length data) d ++ data.
Proof.
  intros Hlt.
  destruct (shift_left_spec (length data) d ltac:(lia)) as [Hlen1 Hsh].
  pose proof (write_tail_spec data (shift_left (length data) (length d) d)
                ltac:(rewrite Hlen1; lia)) as [Hlen2 Hwr].
  rewrite Hlen1 in Hwr, Hlen2.
  apply list_eq. intros p. rewrite Hwr.
  destruct (decide (length d - length data <= p < length d)%nat) as [Hin|Hout].
  - rewrite lookup_app_r by (rewrite length_drop; lia).
    rewrite length_drop. reflexivity.
  - rewrite Hsh.
    destruct (decide (p < length d - length data)%nat) as [Hp|Hp].
    + rewrite lookup_app_l by (rewrite length_drop; lia).
      rewrite lookup_drop. f_equal. lia.
    + rewrite (lookup_ge_None_2 d p) by lia.
      symmetry. apply lookup_ge_None_2.
      rewrite length_app, length_drop. lia.
Qed.

Lemma addWaveformData_accepted (m : t) (timestamp : Z) (data : list float) :
  isActive m = true ->
  data <> [] ->
  (last_timestamp_ m < timestamp \/ last_timestamp_ m = 0) ->
  addWaveformData timestamp data m
  = (set_data
       (if (length (data_ m) <=? length data)%nat
        then drop (length data - length (data_ m)) data
        else drop (length data) (data_ m) ++ data)
       timestamp m,
     [emit dataUpdated]).
Proof.
  intros Hact Hne Hts. unfold addWaveformData, isActive in *.
  rewrite bool_decide_eq_false_2 by exact Hne. rewrite Hact. cbn [negb orb].
  assert ((timestamp <=? last_timestamp_ m) && negb (last_timestamp_ m =? 0)
          = false) as ->.
  { destruct Hts as [Hlt| ->].
    - rewrite (proj2 (Z.leb_gt _ _)) by lia. reflexivity.
    - rewrite andb_false_r. reflexivity. }
  destruct (length (data_ m) <=? length data)%nat eqn:Hcmp; [reflexivity|].
  apply Nat.leb_gt in Hcmp. rewrite shift_then_write by exact Hcmp. reflexivity.
Qed.

End WaveformBuffer.

(** C3. An accepted batch (active model, non-empty batch, timestamp
    above the last accepted one, or no batch accepted yet) of at least N
    samples leaves exactly its last N samples in a buffer of N samples; a
    shorter batch moves the buffer left by its size and fills the end.
    The length stays N, the timestamp is recorded and [dataUpdated] is
    emitted.  With N = 5, [1,2,3] and then [4,5,6] leave [2,3,4,5,6]. *)
Theorem addWaveformData_fifo :
  (forall (N : nat) (m : WaveformModel.t) (timestamp : Z) (data : list float),
     length (WaveformModel.GetData m) = N ->
     WaveformModel.isActive m = true ->
     data <> [] ->
     (WaveformModel.last_timestamp_ m < timestamp
      \/ WaveformModel.last_timestamp_ m = 0) ->
     let r := WaveformModel.addWaveformData timestamp data m in
     WaveformModel.GetData (fst r)
       = (if (N <=? length data)%nat then drop (length data - N) data
          else drop (length data) (WaveformModel.GetData m) ++ data)
     /\ length (WaveformModel.GetData (fst r)) = N
     /\ WaveformModel.last_timestamp_ (fst r) = timestamp
     /\ snd r = [WaveformModel.emit WaveformModel.dataUpdated])
  /\ (forall (m : WaveformModel.t) (t1 t2 : Z),
        length (WaveformModel.GetData m) = 5%nat ->
        WaveformModel.isActive m = true ->
        (WaveformModel.last_timestamp_ m < t1
         \/ WaveformModel.last_timestamp_ m = 0) ->
        t1 < t2 ->
        WaveformModel.GetData
          (fst (WaveformModel.addWaveformData t2 [4; 5; 6]%float
                  (fst (WaveformModel.addWaveformData t1 [1; 2; 3]%float m))))
        = [2; 3; 4; 5; 6]%float).
Proof.
  split.
  - intros N m timestamp data HN Hact Hne Hts r. subst r.
    rewrite addWaveformData_accepted by assumption.
    unfold WaveformModel.GetData in *. cbn. rewrite HN.
    repeat split.
    destruct (N <=? length data)%nat eqn:Hcmp.
    + apply Nat.leb_le in Hcmp. rewrite length_drop. lia.
    + apply Nat.leb_gt in Hcmp. rewrite length_app, length_drop. lia.
  - intros m t1 t2 Hlen Hact Hts Hlt.
    rewrite (addWaveformData_accepted m t1) by (try assumption; discriminate).
    rewrite addWaveformData_accepted; cbn; try assumption; try discriminate; [|lia].
    unfold WaveformModel.GetData in Hlen.
    destruct (WaveformModel.data_ m) as [|a [|b [|c [|d [|e [|f l]]]]]];
      try discriminate Hlen.
    reflexivity.
Qed.

(** The theorem applied to a five-sample buffer that receives [1,2,3]
    and then [4,5,6]. *)
Lemma addWaveformData_fifo_witness :
  WaveformModel.GetData
    (fst (WaveformModel.addWaveformData 20 [4; 5; 6]%float
            (fst (WaveformModel.addWaveformData 10 [1; 2; 3]%float
                    (WaveformModel.mk 0 "ECG I" Qt_green (-1.5) 1.5 5
                       [0; 0; 0; 0; 0]%float true true 0 0)))))
  = [2; 3; 4; 5; 6]%float.
Proof.
  apply (proj2 addWaveformData_fifo); [reflexivity | reflexivity | right; reflexivity | lia].
Defined.

(** ** Waveform model: out-of-order batches *)

(** C4, as stated, fails on a freshly constructed model: its stored
    timestamp is 0, and a first batch stamped 0 or -5 (not above 0) is
    taken: the buffer changes, [dataUpdated] is emitted, and -5 replaces
    the stored timestamp. *)
Lemma first_batch_never_out_of_order :
  let m := WaveformModelSpec.fresh5 in
  let r0 := WaveformModel.addWaveformData 0 [1]%float m in
  let r5 := WaveformModel.addWaveformData (-5) [1]%float m in
  WaveformModel.last_timestamp_ m = 0
  /\ WaveformModel.GetData m = [0; 0; 0; 0; 0]%float
  /\ WaveformModel.GetData (fst r0) = [0; 0; 0; 0; 1]%float
  /\ snd r0 = [WaveformModel.emit WaveformModel.dataUpdated]
  /\ WaveformModel.GetData (fst r5) = [0; 0; 0; 0; 1]%float
  /\ WaveformModel.last_timestamp_ (fst r5) = -5
  /\ snd r5 = [WaveformModel.emit WaveformModel.dataUpdated]
  /\ fst r0 <> m
  /\ fst r5 <> m.
Proof.
  cbv zeta. repeat split; try reflexivity.
  - intros Heq.
    apply (f_equal (fun x => match WaveformModel.data_ x !! 4%nat with
                             | Some v => (v =? 1)%float
                             | None => false
                             end)) in Heq.
    vm_compute in Heq. discriminate Heq.
  - intros Heq. apply (f_equal WaveformModel.last_timestamp_) in Heq.
    vm_compute in Heq. discriminate Heq.
Qed.

(** C4, amended.  While the stored timestamp is not 0, a batch stamped
    at or below it changes nothing and emits no [dataUpdated]; while the
    stored timestamp is 0, as after construction, a non-empty batch to an
    active model is taken whatever its timestamp. *)
Theorem addWaveformData_out_of_order :
  (forall (m : WaveformModel.t) (timestamp : Z) (data : list float),
     WaveformModel.last_timestamp_ m <> 0 ->
     timestamp <= WaveformModel.last_timestamp_ m ->
     let r := WaveformModel.addWaveformData timestamp data m in
     fst r = m
     /\ forall o, o ∈ snd r -> o <> WaveformModel.emit WaveformModel.dataUpdated)
  /\ (forall (m : WaveformModel.t) (timestamp : Z) (data : list float),
        WaveformModel.last_timestamp_ m = 0 ->
        WaveformModel.isActive m = true ->
        data <> [] ->
        let r := WaveformModel.addWaveformData timestamp data m in
        WaveformModel.last_timestamp_ (fst r) = timestamp
        /\ snd r = [WaveformModel.emit WaveformModel.dataUpdated]).
Proof.
  split.
  - intros m timestamp data Hnz Hle. unfold WaveformModel.addWaveformData.
    destruct (bool_decide (data = []) || negb (WaveformModel.active_ m)).
    + cbn. split; [reflexivity|]. intros o Ho. inversion Ho.
    + rewrite (proj2 (Z.leb_le _ _) Hle).
      rewrite (proj2 (Z.eqb_neq _ _) Hnz). cbn.
      split; [reflexivity|]. intros o Ho.
      apply list_elem_of_singleton in Ho. subst o. discriminate.
  - intros m timestamp data Hz Hact Hne r. subst r.
    rewrite addWaveformData_accepted by (try assumption; right; assumption).
    split; reflexivity.
Qed.

(** The theorem applied to a model that accepted a batch at 10 and is
    then handed one stamped 10 again. *)
Lemma addWaveformData_out_of_order_witness :
  let m := fst (WaveformModel.addWaveformData 10 [1]%float
                  WaveformModelSpec.fresh5) in
  fst (WaveformModel.addWaveformData 10 [2]%float m) = m.
Proof.
  cbv zeta.
  apply (proj1 addWaveformData_out_of_order); [discriminate | reflexivity].
Defined.

(** ** Waveform model: the default capacity *)

Lemma resize_length (n : Z) (l : list float) :
  length (WaveformModel.resize n l) = Z.to_nat n.
Proof.
  unfold WaveformModel.resize.
  rewrite length_app, length_take, length_replicate. lia.
Qed.

Lemma seed_spec (sinf : float -> float) (size : Z) (d : list float) :
  length d = Z.to_nat size ->
  length (WaveformModel.seed sinf size d) = Z.to_nat size
  /\ forall i, (i < Z.to_nat size)%nat ->
       WaveformModel.seed sinf size d !! i
       = Some (0.5 * sinf (WaveformModelSpec.phase size i))%float.
Proof.
  intros Hlen. unfold WaveformModel.seed.
  set (I := fun (j : nat) (acc : list float) =>
              length acc = Z.to_nat size
              /\ forall i, (i < j)%nat ->
                   acc !! i = Some (0.5 * sinf (WaveformModelSpec.phase size i))%float).
  match goal with
  | |- context [for_loop ?n ?body d] =>
      enough (I n (for_loop n body d)) as HI by exact HI
  end.
  apply for_loop_invariant; unfold I.
  - split; [exact Hlen|]. intros i Hi. lia.
  - intros j acc Hj [Hl Hacc]. split; [rewrite length_insert; exact Hl|].
    intros i Hi. destruct (decide (i = j)) as [->|Hne].
    + rewrite list_lookup_insert_eq by lia. reflexivity.
    + rewrite list_lookup_insert_ne by congruence. apply Hacc. lia.
Qed.

(** Constructed over an empty configuration, a model has a capacity, and
    a buffer, of 1000 samples; the default that vital_sync_types.h
    documents, [DEFAULT_SAMPLE_RATE] x [DEFAULT_BUFFER_SECONDS], is
    2500. *)
Lemma default_capacity_is_not_2500 :
  let m := WaveformModelSpec.fresh_default in
  ConfigManager.GetWaveformConfig VitalSync.ECG_I ConfigManager.empty
    !! "bufferSize"%string = None
  /\ WaveformModel.GetMaxBufferSize m = 1000
  /\ length (WaveformModel.GetData m) = 1000%nat
  /\ VitalSync.DEFAULT_SAMPLE_RATE * VitalSync.DEFAULT_BUFFER_SECONDS = 2500
  /\ WaveformModel.GetMaxBufferSize m <> 2500.
Proof. vm_compute. repeat split. discriminate. Qed.

(** C8.  A model constructed without a stored [bufferSize] entry does not
    get the documented default of [DEFAULT_SAMPLE_RATE] x
    [DEFAULT_BUFFER_SECONDS] = 2500 samples: its capacity is the
    constant [DEFAULT_BUFFER_SIZE] = 1000 of waveform_model.cpp, and its
    buffer holds the 1000 samples of the sine seed. *)
Theorem default_capacity :
  forall (sinf : float -> float) (config : ConfigManager.t) (waveformType : Z),
    ConfigManager.GetWaveformConfig waveformType config !! "bufferSize"%string
      = None ->
    let m := WaveformModel.new sinf config waveformType in
    WaveformModel.GetMaxBufferSize m = 1000
    /\ length (WaveformModel.GetData m) = 1000%nat
    /\ (forall i, (i < 1000)%nat ->
         WaveformModel.GetData m !! i
         = Some (0.5 * sinf (WaveformModelSpec.phase 1000 i))%float)
    /\ WaveformModel.GetMaxBufferSize m
       <> VitalSync.DEFAULT_SAMPLE_RATE * VitalSync.DEFAULT_BUFFER_SECONDS.
Proof.
  intros sinf config waveformType Hnone.
  unfold WaveformModel.new, WaveformModel.GetMaxBufferSize, WaveformModel.GetData,
    WaveformModel.load.
  cbn. rewrite Hnone.
  destruct (seed_spec sinf WaveformModel.DEFAULT_BUFFER_SIZE
              (WaveformModel.resize WaveformModel.DEFAULT_BUFFER_SIZE [])
              (resize_length _ _)) as [Hlen Hseed].
  split; [reflexivity|]. split; [exact Hlen|]. split; [exact Hseed|].
  intros Heq. discriminate Heq.
Qed.

(** The theorem applied to an ECG I model over an empty configuration. *)
Lemma default_capacity_witness :
  WaveformModel.GetMaxBufferSize
    (WaveformModel.new (fun _ => 0%float) ConfigManager.empty VitalSync.ECG_I)
  = 1000.
Proof.
  apply (default_capacity (fun _ => 0%float) ConfigManager.empty VitalSync.ECG_I).
  reflexivity.
Defined.

(** ** Demo provider: the parameter tick *)

Section ParameterTick.
Import DemoDataProvider DemoDataProviderSpec.

Context {Rng : Type}.
Variable bounded : Z -> Rng -> Z * Rng.
Variable generateDouble : Rng -> float * Rng.
Variable sin : float -> float.

(** A property of the result of a computation holds when it holds for
    whatever the first step returns. *)
Lemma bind_fst {A B : Type} (Q : B -> Prop) (c : M A) (k : A -> M B) (r : Rng) :
  (forall a r', Q (fst (k a r'))) -> Q (fst (bind c k r)).
Proof.
  intros Hk. unfold bind. destruct (c r) as [a r']. apply Hk.
Qed.

Lemma mean_check_upto_spec (R dia sys : Z) :
  mean_check_upto R = true ->
  - R <= dia -> dia < sys -> sys <= R -> nearest_third dia sys (mean_of dia sys).
Proof.
  intros Hall Hlo Hlt Hhi. unfold mean_check_upto in Hall.
  rewrite forallb_forall in Hall.
  specialize (Hall dia). rewrite forallb_forall in Hall.
  assert (In dia (seqZ (- R) (2 * R + 1))) as Hd.
  { apply list_elem_of_In, elem_of_seqZ. lia. }
  specialize (Hall Hd sys).
  assert (In sys (seqZ (dia + 1) (R - dia))) as Hs.
  { apply list_elem_of_In, elem_of_seqZ. lia. }
  specialize (Hall Hs). unfold mean_check in Hall.
  apply Z.leb_le in Hall. exact Hall.
Qed.

Lemma mean_check_320 : mean_check_upto 320 = true.
Proof. vm_compute. reflexivity. Qed.

Lemma mean_of_nearest (dia sys : Z) :
  -320 <= dia -> dia < sys -> sys <= 320 -> nearest_third dia sys (mean_of dia sys).
Proof.
  intros Hlo Hlt Hhi.
  exact (mean_check_upto_spec 320 dia sys mean_check_320 Hlo Hlt Hhi).
Qed.

Lemma increasing_lookup (l : list float) :
  increasing l = true ->
  forall (i j : nat) (x y : float),
    (i < j)%nat -> l !! i = Some x -> l !! j = Some y -> (x <? y)%float = true.
Proof.
  induction l as [|a l IH]; intros Hinc i j x y Hij Hi Hj.
  - rewrite lookup_nil in Hi. discriminate Hi.
  - cbn [increasing] in Hinc. apply andb_prop in Hinc as [Hhead Hrest].
    destruct j as [|j]; [lia|]. cbn in Hj.
    destruct i as [|i].
    + cbn in Hi. injection Hi as ->.
      rewrite forallb_forall in Hhead. apply Hhead.
      apply list_elem_of_In. eapply list_elem_of_lookup_2. exact Hj.
    + cbn in Hi. apply (IH Hrest i j x y); [lia|exact Hi|exact Hj].
Qed.

Lemma float_table_lookup (R n : Z) :
  - R <= n -> n <= R ->
  float_table R !! Z.to_nat (n + R) = Some (float_of_int n).
Proof.
  intros Hlo Hhi. unfold float_table.
  rewrite list_lookup_fmap, lookup_seqZ_lt by lia. cbn.
  f_equal. f_equal. lia.
Qed.

Lemma increasing_upto_spec (R a b : Z) :
  increasing (float_table R) = true ->
  - R <= a -> a < b -> b <= R ->
  (float_of_int a <? float_of_int b)%float = true.
Proof.
  intros Hinc Hlo Hlt Hhi.
  apply (increasing_lookup _ Hinc (Z.to_nat (a + R)) (Z.to_nat (b + R))).
  - lia.
  - apply float_table_lookup; lia.
  - apply float_table_lookup; lia.
Qed.

Lemma exact_upto_spec (R n : Z) :
  exact_upto R = true -> - R <= n -> n <= R -> trunc (float_of_int n) = n.
Proof.
  intros Hall Hlo Hhi. unfold exact_upto in Hall.
  rewrite forallb_forall in Hall.
  apply Z.eqb_eq, Hall, list_elem_of_In, elem_of_seqZ. lia.
Qed.

Lemma increasing_320 : increasing (float_table 320) = true.
Proof. vm_compute. reflexivity. Qed.

Lemma exact_320 : exact_upto 320 = true.
Proof. vm_compute. reflexivity. Qed.

Lemma float_of_int_increasing (a b : Z) :
  -320 <= a -> a < b -> b <= 320 ->
  (float_of_int a <? float_of_int b)%float = true.
Proof.
  intros Hlo Hlt Hhi.
  exact (increasing_upto_spec 320 a b increasing_320 Hlo Hlt Hhi).
Qed.

Lemma float_of_int_exact (n : Z) :
  -320 <= n -> n <= 320 -> trunc (float_of_int n) = n.
Proof.
  intros Hlo Hhi. exact (exact_upto_spec 320 n exact_320 Hlo Hhi).
Qed.

Lemma in_range_spec (n : Z) : in_range n = true -> -300 <= n <= 300.
Proof.
  unfold in_range. intros H. apply andb_prop in H as [Hlo Hhi].
  apply Z.leb_le in Hlo. apply Z.leb_le in Hhi. lia.
Qed.

(** A group whose sampled pressures are in range: what the two
    assignments give. *)
Lemma forced_bp_group (margin sampled sys dia mean : Z) :
  0 < margin <= 20 ->
  in_range sampled = true -> in_range dia = true ->
  forced margin sampled sys dia mean ->
  bp_group margin sampled sys dia mean.
Proof.
  intros Hm Hs Hd [Hsys Hmean].
  apply in_range_spec in Hs. apply in_range_spec in Hd.
  assert (dia < sys /\ sys <= 320) as [Hlt Hhi].
  { rewrite Hsys. destruct (sampled <=? dia) eqn:Hc; [lia|].
    apply Z.leb_gt in Hc. lia. }
  assert (nearest_third dia sys mean) as Hnear.
  { rewrite Hmean. apply mean_of_nearest; lia. }
  assert (dia <= mean <= sys) as Hbetween.
  { unfold nearest_third in Hnear. lia. }
  split; [exact Hsys|]. split; [exact Hlt|]. split; [exact Hmean|].
  split; [exact Hnear|].
  split; [apply float_of_int_exact; lia|].
  split; [apply float_of_int_exact; lia|].
  split; [apply float_of_int_exact; lia|].
  apply float_of_int_increasing; lia.
Qed.

Lemma synthesize_ok (cc : Z) (p : t Rng) (r : Rng) :
  sample_ok (fst (synthesize bounded generateDouble sin cc p r)).
Proof.
  unfold synthesize. cbv zeta.
  repeat (apply bind_fst; intros ? ?; cbv beta).
  unfold ret, sample_ok, forced.
  cbn [fst spo2 systolicBP diastolicBP meanBP ibp1Systolic ibp1Diastolic
    ibp1Mean ibp2Systolic ibp2Diastolic ibp2Mean sampledSystolicBP
    sampledIbp1Systolic sampledIbp2Systolic].
  split; [lia|].
  split; [split; reflexivity|]. split; split; reflexivity.
Qed.

Variable slot : Signal -> option exn.

Lemma emit_all_prefix (sigs : list Signal) :
  fst (emit_all slot sigs) `prefix_of` sigs.
Proof.
  induction sigs as [|sg rest IH]; cbn; [reflexivity|].
  destruct (slot sg).
  - cbn. exists rest. reflexivity.
  - destruct (emit_all slot rest) as [done e]. cbn in *.
    apply prefix_cons. exact IH.
Qed.

Lemma emit_all_quiet (sigs : list Signal) :
  (forall sg, slot sg = None) -> emit_all slot sigs = (sigs, None).
Proof.
  intros Hq. induction sigs as [|sg rest IH]; cbn; [reflexivity|].
  rewrite Hq, IH. reflexivity.
Qed.

Lemma generateParameterData_emitted (now : Z) (p : t Rng) :
  let tick := generateParameterData bounded generateDouble sin slot now p in
  emitted tick `prefix_of` emissions now (sample_of bounded generateDouble sin p)
  /\ (status_ p = VitalSync.Connected -> active_ p = true ->
      (forall sg, slot sg = None) ->
      emitted tick = emissions now (sample_of bounded generateDouble sin p))
  /\ escaped tick = None.
Proof.
  unfold generateParameterData, sample_of.
  destruct (bool_decide (status_ p = VitalSync.Connected)) eqn:Hst;
    destruct (active_ p) eqn:Hact; cbn [negb orb];
    try (cbn; split; [apply prefix_nil|]; split; [|reflexivity];
         intros Hc Ha; first [discriminate Ha
                             | apply bool_decide_eq_false in Hst; contradiction]).
  destruct (synthesize bounded generateDouble sin (cycleCounter p + 1) p (random_ p))
    as [smp r] eqn:Hsyn. cbn [fst].
  pose proof (emit_all_prefix (emissions now smp)) as Hpre.
  split; [|split].
  - destruct (emit_all slot (emissions now smp)) as [sent [[what|]|]]; exact Hpre.
  - intros _ _ Hq. rewrite (emit_all_quiet _ Hq). reflexivity.
  - destruct (emit_all slot (emissions now smp)) as [sent [[what|]|]]; reflexivity.
Qed.

End ParameterTick.

(** C9, as stated, fails.  A provider configured for 82/80 and a tick in
    which no gate opens and no variation is drawn emits systolic 82,
    diastolic 80 and mean 81: the systolic value is not 20 above the
    diastolic one (the values were sampled in order, so nothing was
    forced), and the mean is not [80 + (82 - 80) / 3], neither as a
    fraction nor with integer division; it is that value rounded. *)
Lemma narrow_pulse_tick :
  let tick :=
    DemoDataProvider.generateParameterData DemoDataProviderSpec.quiet_bounded
      DemoDataProviderSpec.quiet_double DemoDataProviderSpec.flat_sin
      (fun _ => None) 1000 DemoDataProviderSpec.narrow_pulse in
  let s :=
    DemoDataProviderSpec.sample_of DemoDataProviderSpec.quiet_bounded
      DemoDataProviderSpec.quiet_double DemoDataProviderSpec.flat_sin
      DemoDataProviderSpec.narrow_pulse in
  DemoDataProvider.emitted tick !! 3%nat
    = Some (IDataProvider.parameterDataReceived VitalSync.NIBP_SYS 1000 82)
  /\ DemoDataProvider.emitted tick !! 4%nat
     = Some (IDataProvider.parameterDataReceived VitalSync.NIBP_DIA 1000 80)
  /\ DemoDataProvider.emitted tick !! 5%nat
     = Some (IDataProvider.parameterDataReceived VitalSync.NIBP_MAP 1000 81)
  /\ DemoDataProvider.systolicBP s = 82
  /\ DemoDataProvider.diastolicBP s = 80
  /\ DemoDataProvider.meanBP s = 81
  /\ ~ (DemoDataProvider.diastolicBP s + 20 <= DemoDataProvider.systolicBP s)
  /\ 3 * DemoDataProvider.meanBP s
     <> 3 * DemoDataProvider.diastolicBP s
        + (DemoDataProvider.systolicBP s - DemoDataProvider.diastolicBP s)
  /\ DemoDataProvider.meanBP s
     <> DemoDataProvider.diastolicBP s
        + (DemoDataProvider.systolicBP s - DemoDataProvider.diastolicBP s) / 3.
Proof.
  cbv zeta.
  assert (DemoDataProviderSpec.sample_of DemoDataProviderSpec.quiet_bounded
            DemoDataProviderSpec.quiet_double DemoDataProviderSpec.flat_sin
            DemoDataProviderSpec.narrow_pulse
          = DemoDataProvider.mkSample 70 15 98 82 80 81 87 78 81 15 5 8 37 36.5 35
              82 87 15)
    as -> by (vm_compute; reflexivity).
  cbn [DemoDataProvider.systolicBP DemoDataProvider.diastolicBP
       DemoDataProvider.meanBP].
  repeat split; try (vm_compute; reflexivity); try lia.
  vm_compute. discriminate.
Qed.

(** C9, amended.  Consider a parameter tick whose six sampled pressures
    (the [qRound] of the varied systolic and diastolic bases of NIBP, IBP1
    and IBP2, before any forcing) lie within [-300, 300].  The signals it
    emits are those of its sample, in the fixed order, up to the first
    emission whose receiver throws (all of them when none does and the
    provider is connected and active); the NIBP, IBP1 and IBP2 groups are
    the signals 3-5, 9-11 and 12-14.  In each group the emitted systolic
    value is the sampled systolic value when that is above the diastolic
    value, and otherwise exactly diastolic + 20 (NIBP, IBP1) or
    diastolic + 2 (IBP2); in both cases it is above the emitted diastolic
    value, as integers and as the [float] values emitted.  The emitted
    mean is [qRound(dia + (sys - dia) / 3.0)] of the group's own emitted
    systolic and diastolic values, the integer nearest to
    [dia + (sys - dia) / 3], and the three [float] values emitted
    represent the three integers exactly. *)
Theorem blood_pressure_groups :
  forall {Rng : Type} (bounded : Z -> Rng -> Z * Rng)
         (generateDouble : Rng -> float * Rng) (sin : float -> float)
         (slot : IDataProvider.Signal -> option DemoDataProvider.exn)
         (now : Z) (p : DemoDataProvider.t Rng),
    let tick :=
      DemoDataProvider.generateParameterData bounded generateDouble sin slot now p in
    let s := DemoDataProviderSpec.sample_of bounded generateDouble sin p in
    DemoDataProviderSpec.sampled_in_range s ->
    DemoDataProvider.emitted tick `prefix_of` DemoDataProvider.emissions now s
    /\ (DemoDataProvider.status_ p = VitalSync.Connected ->
        DemoDataProvider.active_ p = true ->
        (forall sg, slot sg = None) ->
        DemoDataProvider.emitted tick = DemoDataProvider.emissions now s)
    /\ take 3 (drop 3 (DemoDataProvider.emissions now s))
       = DemoDataProviderSpec.group_signals VitalSync.NIBP_SYS VitalSync.NIBP_DIA
           VitalSync.NIBP_MAP now (DemoDataProvider.systolicBP s)
           (DemoDataProvider.diastolicBP s) (DemoDataProvider.meanBP s)
    /\ take 3 (drop 9 (DemoDataProvider.emissions now s))
       = DemoDataProviderSpec.group_signals VitalSync.IBP1_SYS VitalSync.IBP1_DIA
           VitalSync.IBP1_MAP now (DemoDataProvider.ibp1Systolic s)
           (DemoDataProvider.ibp1Diastolic s) (DemoDataProvider.ibp1Mean s)
    /\ take 3 (drop 12 (DemoDataProvider.emissions now s))
       = DemoDataProviderSpec.group_signals VitalSync.IBP2_SYS VitalSync.IBP2_DIA
           VitalSync.IBP2_MAP now (DemoDataProvider.ibp2Systolic s)
           (DemoDataProvider.ibp2Diastolic s) (DemoDataProvider.ibp2Mean s)
    /\ DemoDataProviderSpec.bp_group 20 (DemoDataProvider.sampledSystolicBP s)
         (DemoDataProvider.systolicBP s) (DemoDataProvider.diastolicBP s)
         (DemoDataProvider.meanBP s)
    /\ DemoDataProviderSpec.bp_group 20 (DemoDataProvider.sampledIbp1Systolic s)
         (DemoDataProvider.ibp1Systolic s) (DemoDataProvider.ibp1Diastolic s)
         (DemoDataProvider.ibp1Mean s)
    /\ DemoDataProviderSpec.bp_group 2 (DemoDataProvider.sampledIbp2Systolic s)
         (DemoDataProvider.ibp2Systolic s) (DemoDataProvider.ibp2Diastolic s)
         (DemoDataProvider.ibp2Mean s).
Proof.
  intros Rng bounded generateDouble sin slot now p tick s Hrange.
  destruct (generateParameterData_emitted bounded generateDouble sin slot now p)
    as (Hpre & Hall & _).
  destruct (synthesize_ok bounded generateDouble sin
              (DemoDataProvider.cycleCounter p + 1) p (DemoDataProvider.random_ p))
    as (_ & Hbp & Hibp1 & Hibp2).
  fold (DemoDataProviderSpec.sample_of bounded generateDouble sin p) in Hbp, Hibp1, Hibp2.
  fold s in Hbp, Hibp1, Hibp2.
  unfold DemoDataProviderSpec.sampled_in_range,
    DemoDataProviderSpec.sampled_pressures in Hrange.
  cbn [forallb] in Hrange.
  repeat (apply andb_prop in Hrange as [? Hrange]).
  split; [exact Hpre|]. split; [exact Hall|].
  split; [reflexivity|]. split; [reflexivity|]. split; [reflexivity|].
  split; [|split]; apply forced_bp_group; try assumption; lia.
Qed.

(** The theorem applied to the 82/80 tick, whose sampled pressures are
    82/80, 87/78 and 15/5: nothing is forced, and the mean is the integer
    nearest to [80 + 2/3]. *)
Lemma blood_pressure_groups_witness :
  let s :=
    DemoDataProviderSpec.sample_of DemoDataProviderSpec.quiet_bounded
      DemoDataProviderSpec.quiet_double DemoDataProviderSpec.flat_sin
      DemoDataProviderSpec.narrow_pulse in
  DemoDataProviderSpec.sampled_in_range s
  /\ DemoDataProviderSpec.bp_group 20 (DemoDataProvider.sampledSystolicBP s)
       (DemoDataProvider.systolicBP s) (DemoDataProvider.diastolicBP s)
       (DemoDataProvider.meanBP s).
Proof.
  cbv zeta.
  assert (DemoDataProviderSpec.sampled_in_range
            (DemoDataProviderSpec.sample_of DemoDataProviderSpec.quiet_bounded
               DemoDataProviderSpec.quiet_double DemoDataProviderSpec.flat_sin
               DemoDataProviderSpec.narrow_pulse)) as Hrange.
  { vm_compute. reflexivity. }
  split; [exact Hrange|].
  exact (proj1 (proj2 (proj2 (proj2 (proj2 (proj2
           (blood_pressure_groups DemoDataProviderSpec.quiet_bounded
              DemoDataProviderSpec.quiet_double DemoDataProviderSpec.flat_sin
              (fun _ => None) 1000 DemoDataProviderSpec.narrow_pulse Hrange))))))).
Defined.

(** The forcing at work: a provider configured for 80/80 samples a
    systolic value of 80, not above the diastolic 80, and emits exactly
    80 + 20; the central venous group of a provider configured for 5/5
    emits exactly 5 + 2. *)
Lemma level_pulse_tick :
  let s :=
    DemoDataProviderSpec.sample_of DemoDataProviderSpec.quiet_bounded
      DemoDataProviderSpec.quiet_double DemoDataProviderSpec.flat_sin
      DemoDataProviderSpec.level_pulse in
  (DemoDataProvider.sampledSystolicBP s, DemoDataProvider.systolicBP s,
   DemoDataProvider.diastolicBP s, DemoDataProvider.meanBP s) = (80, 100, 80, 87)
  /\ (DemoDataProvider.sampledIbp2Systolic s, DemoDataProvider.ibp2Systolic s,
      DemoDataProvider.ibp2Diastolic s, DemoDataProvider.ibp2Mean s) = (5, 7, 5, 6).
Proof. vm_compute. split; reflexivity. Qed.

(** C10. Every SpO2 value a parameter tick emits is the [float] image of
    an integer that is at most 100: the sample's SpO2, clamped by
    [std::min(spo2, 100)] after variation, extreme-value injection and
    the hypoxemia scenario, is the third emission of the tick and the
    only one carrying the SpO2 identifier. *)
Theorem spo2_at_most_100 :
  forall {Rng : Type} (bounded : Z -> Rng -> Z * Rng)
         (generateDouble : Rng -> float * Rng) (sin : float -> float)
         (slot : IDataProvider.Signal -> option DemoDataProvider.exn)
         (now : Z) (p : DemoDataProvider.t Rng),
    let tick :=
      DemoDataProvider.generateParameterData bounded generateDouble sin slot now p in
    let s := DemoDataProviderSpec.sample_of bounded generateDouble sin p in
    DemoDataProvider.spo2 s <= 100
    /\ DemoDataProvider.emitted tick `prefix_of` DemoDataProvider.emissions now s
    /\ DemoDataProvider.emissions now s !! 2%nat
       = Some (IDataProvider.parameterDataReceived VitalSync.SPO2 now
                 (float_of_int (DemoDataProvider.spo2 s)))
    /\ forall ts v,
         IDataProvider.parameterDataReceived VitalSync.SPO2 ts v
           ∈ DemoDataProvider.emitted tick ->
         exists n, n <= 100 /\ v = float_of_int n.
Proof.
  intros Rng bounded generateDouble sin slot now p. cbv zeta.
  destruct (generateParameterData_emitted bounded generateDouble sin slot now p)
    as (Hpre & _ & _).
  pose proof (synthesize_ok bounded generateDouble sin
                (DemoDataProvider.cycleCounter p + 1) p (DemoDataProvider.random_ p))
    as (Hspo2 & _).
  change (DemoDataProvider.spo2 (DemoDataProviderSpec.sample_of bounded generateDouble sin p) <= 100)
    in Hspo2.
  split; [exact Hspo2|]. split; [exact Hpre|]. split; [reflexivity|].
  intros ts v Hin.
  exists (DemoDataProvider.spo2 (DemoDataProviderSpec.sample_of bounded generateDouble sin p)).
  split; [exact Hspo2|].
  destruct Hpre as [rest Hrest].
  assert (IDataProvider.parameterDataReceived VitalSync.SPO2 ts v
            ∈ DemoDataProvider.emissions now (DemoDataProviderSpec.sample_of bounded generateDouble sin p))
    as Hin'.
  { rewrite Hrest. apply elem_of_app. left. exact Hin. }
  unfold DemoDataProvider.emissions in Hin'.
  repeat (apply elem_of_cons in Hin' as [Heq|Hin']; [try discriminate Heq|]).
  - injection Heq as _ Hv. exact Hv.
  - inversion Hin'.
Qed.

(** ** Demo provider: exceptions at the tick boundary *)

Section TickBoundary.
Import DemoDataProvider.

Context {Rng : Type}.
Variable slot : Signal -> option exn.

(** A loop over entries that all hold the same throwing generator ends
    at its first entry, with nothing emitted and nothing logged. *)
Lemma waveform_loop_throws (e : exn) (entries : list (Z * generator))
    (elapsedTimeSeconds : float) (timestamp : Z) (p : t Rng) :
  entries <> [] ->
  (forall k g, (k, g) ∈ entries -> g = fun _ _ _ => Thrown e) ->
  waveform_loop slot entries elapsedTimeSeconds timestamp p []
  = mkTick p [] [] (Some e).
Proof.
  intros Hne Hall. destruct entries as [|[k g] rest]; [congruence|].
  rewrite (Hall k g) by (apply elem_of_cons; left; reflexivity).
  reflexivity.
Qed.

End TickBoundary.

(** C5. The parameter tick is wrapped: whatever the connected receiver
    throws during an emission, nothing leaves [generateParameterData],
    and the exception is logged.  The waveform tick is not: a waveform
    generator that throws [e] on an active provider ends
    [generateWaveformData] with [e] escaping, nothing logged. *)
Theorem waveform_tick_exception_escapes :
  (forall {Rng : Type} (slot : IDataProvider.Signal -> option DemoDataProvider.exn)
          (e : DemoDataProvider.exn) (elapsed now : Z)
          (p : DemoDataProvider.t Rng),
     DemoDataProvider.active_ p = true ->
     let failing : DemoDataProvider.generator :=
       fun _ _ _ => DemoDataProvider.Thrown e in
     DemoDataProvider.generateWaveformData slot failing failing failing failing
       failing elapsed now p
     = DemoDataProvider.mkTick p [] [] (Some e))
  /\ (forall {Rng : Type} (bounded : Z -> Rng -> Z * Rng)
             (generateDouble : Rng -> float * Rng) (sin : float -> float)
             (slot : IDataProvider.Signal -> option DemoDataProvider.exn)
             (now : Z) (p : DemoDataProvider.t Rng),
        let tick :=
          DemoDataProvider.generateParameterData bounded generateDouble sin
            slot now p in
        DemoDataProvider.escaped tick = None
        /\ (DemoDataProvider.status_ p = VitalSync.Connected ->
            DemoDataProvider.active_ p = true ->
            (forall sg, slot sg <> None) ->
            DemoDataProvider.critical tick <> []
            /\ length (DemoDataProvider.emitted tick) = 1%nat)).
Proof.
  split.
  - intros Rng slot e elapsed now p Hact failing.
    unfold DemoDataProvider.generateWaveformData. rewrite Hact. cbn [negb].
    apply waveform_loop_throws.
    + intros Hnil. apply map_to_list_empty_iff in Hnil.
      apply (f_equal (fun m => m !! VitalSync.ECG_I)) in Hnil.
      unfold DemoDataProvider.waveform_generators_ in Hnil. cbv beta in Hnil.
      rewrite lookup_empty in Hnil.
      repeat (rewrite lookup_insert_ne in Hnil by (intros Hk; discriminate Hk)).
      rewrite lookup_insert_eq in Hnil. discriminate Hnil.
    + intros k g Hin. apply elem_of_map_to_list in Hin.
      unfold DemoDataProvider.waveform_generators_ in Hin.
      repeat (apply lookup_insert_Some in Hin as [[_ Hg]|[_ Hin]];
              [symmetry; exact Hg|]).
      rewrite lookup_empty in Hin. discriminate Hin.
  - intros Rng bounded generateDouble sin slot now p tick. subst tick. split.
    + apply generateParameterData_emitted.
    + intros Hst Hact Hthrow. unfold DemoDataProvider.generateParameterData.
      rewrite (bool_decide_eq_true_2 _ Hst), Hact. cbn [negb orb].
      destruct (DemoDataProvider.synthesize bounded generateDouble sin
                  (DemoDataProvider.cycleCounter p + 1) p
                  (DemoDataProvider.random_ p)) as [smp r].
      unfold DemoDataProvider.emissions. cbn [DemoDataProvider.emit_all].
      match goal with
      | |- context [slot ?sg] =>
          pose proof (Hthrow sg) as Hsg; destruct (slot sg) as [[what|]|]
      end; [| |congruence]; cbn; split; (discriminate || reflexivity).
Qed.

(** The theorem applied to the running 82/80 provider and a generator
    that throws [std::bad_alloc]. *)
Lemma waveform_tick_exception_escapes_witness :
  DemoDataProvider.escaped
    (DemoDataProvider.generateWaveformData (fun _ => None)
       (fun _ _ _ => DemoDataProvider.Thrown
                       (DemoDataProvider.std_exception "std::bad_alloc"))
       (fun _ _ _ => DemoDataProvider.Thrown
                       (DemoDataProvider.std_exception "std::bad_alloc"))
       (fun _ _ _ => DemoDataProvider.Thrown
                       (DemoDataProvider.std_exception "std::bad_alloc"))
       (fun _ _ _ => DemoDataProvider.Thrown
                       (DemoDataProvider.std_exception "std::bad_alloc"))
       (fun _ _ _ => DemoDataProvider.Thrown
                       (DemoDataProvider.std_exception "std::bad_alloc"))
       40 1000 DemoDataProviderSpec.narrow_pulse)
  = Some (DemoDataProvider.std_exception "std::bad_alloc").
Proof.
  rewrite (proj1 waveform_tick_exception_escapes nat (fun _ => None)
             (DemoDataProvider.std_exception "std::bad_alloc") 40 1000
             DemoDataProviderSpec.narrow_pulse eq_refl).
  reflexivity.
Defined.

(** ** Data manager *)

Section DataManagerFacts.
Import DataManager.

Context {P : Type} `{IDataProvider.Ops P}.

Lemma saveCurrentProviderToSettings_none (dm : t P) (config : ConfigManager.t) :
  current_provider_ dm = None ->
  saveCurrentProviderToSettings (dm, config) = (dm, config).
Proof.
  intros Hnone. unfold saveCurrentProviderToSettings, GetCurrentProvider.
  rewrite Hnone. reflexivity.
Qed.

(** Deactivation writes nothing to the configuration. *)
Lemma SetActiveProvider_empty_name (now : Z) (dm : t P) (config : ConfigManager.t)
    (a : nat) :
  current_provider_ dm = Some a ->
  let r := SetActiveProvider now "" (dm, config) in
  snd (fst (fst r)) = config
  /\ current_provider_ (fst (fst (fst r))) = None
  /\ snd (fst r) = true
  /\ exists out, snd r = out ++ [emit (activeProviderChanged "")].
Proof.
  intros Hcur. unfold SetActiveProvider. cbn [bool_decide decide_rel].
  rewrite bool_decide_eq_true_2 by reflexivity. rewrite Hcur.
  destruct (stop_provider now a (disconnectProviderSignals dm)) as [dm2 out].
  rewrite saveCurrentProviderToSettings_none by reflexivity.
  cbn. repeat split. exists out. reflexivity.
Qed.

(** With no current provider, selecting a provider leaves the models
    alone. *)
Lemma SetActiveProvider_models (now : Z) (name : string) (dm : t P)
    (config : ConfigManager.t) :
  current_provider_ dm = None ->
  let r := SetActiveProvider now name (dm, config) in
  waveform_models_ (fst (fst (fst r))) = waveform_models_ dm
  /\ parameter_models_ (fst (fst (fst r))) = parameter_models_ dm.
Proof.
  intros Hcur. unfold SetActiveProvider. rewrite Hcur.
  replace (if bool_decide (name = ""%string) then None else None)
    with (@None nat) by (destruct (bool_decide (name = ""%string)); reflexivity).
  destruct (providers_ dm !! name) as [b|]; cbn; split; reflexivity.
Qed.

Lemma initializeWaveformModels_spec (sinf : float -> float)
    (config : ConfigManager.t) (dm : t P) :
  let dm' := initializeWaveformModels sinf config dm in
  current_provider_ dm' = current_provider_ dm
  /\ parameter_models_ dm' = parameter_models_ dm
  /\ forall id : Z,
       waveform_models_ dm' !! id
       = if decide (0 <= id < 13) then Some (WaveformModel.new sinf config id)
         else waveform_models_ dm !! id.
Proof.
  unfold initializeWaveformModels.
  set (I := fun (j : nat) (acc : t P) =>
              current_provider_ acc = current_provider_ dm
              /\ parameter_models_ acc = parameter_models_ dm
              /\ forall id : Z,
                   waveform_models_ acc !! id
                   = if decide (0 <= id < Z.of_nat j)
                     then Some (WaveformModel.new sinf config id)
                     else waveform_models_ dm !! id).
  match goal with
  | |- context [for_loop ?n ?body dm] =>
      enough (I n (for_loop n body dm)) as HI by exact HI
  end.
  apply for_loop_invariant; unfold I.
  - repeat split. intros id. destruct (decide (0 <= id < Z.of_nat 0)); [lia|reflexivity].
  - intros i acc Hi (Hc & Hp & Hw). cbn. repeat split; try assumption.
    intros id. destruct (decide (id = Z.of_nat i)) as [->|Hne].
    + rewrite lookup_insert_eq.
      destruct (decide (0 <= Z.of_nat i < Z.of_nat (S i))); [reflexivity|lia].
    + rewrite lookup_insert_ne by congruence. rewrite Hw.
      destruct (decide (0 <= id < Z.of_nat i)),
               (decide (0 <= id < Z.of_nat (S i))); try lia; reflexivity.
Qed.

Lemma initializeParameterModels_spec (config : ConfigManager.t) (now : Z)
    (dm : t P) :
  let dm' := initializeParameterModels config now dm in
  current_provider_ dm' = current_provider_ dm
  /\ waveform_models_ dm' = waveform_models_ dm
  /\ forall id : Z,
       parameter_models_ dm' !! id
       = if decide (0 <= id < 18) then Some (ParameterModel.new config now id)
         else parameter_models_ dm !! id.
Proof.
  unfold initializeParameterModels.
  set (I := fun (j : nat) (acc : t P) =>
              current_provider_ acc = current_provider_ dm
              /\ waveform_models_ acc = waveform_models_ dm
              /\ forall id : Z,
                   parameter_models_ acc !! id
                   = if decide (0 <= id < Z.of_nat j)
                     then Some (ParameterModel.new config now id)
                     else parameter_models_ dm !! id).
  match goal with
  | |- context [for_loop ?n ?body dm] =>
      enough (I n (for_loop n body dm)) as HI by exact HI
  end.
  apply for_loop_invariant; unfold I.
  - repeat split. intros id. destruct (decide (0 <= id < Z.of_nat 0)); [lia|reflexivity].
  - intros i acc Hi (Hc & Hp & Hw). cbn. repeat split; try assumption.
    intros id. destruct (decide (id = Z.of_nat i)) as [->|Hne].
    + rewrite lookup_insert_eq.
      destruct (decide (0 <= Z.of_nat i < Z.of_nat (S i))); [reflexivity|lia].
    + rewrite lookup_insert_ne by congruence. rewrite Hw.
      destruct (decide (0 <= id < Z.of_nat i)),
               (decide (0 <= id < Z.of_nat (S i))); try lia; reflexivity.
Qed.

End DataManagerFacts.

(** The models a fresh manager holds after [initialize], whatever the
    configuration. *)
Lemma initialize_models {Rng : Type} (sinf : float -> float) (seeded : Rng)
    (now : Z) (config : ConfigManager.t) :
  let r := DataManager.initialize sinf seeded now (DataManager.new, config) in
  let config' := snd (DemoDataProvider.new seeded config) in
  snd (fst r) = true
  /\ (forall id : Z,
        DataManager.GetWaveformModel id (fst (fst (fst r)))
        = if decide (0 <= id < 13) then Some (WaveformModel.new sinf config' id)
          else None)
  /\ (forall id : Z,
        DataManager.GetParameterModel id (fst (fst (fst r)))
        = if decide (0 <= id < 18) then Some (ParameterModel.new config' now id)
          else None).
Proof.
  unfold DataManager.initialize.
  destruct (DemoDataProvider.new seeded config) as [demo config1]. cbn [snd].
  set (dm1 := DataManager.registerProvider demo DataManager.new).
  destruct (initializeWaveformModels_spec sinf config1 dm1) as (Hc2 & Hp2 & Hw2).
  set (dm2 := DataManager.initializeWaveformModels sinf config1 dm1) in *.
  destruct (initializeParameterModels_spec config1 now dm2) as (Hc3 & Hw3 & Hp3).
  set (dm3 := DataManager.initializeParameterModels config1 now dm2) in *.
  assert (DataManager.current_provider_ dm3 = None) as Hcur.
  { rewrite Hc3, Hc2. reflexivity. }
  assert (forall id : Z,
            DataManager.waveform_models_ dm3 !! id
            = if decide (0 <= id < 13) then Some (WaveformModel.new sinf config1 id)
              else None) as Hw.
  { intros id. rewrite Hw3, Hw2. destruct (decide (0 <= id < 13)); reflexivity. }
  assert (forall id : Z,
            DataManager.parameter_models_ dm3 !! id
            = if decide (0 <= id < 18) then Some (ParameterModel.new config1 now id)
              else None) as Hp.
  { intros id. rewrite Hp3, Hp2. destruct (decide (0 <= id < 18)); reflexivity. }
  unfold DataManager.GetWaveformModel, DataManager.GetParameterModel.
  destruct (negb (bool_decide (ConfigManager.GetLastProvider config1 = ""%string))).
  - pose proof (SetActiveProvider_models now
                  (ConfigManager.GetLastProvider config1) dm3 config1 Hcur)
      as [Hw' Hp'].
    destruct (DataManager.SetActiveProvider now
                (ConfigManager.GetLastProvider config1) (dm3, config1))
      as [[w' ok] out].
    cbn in *. rewrite Hw', Hp'. repeat split; assumption.
  - destruct (DataManager.first_provider dm3) as [name|].
    + pose proof (SetActiveProvider_models now name dm3 config1 Hcur) as [Hw' Hp'].
      destruct (DataManager.SetActiveProvider now name (dm3, config1))
        as [[w' ok] out].
      cbn in *. rewrite Hw', Hp'. repeat split; assumption.
    + cbn. repeat split; assumption.
Qed.

(** C7. After [initialize] a fresh manager holds a waveform model for
    exactly the identifiers 0 to 12 and a parameter model for exactly the
    identifiers 0 to 17: the loops run to 13 and 18, past the 9 and 15
    enumerators.  The models for 9..12 and 15..17 are outside the catalog
    and carry the display name "Unknown". *)
Theorem initialize_models_outside_catalog :
  forall {Rng : Type} (sinf : float -> float) (seeded : Rng) (now : Z)
         (config : ConfigManager.t),
    let r := DataManager.initialize sinf seeded now (DataManager.new, config) in
    let dm := fst (fst (fst r)) in
    snd (fst r) = true
    /\ (forall id : Z,
          is_Some (DataManager.GetWaveformModel id dm) <-> 0 <= id < 13)
    /\ (forall id : Z,
          is_Some (DataManager.GetParameterModel id dm) <-> 0 <= id < 18)
    /\ length VitalSync.waveform_catalog = 9%nat
    /\ length VitalSync.parameter_catalog = 15%nat
    /\ (forall id : Z, id ∈ VitalSync.waveform_catalog <-> 0 <= id < 9)
    /\ (forall id : Z, id ∈ VitalSync.parameter_catalog <-> 0 <= id < 15)
    /\ (forall id : Z, 9 <= id < 13 ->
          WaveformModel.GetDisplayName <$> DataManager.GetWaveformModel id dm
          = Some "Unknown"%string)
    /\ (forall id : Z, 15 <= id < 18 ->
          ParameterModel.GetDisplayName <$> DataManager.GetParameterModel id dm
          = Some "Unknown"%string).
Proof.
  intros Rng sinf seeded now config r dm.
  destruct (initialize_models sinf seeded now config) as (Hok & Hw & Hp).
  fold r in Hok, Hw, Hp. fold dm in Hw, Hp.
  split; [exact Hok|].
  split; [|split].
  - intros id. rewrite Hw. destruct (decide (0 <= id < 13)) as [Hin|Hout].
    + split; [intros _; exact Hin|intros _; eexists; reflexivity].
    + split; [intros [m Hm]; discriminate Hm|intros Hin; contradiction].
  - intros id. rewrite Hp. destruct (decide (0 <= id < 18)) as [Hin|Hout].
    + split; [intros _; exact Hin|intros _; eexists; reflexivity].
    + split; [intros [m Hm]; discriminate Hm|intros Hin; contradiction].
  - split; [reflexivity|]. split; [reflexivity|].
    split; [|split; [|split]].
    + intros id. unfold VitalSync.waveform_catalog. rewrite !elem_of_cons.
      rewrite elem_of_nil. unfold VitalSync.ECG_I, VitalSync.ECG_II,
        VitalSync.ECG_III, VitalSync.RESP, VitalSync.PLETH, VitalSync.ABP,
        VitalSync.CVP, VitalSync.CAPNO, VitalSync.EEG. lia.
    + intros id. unfold VitalSync.parameter_catalog. rewrite !elem_of_cons.
      rewrite elem_of_nil. unfold VitalSync.HR, VitalSync.RR, VitalSync.SPO2,
        VitalSync.NIBP_SYS, VitalSync.NIBP_DIA, VitalSync.NIBP_MAP,
        VitalSync.TEMP1, VitalSync.TEMP2, VitalSync.ETCO2, VitalSync.IBP1_SYS,
        VitalSync.IBP1_DIA, VitalSync.IBP1_MAP, VitalSync.IBP2_SYS,
        VitalSync.IBP2_DIA, VitalSync.IBP2_MAP. lia.
    + intros id Hid. rewrite Hw. destruct (decide (0 <= id < 13)); [|lia].
      cbn. f_equal.
      assert (id = 9 \/ id = 10 \/ id = 11 \/ id = 12) as Hcases by lia.
      destruct Hcases as [->|[->|[->| ->]]]; reflexivity.
    + intros id Hid. rewrite Hp. destruct (decide (0 <= id < 18)); [|lia].
      cbn. f_equal.
      assert (id = 15 \/ id = 16 \/ id = 17) as Hcases by lia.
      destruct Hcases as [->|[->| ->]]; reflexivity.
Qed.

(** The theorem applied to a fresh manager over an empty configuration:
    it holds a waveform model for the identifier 9. *)
Lemma initialize_models_outside_catalog_witness :
  WaveformModel.GetDisplayName <$>
    DataManager.GetWaveformModel 9
      (fst (fst (fst (DataManager.initialize (fun _ => 0%float) 0%nat 1000
                        (DataManager.new, ConfigManager.empty)))))
  = Some "Unknown"%string.
Proof.
  apply (proj1 (proj2 (proj2 (proj2 (proj2 (proj2 (proj2 (proj2
           (initialize_models_outside_catalog (fun _ => 0%float) 0%nat 1000
              ConfigManager.empty))))))))).
  lia.
Defined.

(** C6. Deactivation, on the running demo world: the call returns true,
    emits [activeProviderChanged("")] and nothing else, clears the current
    provider and its connection and stops the provider; but the
    configuration is left as it was, and the last used provider it
    reports is still "Demo", not a "none" marker:
    [saveCurrentProviderToSettings] runs after [current_provider_] was
    reset and writes only under a current provider.  The configuration is
    untouched whenever a provider is deactivated. *)
Theorem deactivation_persists_nothing :
  (let w := DataManagerSpec.running_world in
   let r := DataManager.SetActiveProvider 2000 "" w in
   let w' := fst (fst r) in
   (DataManager.current_provider_ (fst w) = Some 0%nat
    /\ DataManager.connections (fst w) = [0%nat]
    /\ IDataProvider.isActive <$> DataManager.heap (fst w) !! 0%nat = Some true
    /\ ConfigManager.GetLastProvider (snd w) = "Demo"%string)
   /\ snd (fst r) = true
   /\ snd r = [DataManager.emit (DataManager.activeProviderChanged "")]
   /\ DataManager.current_provider_ (fst w') = None
   /\ DataManager.connections (fst w') = []
   /\ IDataProvider.isActive <$> DataManager.heap (fst w') !! 0%nat = Some false
   /\ snd w' = snd w
   /\ ConfigManager.GetLastProvider (snd w') = "Demo"%string
   /\ ConfigManager.GetLastProvider (snd w') <> "none"%string)
  /\ (forall {P : Type} `{IDataProvider.Ops P} (now : Z) (dm : DataManager.t P)
             (config : ConfigManager.t) (a : nat),
        DataManager.current_provider_ dm = Some a ->
        snd (fst (fst (DataManager.SetActiveProvider now "" (dm, config))))
        = config).
Proof.
  split.
  - cbv zeta.
    repeat match goal with
           | |- _ /\ _ => refine (conj _ _)
           end;
      try (vm_compute; reflexivity).
    vm_compute. discriminate.
  - intros P ops now dm config a Hcur.
    apply (SetActiveProvider_empty_name now dm config a Hcur).
Qed.

(** The theorem applied to the running demo world. *)
Lemma deactivation_persists_nothing_witness :
  snd (fst (fst (DataManager.SetActiveProvider 2000 ""
                   (fst DataManagerSpec.running_world,
                    snd DataManagerSpec.running_world))))
  = snd DataManagerSpec.running_world.
Proof.
  apply (proj2 deactivation_persists_nothing _ _ 2000
           (fst DataManagerSpec.running_world)
           (snd DataManagerSpec.running_world) 0%nat).
  vm_compute. reflexivity.
Defined.

(** * Further properties *)

(** ** Configuration manager *)

(** X1. A non-empty provider name written with [SetLastProvider] is what
    [GetLastProvider] returns.  The empty name is different: on a store
    that holds no last provider the write is skipped (the name read back
    with the empty default already equals it), and [GetLastProvider]
    answers with the default provider "Demo". *)
Theorem last_provider_set_get :
  (forall (c : ConfigManager.t) (name : string),
     name <> ""%string ->
     ConfigManager.GetLastProvider (ConfigManager.SetLastProvider name c) = name)
  /\ (forall c : ConfigManager.t,
        ConfigManager.settings_ c !! ConfigManager.KEY_LAST_PROVIDER = None ->
        ConfigManager.SetLastProvider "" c = c
        /\ ConfigManager.GetLastProvider (ConfigManager.SetLastProvider "" c)
           = "Demo"%string).
Proof.
  split.
  - intros c name Hne.
    unfold ConfigManager.GetLastProvider, ConfigManager.SetLastProvider,
      ConfigManager.SetString, ConfigManager.GetString.
    destruct (ConfigManager.settings_ c !! ConfigManager.KEY_LAST_PROVIDER)
      as [v|] eqn:Hv.
    + destruct (bool_decide (toString v = name)) eqn:Hd.
      * apply bool_decide_eq_true in Hd. rewrite Hv. exact Hd.
      * cbn. rewrite lookup_insert_eq. reflexivity.
    + rewrite bool_decide_eq_false_2 by congruence.
      cbn. rewrite lookup_insert_eq. reflexivity.
  - intros c Hnone.
    unfold ConfigManager.GetLastProvider, ConfigManager.SetLastProvider,
      ConfigManager.SetString, ConfigManager.GetString.
    rewrite Hnone. rewrite bool_decide_eq_true_2 by reflexivity.
    rewrite Hnone. split; reflexivity.
Qed.

Lemma last_provider_set_get_witness :
  ConfigManager.GetLastProvider
    (ConfigManager.SetLastProvider "Network" ConfigManager.empty)
  = "Network"%string.
Proof.
  apply (proj1 last_provider_set_get). discriminate.
Defined.

(** ** Parameter model *)

(** X3. A parameter model written back by its destructor and constructed
    again for the same type gets back its active flag and its colour, and
    its range and alarm limits as the stored doubles convert to [float].
    Its value, timestamp and alarm state are not stored: the new model
    starts at value 0, at the construction time and in state Normal. *)
Theorem parameter_model_round_trip :
  forall (m : ParameterModel.t) (config : ConfigManager.t) (now : Z),
    let m' :=
      ParameterModel.new (ParameterModel.save_config m config) now
        (ParameterModel.GetParameterId m) in
    ParameterModel.GetParameterId m' = ParameterModel.GetParameterId m
    /\ ParameterModel.isActive m' = ParameterModel.isActive m
    /\ ParameterModel.color_ m' = ParameterModel.color_ m
    /\ ParameterModel.min_value_ m' = to_float (ParameterModel.min_value_ m)
    /\ ParameterModel.max_value_ m' = to_float (ParameterModel.max_value_ m)
    /\ ParameterModel.low_critical_ m' = to_float (ParameterModel.low_critical_ m)
    /\ ParameterModel.low_warning_ m' = to_float (ParameterModel.low_warning_ m)
    /\ ParameterModel.high_warning_ m' = to_float (ParameterModel.high_warning_ m)
    /\ ParameterModel.high_critical_ m' = to_float (ParameterModel.high_critical_ m)
    /\ ParameterModel.GetValue m' = 0%float
    /\ ParameterModel.timestamp_ m' = now
    /\ ParameterModel.GetAlarmState m' = ParameterModel.Normal.
Proof.
  intros m config now.
  unfold ParameterModel.new, ParameterModel.save_config,
    ParameterModel.GetParameterId, ParameterModel.isActive,
    ParameterModel.GetValue, ParameterModel.GetAlarmState,
    ConfigManager.GetParameterConfig, ConfigManager.SetParameterConfig,
    ParameterModel.load.
  cbn [ConfigManager.parameter_configs_].
  rewrite lookup_insert_eq. cbn [default].
  destruct (VitalSync.GetDefaultAlarmLimits (ParameterModel.parameter_type_ m))
    as [[[lc lw] hw] hc].
  lookup_string_keys.
  cbn. repeat split.
Qed.

(** ** Waveform model *)

(** A model constructed over a configuration that stores a buffer size
    has that capacity, and its buffer is the seeded default buffer resized
    to it. *)
Lemma new_stored_capacity (sinf : float -> float) (config : ConfigManager.t)
    (waveformType : Z) (v : QVariant) :
  ConfigManager.GetWaveformConfig waveformType config !! "bufferSize"%string
    = Some v ->
  let m := WaveformModel.new sinf config waveformType in
  WaveformModel.GetMaxBufferSize m = toInt v
  /\ WaveformModel.GetData m
     = WaveformModel.resize (toInt v)
         (WaveformModel.seed sinf WaveformModel.DEFAULT_BUFFER_SIZE
            (WaveformModel.resize WaveformModel.DEFAULT_BUFFER_SIZE [])).
Proof.
  intros Hv. unfold WaveformModel.new, WaveformModel.GetMaxBufferSize,
    WaveformModel.GetData, WaveformModel.load.
  cbv zeta. cbn [WaveformModel.max_buffer_size_ WaveformModel.data_].
  rewrite Hv. split; reflexivity.
Qed.

(** X4. [SetMaxBufferSize] with a non-negative size other than the
    current capacity resizes the buffer to it.  Shrinking keeps the
    samples at the front of the buffer, the oldest, and drops the newest;
    growing appends zeros after the newest.  The last accepted timestamp
    stays, and [propertiesChanged] is emitted once. *)
Theorem SetMaxBufferSize_keeps_oldest :
  forall (m : WaveformModel.t) (size : Z),
    0 <= size ->
    size <> WaveformModel.GetMaxBufferSize m ->
    let m' := fst (WaveformModel.SetMaxBufferSize size m) in
    let d := WaveformModel.GetData m in
    WaveformModel.GetMaxBufferSize m' = size
    /\ length (WaveformModel.GetData m') = Z.to_nat size
    /\ ((Z.to_nat size <= length d)%nat ->
        WaveformModel.GetData m' = take (Z.to_nat size) d)
    /\ ((length d <= Z.to_nat size)%nat ->
        WaveformModel.GetData m'
        = d ++ replicate (Z.to_nat size - length d) 0%float)
    /\ WaveformModel.GetLastUpdateTime m' = WaveformModel.GetLastUpdateTime m
    /\ snd (WaveformModel.SetMaxBufferSize size m)
       = [WaveformModel.emit WaveformModel.propertiesChanged].
Proof.
  intros m size Hsize Hne.
  unfold WaveformModel.SetMaxBufferSize, WaveformModel.GetMaxBufferSize,
    WaveformModel.GetData, WaveformModel.GetLastUpdateTime in *.
  rewrite bool_decide_eq_false_2 by congruence.
  cbn [fst snd WaveformModel.set_buffer WaveformModel.max_buffer_size_
       WaveformModel.data_ WaveformModel.last_timestamp_].
  split; [reflexivity|]. split; [apply resize_length|].
  split; [|split; [|split; reflexivity]].
  - intros Hle. unfold WaveformModel.resize.
    replace (Z.to_nat size - length (WaveformModel.data_ m))%nat with 0%nat by lia.
    cbn [replicate]. apply app_nil_r.
  - intros Hle. unfold WaveformModel.resize.
    rewrite take_ge by lia. reflexivity.
Qed.

Lemma SetMaxBufferSize_keeps_oldest_witness :
  WaveformModel.GetData
    (fst (WaveformModel.SetMaxBufferSize 2
            (fst (WaveformModel.addWaveformData 10 [1; 2; 3]%float
                    WaveformModelSpec.fresh5))))
  = [0; 0]%float.
Proof.
  refine (eq_trans
            (proj1 (proj2 (proj2
               (SetMaxBufferSize_keeps_oldest
                  (fst (WaveformModel.addWaveformData 10 [1; 2; 3]%float
                          WaveformModelSpec.fresh5)) 2 _ _))) _) _).
  - lia.
  - vm_compute. discriminate.
  - vm_compute. lia.
  - vm_compute. reflexivity.
Defined.

(** X5. Whatever batches are offered to [addWaveformData], accepted or
    not (empty, out of order, for an inactive model, shorter or longer than
    the buffer), the length of the buffer, the capacity, the identifier and
    the active flag stay as they were. *)
Theorem addWaveformData_keeps_length :
  forall (batches : list (Z * list float)) (m : WaveformModel.t),
    let m' := WaveformModelSpec.add_all batches m in
    length (WaveformModel.GetData m') = length (WaveformModel.GetData m)
    /\ WaveformModel.GetMaxBufferSize m' = WaveformModel.GetMaxBufferSize m
    /\ WaveformModel.GetWaveformId m' = WaveformModel.GetWaveformId m
    /\ WaveformModel.isActive m' = WaveformModel.isActive m.
Proof.
  intros batches. unfold WaveformModelSpec.add_all.
  induction batches as [|[ts data] rest IH]; intros m.
  - cbn. repeat split.
  - cbn [fold_left fst snd].
    specialize (IH (fst (WaveformModel.addWaveformData ts data m))).
    cbv zeta in IH. destruct IH as (Hlen & Hcap & Hid & Hact).
    cbv zeta. rewrite Hlen, Hcap, Hid, Hact. clear Hlen Hcap Hid Hact.
    unfold WaveformModel.addWaveformData, WaveformModel.GetData,
      WaveformModel.GetMaxBufferSize, WaveformModel.GetWaveformId,
      WaveformModel.isActive.
    destruct (bool_decide (data = []) || negb (WaveformModel.active_ m));
      [cbn; repeat split|].
    destruct ((ts <=? WaveformModel.last_timestamp_ m)
              && negb (WaveformModel.last_timestamp_ m =? 0));
      [cbn; repeat split|].
    cbn [fst WaveformModel.set_data WaveformModel.data_
         WaveformModel.max_buffer_size_ WaveformModel.waveform_type_
         WaveformModel.active_].
    split; [|repeat split].
    destruct (Nat.leb_spec (length (WaveformModel.data_ m)) (length data)) as [Hle|Hlt].
    + unfold WaveformModel.mid. rewrite length_drop. lia.
    + rewrite shift_then_write by exact Hlt.
      rewrite length_app, length_drop. lia.
Qed.

(** The setters of the general settings leave the three tables alone. *)
Lemma general_setters_tables (c : ConfigManager.t) :
  let c' :=
    ConfigManager.SetDefaultBackgroundColor
      ConfigManager.DEFAULT_BG_COLOR
      (ConfigManager.SetDefaultGridColor
         ConfigManager.DEFAULT_GRID_COLOR
         (ConfigManager.SetDefaultSweepSpeed
            ConfigManager.DEFAULT_SWEEP_SPEED
            (ConfigManager.SetLastProvider ConfigManager.DEFAULT_PROVIDER c))) in
  ConfigManager.waveform_configs_ c' = ConfigManager.waveform_configs_ c
  /\ ConfigManager.parameter_configs_ c' = ConfigManager.parameter_configs_ c
  /\ ConfigManager.provider_configs_ c' = ConfigManager.provider_configs_ c.
Proof.
  unfold ConfigManager.SetDefaultBackgroundColor,
    ConfigManager.SetDefaultGridColor,
    ConfigManager.SetDefaultSweepSpeed, ConfigManager.SetLastProvider,
    ConfigManager.setColor, ConfigManager.SetDouble,
    ConfigManager.SetString, ConfigManager.set_setting.
  repeat match goal with
         | |- context [if ?b then _ else _] => destruct b
         end; cbn; repeat split.
Qed.

Lemma waveform_defaults_loop (n : nat) (c : ConfigManager.t) :
  let c' :=
    for_loop n
      (fun i c0 =>
         ConfigManager.SetWaveformConfig (Z.of_nat i)
           (ConfigManager.default_waveform_config i) c0) c in
  ConfigManager.parameter_configs_ c' = ConfigManager.parameter_configs_ c
  /\ ConfigManager.provider_configs_ c' = ConfigManager.provider_configs_ c
  /\ forall id : Z,
       ConfigManager.waveform_configs_ c' !! id
       = if decide (0 <= id < Z.of_nat n)
         then Some (ConfigManager.default_waveform_config (Z.to_nat id))
         else ConfigManager.waveform_configs_ c !! id.
Proof.
  cbv zeta.
  set (I := fun (j : nat) (acc : ConfigManager.t) =>
              ConfigManager.parameter_configs_ acc = ConfigManager.parameter_configs_ c
              /\ ConfigManager.provider_configs_ acc = ConfigManager.provider_configs_ c
              /\ forall id : Z,
                   ConfigManager.waveform_configs_ acc !! id
                   = if decide (0 <= id < Z.of_nat j)
                     then Some (ConfigManager.default_waveform_config
                                  (Z.to_nat id))
                     else ConfigManager.waveform_configs_ c !! id).
  match goal with
  | |- context [for_loop n ?body c] => enough (I n (for_loop n body c)) as HI by exact HI
  end.
  apply for_loop_invariant; unfold I.
  - split; [reflexivity|]. split; [reflexivity|]. intros id.
    destruct (decide (0 <= id < Z.of_nat 0)); [lia|reflexivity].
  - intros i acc Hi (Hp & Hv & Hw). cbn [ConfigManager.SetWaveformConfig
      ConfigManager.parameter_configs_ ConfigManager.provider_configs_
      ConfigManager.waveform_configs_].
    split; [exact Hp|]. split; [exact Hv|]. intros id.
    destruct (decide (id = Z.of_nat i)) as [->|Hne].
    + rewrite lookup_insert_eq, Nat2Z.id.
      destruct (decide (0 <= Z.of_nat i < Z.of_nat (S i))); [reflexivity|lia].
    + rewrite lookup_insert_ne by congruence. rewrite Hw.
      destruct (decide (0 <= id < Z.of_nat i)),
               (decide (0 <= id < Z.of_nat (S i))); try lia; reflexivity.
Qed.

Lemma parameter_defaults_loop (n : nat) (c : ConfigManager.t) :
  let c' :=
    for_loop n
      (fun i c0 =>
         ConfigManager.SetParameterConfig (Z.of_nat i)
           (ConfigManager.default_parameter_config i) c0) c in
  ConfigManager.waveform_configs_ c' = ConfigManager.waveform_configs_ c
  /\ ConfigManager.provider_configs_ c' = ConfigManager.provider_configs_ c
  /\ forall id : Z,
       ConfigManager.parameter_configs_ c' !! id
       = if decide (0 <= id < Z.of_nat n)
         then Some (ConfigManager.default_parameter_config (Z.to_nat id))
         else ConfigManager.parameter_configs_ c !! id.
Proof.
  cbv zeta.
  set (I := fun (j : nat) (acc : ConfigManager.t) =>
              ConfigManager.waveform_configs_ acc = ConfigManager.waveform_configs_ c
              /\ ConfigManager.provider_configs_ acc = ConfigManager.provider_configs_ c
              /\ forall id : Z,
                   ConfigManager.parameter_configs_ acc !! id
                   = if decide (0 <= id < Z.of_nat j)
                     then Some (ConfigManager.default_parameter_config
                                  (Z.to_nat id))
                     else ConfigManager.parameter_configs_ c !! id).
  match goal with
  | |- context [for_loop n ?body c] => enough (I n (for_loop n body c)) as HI by exact HI
  end.
  apply for_loop_invariant; unfold I.
  - split; [reflexivity|]. split; [reflexivity|]. intros id.
    destruct (decide (0 <= id < Z.of_nat 0)); [lia|reflexivity].
  - intros i acc Hi (Hw & Hv & Hp). cbn [ConfigManager.SetParameterConfig
      ConfigManager.parameter_configs_ ConfigManager.provider_configs_
      ConfigManager.waveform_configs_].
    split; [exact Hw|]. split; [exact Hv|]. intros id.
    destruct (decide (id = Z.of_nat i)) as [->|Hne].
    + rewrite lookup_insert_eq, Nat2Z.id.
      destruct (decide (0 <= Z.of_nat i < Z.of_nat (S i))); [reflexivity|lia].
    + rewrite lookup_insert_ne by congruence. rewrite Hp.
      destruct (decide (0 <= id < Z.of_nat i)),
               (decide (0 <= id < Z.of_nat (S i))); try lia; reflexivity.
Qed.

Lemma config_waveform_configs_mk s p w q d :
  ConfigManager.waveform_configs_ (ConfigManager.mk s p w q d) = w.
Proof. reflexivity. Qed.

Lemma config_parameter_configs_mk s p w q d :
  ConfigManager.parameter_configs_ (ConfigManager.mk s p w q d) = q.
Proof. reflexivity. Qed.

Lemma config_provider_configs_mk s p w q d :
  ConfigManager.provider_configs_ (ConfigManager.mk s p w q d) = p.
Proof. reflexivity. Qed.

(** What [resetToDefaults] leaves in the three tables, whatever they
    held. *)
Lemma resetToDefaults_tables (c : ConfigManager.t) (id : Z) :
  ConfigManager.waveform_configs_ (ConfigManager.resetToDefaults c) !! id
  = (if decide (0 <= id < 13)
     then Some (ConfigManager.default_waveform_config (Z.to_nat id))
     else None)
  /\ ConfigManager.parameter_configs_ (ConfigManager.resetToDefaults c) !! id
     = (if decide (0 <= id < 18)
        then Some (ConfigManager.default_parameter_config (Z.to_nat id))
        else None)
  /\ ConfigManager.provider_configs_ (ConfigManager.resetToDefaults c) = ∅.
Proof.
  unfold ConfigManager.resetToDefaults. cbv zeta.
  rewrite config_waveform_configs_mk, config_parameter_configs_mk,
    config_provider_configs_mk.
  match goal with
  | |- context [for_loop 18 _ ?c5] =>
      destruct (parameter_defaults_loop 18 c5) as (Hw6 & Hv6 & Hp6)
  end.
  cbv zeta in Hw6, Hv6, Hp6. rewrite Hw6, Hv6, Hp6. clear Hw6 Hv6 Hp6.
  match goal with
  | |- context [for_loop 13 _ ?c4] =>
      destruct (waveform_defaults_loop 13 c4) as (Hp5 & Hv5 & Hw5)
  end.
  cbv zeta in Hp5, Hv5, Hw5. rewrite Hp5, Hv5, Hw5. clear Hp5 Hv5 Hw5.
  match goal with
  | |- context [ConfigManager.SetDefaultBackgroundColor _
                  (ConfigManager.SetDefaultGridColor _
                     (ConfigManager.SetDefaultSweepSpeed _
                        (ConfigManager.SetLastProvider _ ?c0)))] =>
      destruct (general_setters_tables c0) as (Hw4 & Hp4 & Hv4)
  end.
  cbv zeta in Hw4, Hp4, Hv4. rewrite Hw4, Hp4, Hv4. clear Hw4 Hp4 Hv4.
  rewrite config_waveform_configs_mk, config_parameter_configs_mk,
    config_provider_configs_mk.
  change (Z.of_nat 13) with 13. change (Z.of_nat 18) with 18.
  rewrite !lookup_empty. split; [reflexivity|]. split; reflexivity.
Qed.

(** The default ranges and limits are binary32 values. *)
Lemma default_waveform_range_float (i : nat) :
  (i < 13)%nat ->
  let range := VitalSync.GetDefaultWaveformRange (Z.of_nat i) in
  to_float (fst range) = fst range /\ to_float (snd range) = snd range.
Proof.
  intros Hi. do 13 (destruct i as [|i]; [vm_compute; split; reflexivity|]). lia.
Qed.

(** X2. After [resetToDefaults], whatever the configuration was, a
    waveform model constructed for one of the counter values 0..12 has a
    capacity of 2500 samples, [DEFAULT_SAMPLE_RATE] x
    [DEFAULT_BUFFER_SECONDS]; its buffer holds the 1000 samples of the sine
    seed followed by 1500 zeros; it is active exactly for the first five
    identifiers, it is green whatever its type, and it has the default
    range of its type. *)
Theorem reset_then_waveform_model :
  forall (sinf : float -> float) (c : ConfigManager.t) (id : Z),
    0 <= id < 13 ->
    let m := WaveformModel.new sinf (ConfigManager.resetToDefaults c) id in
    WaveformModel.GetMaxBufferSize m = 2500
    /\ length (WaveformModel.GetData m) = 2500%nat
    /\ (forall i, (i < 1000)%nat ->
          WaveformModel.GetData m !! i
          = Some (0.5 * sinf (WaveformModelSpec.phase 1000 i))%float)
    /\ (forall i, (1000 <= i < 2500)%nat ->
          WaveformModel.GetData m !! i = Some 0%float)
    /\ WaveformModel.isActive m = (id <? 5)
    /\ WaveformModel.color_ m = Qt_green
    /\ (WaveformModel.min_value_ m, WaveformModel.max_value_ m)
       = VitalSync.GetDefaultWaveformRange id.
Proof.
  intros sinf c id Hid.
  destruct (resetToDefaults_tables c id) as (Hw & _ & _).
  destruct (decide (0 <= id < 13)) as [_|Hno]; [|lia].
  assert (ConfigManager.GetWaveformConfig id (ConfigManager.resetToDefaults c)
          = ConfigManager.default_waveform_config (Z.to_nat id)) as Hcfg.
  { unfold ConfigManager.GetWaveformConfig. rewrite Hw. reflexivity. }
  assert (ConfigManager.default_waveform_config (Z.to_nat id)
            !! "bufferSize"%string = Some (VInt 2500)) as Hsize.
  { unfold ConfigManager.default_waveform_config. cbv zeta.
    lookup_string_keys. reflexivity. }
  destruct (new_stored_capacity sinf (ConfigManager.resetToDefaults c) id
              (VInt 2500) ltac:(rewrite Hcfg; exact Hsize)) as [Hcap Hdata].
  destruct (seed_spec sinf WaveformModel.DEFAULT_BUFFER_SIZE
              (WaveformModel.resize WaveformModel.DEFAULT_BUFFER_SIZE [])
              (resize_length _ _)) as [Hlen Hseed].
  cbv zeta. rewrite Hcap, Hdata. clear Hcap Hdata.
  set (data0 := WaveformModel.seed sinf WaveformModel.DEFAULT_BUFFER_SIZE
                  (WaveformModel.resize WaveformModel.DEFAULT_BUFFER_SIZE [])) in *.
  change (Z.to_nat WaveformModel.DEFAULT_BUFFER_SIZE) with 1000%nat in Hlen, Hseed.
  change (toInt (VInt 2500)) with 2500.
  assert (WaveformModel.resize 2500 data0 = data0 ++ replicate 1500 0%float) as ->.
  { unfold WaveformModel.resize. rewrite take_ge by (rewrite Hlen; lia).
    rewrite Hlen. reflexivity. }
  split; [reflexivity|].
  split; [rewrite length_app, length_replicate, Hlen; reflexivity|].
  split; [intros i Hi; rewrite lookup_app_l by lia; apply Hseed; exact Hi|].
  split; [intros i Hi; rewrite lookup_app_r by lia; apply lookup_replicate_2; lia|].
  clearbody data0. clear Hlen Hseed data0.
  unfold WaveformModel.new, WaveformModel.isActive, WaveformModel.load.
  cbv zeta.
  cbn [WaveformModel.active_ WaveformModel.color_ WaveformModel.min_value_
       WaveformModel.max_value_].
  rewrite Hcfg. unfold ConfigManager.default_waveform_config. cbv zeta.
  lookup_string_keys.
  split; [|split; [reflexivity|]].
  - unfold toBool.
    destruct (Nat.ltb_spec (Z.to_nat id) 5), (Z.ltb_spec id 5); try lia; reflexivity.
  - unfold toFloat, toDouble.
    destruct (default_waveform_range_float (Z.to_nat id) ltac:(lia)) as [H1 H2].
    rewrite Z2Nat.id in * by lia. cbv zeta in H1, H2. rewrite H1, H2.
    destruct (VitalSync.GetDefaultWaveformRange id). reflexivity.
Qed.

Lemma reset_then_waveform_model_witness :
  WaveformModel.GetMaxBufferSize
    (WaveformModel.new (fun _ => 0%float)
       (ConfigManager.resetToDefaults ConfigManager.empty) VitalSync.RESP)
  = 2500.
Proof.
  refine (proj1 (reset_then_waveform_model (fun _ => 0%float) ConfigManager.empty
                   VitalSync.RESP _)).
  unfold VitalSync.RESP. lia.
Defined.

(** Appending to the last [n] elements and keeping the last [n] is
    keeping the last [n] of everything. *)
Lemma last_n_app {A : Type} (n : nat) (x b : list A) :
  WaveformModelSpec.last_n n (WaveformModelSpec.last_n n x ++ b)
  = WaveformModelSpec.last_n n (x ++ b).
Proof.
  unfold WaveformModelSpec.last_n.
  rewrite !length_app, length_drop.
  destruct (decide (n <= length b)%nat) as [Hge|Hlt].
  - rewrite !drop_app_ge by (rewrite ?length_drop; lia).
    rewrite length_drop. f_equal. lia.
  - rewrite !drop_app_le by (rewrite ?length_drop; lia).
    rewrite drop_drop. f_equal. f_equal. lia.
Qed.

Lemma default_last_cons {A : Type} (a b y : A) (l : list A) :
  default a (last (y :: l)) = default b (last (y :: l)).
Proof.
  destruct (last (y :: l)) as [x|] eqn:Hl; [reflexivity|].
  apply last_None in Hl. discriminate Hl.
Qed.

(** X14. First in, first out across batches: after a sequence of
    non-empty batches with increasing timestamps to an active model, the
    buffer holds the last samples, as many as it held before, of its old
    contents followed by all the batches in order; the stored timestamp is
    that of the last batch. *)
Theorem addWaveformData_stream :
  forall (batches : list (Z * list float)) (m : WaveformModel.t),
    WaveformModel.isActive m = true ->
    WaveformModelSpec.in_order (WaveformModel.GetLastUpdateTime m) batches ->
    let m' := WaveformModelSpec.add_all batches m in
    WaveformModel.GetData m'
    = WaveformModelSpec.last_n (length (WaveformModel.GetData m))
        (WaveformModel.GetData m ++ concat (snd <$> batches))
    /\ WaveformModel.GetLastUpdateTime m'
       = default (WaveformModel.GetLastUpdateTime m) (last (fst <$> batches)).
Proof.
  intros batches. unfold WaveformModelSpec.add_all.
  induction batches as [|[ts data] rest IH]; intros m Hact Hord.
  - cbn. rewrite app_nil_r. unfold WaveformModelSpec.last_n.
    rewrite Nat.sub_diag. split; reflexivity.
  - cbn [WaveformModelSpec.in_order] in Hord. destruct Hord as (Hne & Hts & Hord).
    cbn [fold_left fst snd].
    rewrite (addWaveformData_accepted m ts data Hact Hne Hts). cbn [fst].
    set (d1 := if (length (WaveformModel.data_ m) <=? length data)%nat
               then drop (length data - length (WaveformModel.data_ m)) data
               else drop (length data) (WaveformModel.data_ m) ++ data).
    assert (d1 = WaveformModelSpec.last_n (length (WaveformModel.data_ m))
                   (WaveformModel.data_ m ++ data)) as Hd1.
    { subst d1. unfold WaveformModelSpec.last_n. rewrite length_app.
      destruct (Nat.leb_spec (length (WaveformModel.data_ m)) (length data)).
      - rewrite drop_app_ge by lia. f_equal. lia.
      - rewrite drop_app_le by lia. f_equal. f_equal. lia. }
    assert (length d1 = length (WaveformModel.data_ m)) as Hlen1.
    { rewrite Hd1. unfold WaveformModelSpec.last_n.
      rewrite length_drop, length_app. lia. }
    destruct (IH (WaveformModel.set_data d1 ts m) Hact Hord) as [Hdata Hlast].
    cbv zeta. rewrite Hdata, Hlast.
    unfold WaveformModel.GetData, WaveformModel.GetLastUpdateTime.
    cbn [WaveformModel.set_data WaveformModel.data_ WaveformModel.last_timestamp_].
    split.
    + rewrite Hlen1, Hd1. cbn [fmap list_fmap snd concat].
      rewrite last_n_app, <- app_assoc. reflexivity.
    + cbn [fmap list_fmap fst]. destruct rest as [|b rest']; [reflexivity|].
      cbn [fmap list_fmap last]. apply default_last_cons.
Qed.

(** The theorem applied to two batches of three samples and a buffer of
    five: the buffer ends up with the last five samples sent. *)
Lemma addWaveformData_stream_witness :
  WaveformModel.GetData
    (WaveformModelSpec.add_all [(10, [1; 2; 3]%float); (20, [4; 5; 6]%float)]
       WaveformModelSpec.fresh5)
  = [2; 3; 4; 5; 6]%float.
Proof.
  refine (eq_trans
            (proj1 (addWaveformData_stream
                      [(10, [1; 2; 3]%float); (20, [4; 5; 6]%float)]
                      WaveformModelSpec.fresh5 _ _)) _).
  - reflexivity.
  - split; [intros Hnil; discriminate Hnil|].
    split; [right; vm_compute; reflexivity|].
    split; [intros Hnil; discriminate Hnil|].
    split; [left; lia|exact I].
  - vm_compute. reflexivity.
Defined.

(** X13. A waveform model written back by its destructor and constructed
    again for the same type gets back its capacity, its active flag, its
    colour and its range (as the stored doubles convert to [float]).  The
    samples are not stored: the buffer is the seeded default buffer resized
    to the capacity, and the last accepted timestamp is 0 again, so that
    the first non-empty batch is accepted whatever its timestamp. *)
Theorem waveform_model_round_trip :
  forall (sinf : float -> float) (m : WaveformModel.t) (config : ConfigManager.t),
    let m' :=
      WaveformModel.new sinf (WaveformModel.save_config m config)
        (WaveformModel.GetWaveformId m) in
    WaveformModel.GetWaveformId m' = WaveformModel.GetWaveformId m
    /\ WaveformModel.GetMaxBufferSize m' = WaveformModel.GetMaxBufferSize m
    /\ WaveformModel.isActive m' = WaveformModel.isActive m
    /\ WaveformModel.color_ m' = WaveformModel.color_ m
    /\ WaveformModel.min_value_ m' = to_float (WaveformModel.min_value_ m)
    /\ WaveformModel.max_value_ m' = to_float (WaveformModel.max_value_ m)
    /\ WaveformModel.GetData m'
       = WaveformModel.resize (WaveformModel.GetMaxBufferSize m)
           (WaveformModel.seed sinf WaveformModel.DEFAULT_BUFFER_SIZE
              (WaveformModel.resize WaveformModel.DEFAULT_BUFFER_SIZE []))
    /\ WaveformModel.GetLastUpdateTime m' = 0
    /\ (forall ts data,
          WaveformModel.isActive m = true -> data <> [] ->
          snd (WaveformModel.addWaveformData ts data m')
          = [WaveformModel.emit WaveformModel.dataUpdated]).
Proof.
  intros sinf m config.
  assert (ConfigManager.GetWaveformConfig (WaveformModel.GetWaveformId m)
            (WaveformModel.save_config m config)
          = <["active" := VBool (WaveformModel.active_ m)]>
            (<["color" := VColor (WaveformModel.color_ m)]>
            (<["minValue" := VDouble (WaveformModel.min_value_ m)]>
            (<["maxValue" := VDouble (WaveformModel.max_value_ m)]>
            (<["bufferSize" := VInt (WaveformModel.max_buffer_size_ m)]> ∅)))))
    as Hcfg.
  { unfold WaveformModel.save_config, ConfigManager.GetWaveformConfig,
      ConfigManager.SetWaveformConfig, WaveformModel.GetWaveformId.
    cbn [ConfigManager.waveform_configs_]. rewrite lookup_insert_eq. reflexivity. }
  destruct (new_stored_capacity sinf (WaveformModel.save_config m config)
              (WaveformModel.GetWaveformId m)
              (VInt (WaveformModel.max_buffer_size_ m))) as [Hcap Hdata].
  { rewrite Hcfg. lookup_string_keys. reflexivity. }
  cbv zeta.
  assert (WaveformModel.isActive
            (WaveformModel.new sinf (WaveformModel.save_config m config)
               (WaveformModel.GetWaveformId m)) = WaveformModel.isActive m
          /\ WaveformModel.GetLastUpdateTime
               (WaveformModel.new sinf (WaveformModel.save_config m config)
                  (WaveformModel.GetWaveformId m)) = 0) as [Hact Hlast].
  { unfold WaveformModel.new, WaveformModel.isActive, WaveformModel.load,
      WaveformModel.GetLastUpdateTime.
    cbv zeta. cbn [WaveformModel.active_ WaveformModel.last_timestamp_].
    rewrite Hcfg. lookup_string_keys. split; reflexivity. }
  split; [reflexivity|]. split; [exact Hcap|]. split; [exact Hact|].
  split; [|split; [|split; [|split; [|split]]]].
  - unfold WaveformModel.new, WaveformModel.load. cbv zeta.
    cbn [WaveformModel.color_]. rewrite Hcfg. lookup_string_keys. reflexivity.
  - unfold WaveformModel.new, WaveformModel.load. cbv zeta.
    cbn [WaveformModel.min_value_]. rewrite Hcfg. lookup_string_keys. reflexivity.
  - unfold WaveformModel.new, WaveformModel.load. cbv zeta.
    cbn [WaveformModel.max_value_]. rewrite Hcfg. lookup_string_keys. reflexivity.
  - exact Hdata.
  - exact Hlast.
  - intros ts data Hactive Hne.
    rewrite addWaveformData_accepted; [reflexivity| |exact Hne|].
    + rewrite Hact. exact Hactive.
    + right. exact Hlast.
Qed.

(** ** Demo provider *)

Section EmitAll.
Import DemoDataProvider.

Variable slot : Signal -> option exn.

(** Where a sequence of emissions ends: after the last signal when no
    receiver throws, and with the first signal whose receiver throws
    otherwise. *)
Lemma emit_all_spec (sigs : list Signal) :
  match snd (emit_all slot sigs) with
  | None =>
      fst (emit_all slot sigs) = sigs /\ forall sg, sg ∈ sigs -> slot sg = None
  | Some e =>
      exists pre sg post,
        sigs = pre ++ sg :: post
        /\ fst (emit_all slot sigs) = pre ++ [sg]
        /\ slot sg = Some e
        /\ forall x, x ∈ pre -> slot x = None
  end.
Proof.
  induction sigs as [|sg rest IH]; cbn [emit_all].
  - cbn. split; [reflexivity|]. intros sg Hin. inversion Hin.
  - destruct (slot sg) as [e|] eqn:Hsg.
    + cbn. exists [], sg, rest. repeat split; try assumption.
      intros x Hin. inversion Hin.
    + destruct (emit_all slot rest) as [done [e|]]; cbn in *.
      * destruct IH as (pre & sg' & post & Hsigs & Hdone & Hthrow & Hquiet).
        exists (sg :: pre), sg', post. subst. repeat split; try assumption.
        intros x Hin. apply elem_of_cons in Hin as [->|Hin]; auto.
      * destruct IH as [Hdone Hquiet]. subst. split; [reflexivity|].
        intros x Hin. apply elem_of_cons in Hin as [->|Hin]; auto.
Qed.

End EmitAll.

(** X6. No exception leaves [generateParameterData].  When the provider
    is not connected or not active the tick does nothing.  Otherwise the
    cycle counter advances by one, whatever the receivers do; when no
    receiver throws, all fifteen signals are emitted and nothing is
    logged; when the receiver of a signal throws, that signal is the last
    one emitted, the remaining values of the tick are not emitted, and
    exactly one [qCritical] line is logged. *)
Theorem parameter_tick_contained :
  forall {Rng : Type} (bounded : Z -> Rng -> Z * Rng)
         (generateDouble : Rng -> float * Rng) (sin : float -> float)
         (slot : IDataProvider.Signal -> option DemoDataProvider.exn)
         (now : Z) (p : DemoDataProvider.t Rng),
    let tick :=
      DemoDataProvider.generateParameterData bounded generateDouble sin slot now p in
    let s := DemoDataProviderSpec.sample_of bounded generateDouble sin p in
    DemoDataProvider.escaped tick = None
    /\ (DemoDataProvider.status_ p <> VitalSync.Connected
        \/ DemoDataProvider.active_ p = false ->
        tick = DemoDataProvider.mkTick p [] [] None)
    /\ (DemoDataProvider.status_ p = VitalSync.Connected ->
        DemoDataProvider.active_ p = true ->
        DemoDataProvider.cycleCounter (DemoDataProvider.after tick)
        = DemoDataProvider.cycleCounter p + 1
        /\ ((forall sg, sg ∈ DemoDataProvider.emissions now s -> slot sg = None) ->
            DemoDataProvider.emitted tick = DemoDataProvider.emissions now s
            /\ DemoDataProvider.critical tick = [])
        /\ (forall pre sg post e,
              DemoDataProvider.emissions now s = pre ++ sg :: post ->
              (forall x, x ∈ pre -> slot x = None) ->
              slot sg = Some e ->
              DemoDataProvider.emitted tick = pre ++ [sg]
              /\ DemoDataProvider.critical tick
                 = [DemoDataProviderSpec.critical_line e])).
Proof.
  intros Rng bounded generateDouble sin slot now p tick s.
  split; [apply generateParameterData_emitted|].
  subst tick s. unfold DemoDataProvider.generateParameterData,
    DemoDataProviderSpec.sample_of.
  split.
  - intros [Hst|Hact].
    + rewrite bool_decide_eq_false_2 by exact Hst. reflexivity.
    + rewrite Hact. rewrite orb_true_r. reflexivity.
  - intros Hst Hact.
    rewrite (bool_decide_eq_true_2 _ Hst), Hact. cbn [negb orb].
    destruct (DemoDataProvider.synthesize bounded generateDouble sin
                (DemoDataProvider.cycleCounter p + 1) p
                (DemoDataProvider.random_ p)) as [smp r].
    cbn [fst].
    pose proof (emit_all_spec slot (DemoDataProvider.emissions now smp)) as Hspec.
    destruct (DemoDataProvider.emit_all slot (DemoDataProvider.emissions now smp))
      as [sent thrown].
    cbn [fst snd] in Hspec.
    split; [|split].
    + destruct thrown as [[what|]|]; reflexivity.
    + intros Hquiet. destruct thrown as [e|].
      * destruct Hspec as (pre & sg & post & Hsigs & _ & Hthrow & _).
        rewrite Hquiet in Hthrow; [discriminate Hthrow|].
        rewrite Hsigs. apply elem_of_app. right. apply elem_of_cons. left. reflexivity.
      * destruct Hspec as [-> _]. split; reflexivity.
    + intros pre sg post e Hsigs Hquiet Hthrow. destruct thrown as [e'|].
      * destruct Hspec as (pre' & sg' & post' & Hsigs' & -> & Hthrow' & Hquiet').
        assert (pre' = pre /\ sg' = sg) as [-> ->].
        { rewrite Hsigs in Hsigs'. clear Hsigs.
          revert pre' Hsigs' Hquiet'.
          induction pre as [|x pre IHpre]; intros pre' Hsigs' Hquiet'.
          - destruct pre' as [|y pre']; cbn in Hsigs'.
            + injection Hsigs' as Hhd _. subst sg'. split; reflexivity.
            + injection Hsigs' as Hhd _. subst y.
              rewrite (Hquiet' sg) in Hthrow
                by (apply elem_of_cons; left; reflexivity).
              discriminate Hthrow.
          - destruct pre' as [|y pre']; cbn in Hsigs'.
            + injection Hsigs' as Hhd _. subst x.
              rewrite (Hquiet sg') in Hthrow'
                by (apply elem_of_cons; left; reflexivity).
              discriminate Hthrow'.
            + injection Hsigs' as Hhd Hsigs'. subst y.
              destruct (IHpre (fun z Hz => Hquiet z ltac:(apply elem_of_cons; right; exact Hz))
                          pre' Hsigs'
                          (fun z Hz => Hquiet' z ltac:(apply elem_of_cons; right; exact Hz)))
                as [-> ->].
              split; reflexivity. }
        rewrite Hthrow in Hthrow'. injection Hthrow' as ->.
        destruct e' as [what|]; split; reflexivity.
      * destruct Hspec as [_ Hall]. rewrite Hall in Hthrow; [discriminate Hthrow|].
        rewrite Hsigs. apply elem_of_app. right. apply elem_of_cons. left. reflexivity.
Qed.

(** The theorem applied to the running 82/80 provider and a receiver that
    throws on the SpO2 value: heart rate, respiration rate and SpO2 are
    emitted, the other twelve values of the tick are not, and one line is
    logged. *)
Lemma parameter_tick_contained_witness :
  let tick :=
    DemoDataProvider.generateParameterData DemoDataProviderSpec.quiet_bounded
      DemoDataProviderSpec.quiet_double DemoDataProviderSpec.flat_sin
      DemoDataProviderSpec.spo2_receiver_throws 1000
      DemoDataProviderSpec.narrow_pulse in
  let s :=
    DemoDataProviderSpec.sample_of DemoDataProviderSpec.quiet_bounded
      DemoDataProviderSpec.quiet_double DemoDataProviderSpec.flat_sin
      DemoDataProviderSpec.narrow_pulse in
  DemoDataProvider.emitted tick
  = take 2 (DemoDataProvider.emissions 1000 s)
    ++ [IDataProvider.parameterDataReceived VitalSync.SPO2 1000
          (float_of_int (DemoDataProvider.spo2 s))]
  /\ DemoDataProvider.critical tick
     = ["Exception in generateParameterData: full"%string].
Proof.
  cbv zeta.
  refine (proj2 (proj2 (proj2 (proj2
           (parameter_tick_contained DemoDataProviderSpec.quiet_bounded
              DemoDataProviderSpec.quiet_double DemoDataProviderSpec.flat_sin
              DemoDataProviderSpec.spo2_receiver_throws 1000
              DemoDataProviderSpec.narrow_pulse)) eq_refl eq_refl))
           _ _
           (drop 3 (DemoDataProvider.emissions 1000
              (DemoDataProviderSpec.sample_of DemoDataProviderSpec.quiet_bounded
                 DemoDataProviderSpec.quiet_double DemoDataProviderSpec.flat_sin
                 DemoDataProviderSpec.narrow_pulse)))
           (DemoDataProvider.std_exception "full") _ _ _).
  - reflexivity.
  - intros x Hin. cbn [take DemoDataProvider.emissions] in Hin.
    apply elem_of_cons in Hin as [->|Hin]; [reflexivity|].
    apply elem_of_cons in Hin as [->|Hin]; [reflexivity|].
    inversion Hin.
  - reflexivity.
Defined.

(** X7. The life cycle of an inactive demo provider.  [start] returns
    true and announces Connecting without making the provider active; a
    second [start] before the connection delay has passed announces
    Connecting again.  When the delay has passed the provider is Connected
    and active with both timers running, and [start] is then silent.
    [stop] announces Disconnected, stops the timers and keeps the cycle
    counter and the random generator; a further [stop] is silent.  A
    [stop] during the connection delay announces nothing and cancels
    nothing: when the delay has passed the provider becomes active all the
    same. *)
Theorem provider_lifecycle :
  forall {Rng : Type} (p : DemoDataProvider.t Rng),
    DemoDataProvider.isActive p = false ->
    let started := DemoDataProvider.start p in
    let p1 := fst (fst started) in
    let connected := DemoDataProvider.connection_delay_completed p1 in
    let p2 := fst connected in
    let stopped := DemoDataProvider.stop p2 in
    let p3 := fst stopped in
    let late :=
      DemoDataProvider.connection_delay_completed
        (fst (DemoDataProvider.stop p1)) in
    (snd (fst started) = true
     /\ snd started
        = [IDataProvider.connectionStatusChanged VitalSync.Connecting]
     /\ DemoDataProvider.isActive p1 = false
     /\ DemoDataProvider.GetConnectionStatus p1 = VitalSync.Connecting
     /\ DemoDataProvider.start p1
        = (p1, true, [IDataProvider.connectionStatusChanged VitalSync.Connecting]))
    /\ (snd connected = [IDataProvider.connectionStatusChanged VitalSync.Connected]
        /\ DemoDataProvider.isActive p2 = true
        /\ DemoDataProvider.GetConnectionStatus p2 = VitalSync.Connected
        /\ DemoDataProvider.waveform_timer_running p2 = true
        /\ DemoDataProvider.parameter_timer_running p2 = true
        /\ DemoDataProvider.start p2 = (p2, true, []))
    /\ (snd stopped = [IDataProvider.connectionStatusChanged VitalSync.Disconnected]
        /\ DemoDataProvider.isActive p3 = false
        /\ DemoDataProvider.GetConnectionStatus p3 = VitalSync.Disconnected
        /\ DemoDataProvider.waveform_timer_running p3 = false
        /\ DemoDataProvider.parameter_timer_running p3 = false
        /\ DemoDataProvider.cycleCounter p3 = DemoDataProvider.cycleCounter p
        /\ DemoDataProvider.random_ p3 = DemoDataProvider.random_ p
        /\ DemoDataProvider.stop p3 = (p3, []))
    /\ (snd (DemoDataProvider.stop p1) = []
        /\ DemoDataProvider.isActive (fst late) = true
        /\ DemoDataProvider.GetConnectionStatus (fst late) = VitalSync.Connected
        /\ snd late = [IDataProvider.connectionStatusChanged VitalSync.Connected]).
Proof.
  intros Rng p Hinactive. unfold DemoDataProvider.isActive in Hinactive.
  cbv zeta.
  unfold DemoDataProvider.start. rewrite Hinactive.
  cbn [fst snd DemoDataProvider.set_status DemoDataProvider.active_
       DemoDataProvider.isActive DemoDataProvider.GetConnectionStatus
       DemoDataProvider.status_].
  rewrite Hinactive.
  unfold DemoDataProvider.connection_delay_completed, DemoDataProvider.stop.
  cbn [fst snd DemoDataProvider.set_status DemoDataProvider.set_run
       DemoDataProvider.active_ DemoDataProvider.isActive
       DemoDataProvider.GetConnectionStatus DemoDataProvider.status_
       DemoDataProvider.waveform_timer_running
       DemoDataProvider.parameter_timer_running DemoDataProvider.cycleCounter
       DemoDataProvider.random_].
  rewrite Hinactive.
  cbn [fst snd DemoDataProvider.set_status DemoDataProvider.set_run
       DemoDataProvider.active_ DemoDataProvider.isActive
       DemoDataProvider.GetConnectionStatus DemoDataProvider.status_
       DemoDataProvider.waveform_timer_running
       DemoDataProvider.parameter_timer_running DemoDataProvider.cycleCounter
       DemoDataProvider.random_].
  repeat match goal with |- _ /\ _ => split end; reflexivity.
Qed.

(** The theorem applied to a freshly constructed demo provider. *)
Lemma provider_lifecycle_witness :
  let p := fst (DemoDataProvider.new 0%nat ConfigManager.empty) in
  DemoDataProvider.isActive
    (fst (DemoDataProvider.connection_delay_completed
            (fst (DemoDataProvider.stop (fst (fst (DemoDataProvider.start p)))))))
  = true.
Proof.
  cbv zeta.
  exact (proj1 (proj2 (proj2 (proj2 (proj2
           (provider_lifecycle (fst (DemoDataProvider.new 0%nat ConfigManager.empty))
              eq_refl)))))).
Defined.

Section WaveformTick.
Import DemoDataProvider.

Context {Rng : Type}.
Variable slot : Signal -> option exn.

(** What a run of the waveform loop adds to the signals already sent:
    waveform signals with the tick's timestamp, one per entry visited, in
    the order of the entries. *)
Lemma waveform_loop_emitted (entries : list (Z * generator (Rng := Rng)))
    (elapsedTimeSeconds : float) (timestamp : Z) (p : t Rng)
    (sent : list Signal) :
  let tick := waveform_loop slot entries elapsedTimeSeconds timestamp p sent in
  critical tick = []
  /\ exists added,
       emitted tick = sent ++ added
       /\ omap DemoDataProviderSpec.waveform_id_of added `prefix_of` entries.*1
       /\ Forall (fun sg => exists id data,
                    sg = waveformDataReceived id timestamp data) added.
Proof.
  revert p sent. induction entries as [|[id g] rest IH]; intros p sent.
  - cbn. split; [reflexivity|]. exists []. rewrite app_nil_r.
    split; [reflexivity|]. split; [reflexivity|constructor].
  - cbn [waveform_loop]. cbv zeta.
    destruct (g elapsedTimeSeconds 3 p) as [[data p']|e].
    + destruct (slot (waveformDataReceived id timestamp data)) as [e|].
      * cbn. split; [reflexivity|].
        exists [waveformDataReceived id timestamp data].
        split; [reflexivity|]. split.
        -- cbn. apply prefix_cons, prefix_nil.
        -- constructor; [|constructor]. exists id, data. reflexivity.
      * destruct (IH p' (sent ++ [waveformDataReceived id timestamp data]))
          as (Hcrit & added & Hem & Hpre & Hall).
        split; [exact Hcrit|].
        exists (waveformDataReceived id timestamp data :: added).
        split; [rewrite Hem, <- app_assoc; reflexivity|]. split.
        -- cbn. apply prefix_cons. exact Hpre.
        -- constructor; [|exact Hall]. exists id, data. reflexivity.
    + cbn. split; [reflexivity|]. exists []. rewrite app_nil_r.
      split; [reflexivity|]. split; [apply prefix_nil|constructor].
Qed.

End WaveformTick.

(** X8. The signals of a waveform tick carry the tick's timestamp and
    one of the seven identifiers ECG I, ECG II, ECG III, RESP, PLETH, ABP
    and CAPNO, each at most once: whatever the generators and receivers
    do, no signal is emitted for CVP or EEG, at most seven signals are
    emitted, and nothing is logged.  An inactive provider emits
    nothing. *)
Theorem waveform_tick_ids :
  forall {Rng : Type} (slot : IDataProvider.Signal -> option DemoDataProvider.exn)
         (generateECG generateRespiration generatePlethysmograph
          generateArterialPressure generateCapnograph
            : DemoDataProvider.generator (Rng := Rng))
         (elapsed now : Z) (p : DemoDataProvider.t Rng),
    let tick :=
      DemoDataProvider.generateWaveformData slot generateECG generateRespiration
        generatePlethysmograph generateArterialPressure generateCapnograph
        elapsed now p in
    let ids := omap DemoDataProviderSpec.waveform_id_of (DemoDataProvider.emitted tick) in
    (forall sg, sg ∈ DemoDataProvider.emitted tick ->
       exists id data,
         sg = IDataProvider.waveformDataReceived id now data
         /\ id ∈ [VitalSync.ECG_I; VitalSync.ECG_II; VitalSync.ECG_III;
                  VitalSync.RESP; VitalSync.PLETH; VitalSync.ABP;
                  VitalSync.CAPNO])
    /\ NoDup ids
    /\ (VitalSync.CVP ∉ ids)
    /\ (VitalSync.EEG ∉ ids)
    /\ (length (DemoDataProvider.emitted tick) <= 7)%nat
    /\ DemoDataProvider.critical tick = []
    /\ (DemoDataProvider.isActive p = false ->
        tick = DemoDataProvider.mkTick p [] [] None).
Proof.
  intros Rng slot gE gR gP gA gC elapsed now p tick ids.
  set (gens := DemoDataProvider.waveform_generators_ gE gR gP gA gC).
  assert (forall id, id ∈ (map_to_list gens).*1 ->
            id ∈ [VitalSync.ECG_I; VitalSync.ECG_II; VitalSync.ECG_III;
                  VitalSync.RESP; VitalSync.PLETH; VitalSync.ABP;
                  VitalSync.CAPNO]) as Hkeys.
  { intros id Hin. apply list_elem_of_fmap in Hin as [[k g] [-> Hin]].
    apply elem_of_map_to_list in Hin. cbn [fst].
    unfold gens, DemoDataProvider.waveform_generators_ in Hin.
    repeat (apply lookup_insert_Some in Hin as [[<- _]|[_ Hin]];
            [repeat first [apply list_elem_of_here | apply list_elem_of_further]|]).
    rewrite lookup_empty in Hin. discriminate Hin. }
  assert (NoDup (map_to_list gens).*1) as Hnodup by apply NoDup_fst_map_to_list.
  assert (exists added,
            DemoDataProvider.emitted tick = added
            /\ omap DemoDataProviderSpec.waveform_id_of added
                 `prefix_of` (map_to_list gens).*1
            /\ Forall (fun sg => exists id data,
                         sg = IDataProvider.waveformDataReceived id now data) added
            /\ DemoDataProvider.critical tick = []) as (added & Hem & Hpre & Hall & Hcrit).
  { subst tick. unfold DemoDataProvider.generateWaveformData.
    destruct (negb (DemoDataProvider.active_ p)).
    - exists []. cbn. split; [reflexivity|]. split; [apply prefix_nil|].
      split; [constructor|reflexivity].
    - fold gens.
      destruct (waveform_loop_emitted slot (map_to_list gens)
                  (of_int elapsed / 1000.0)%float now p [])
        as (Hcrit & added & Hem & Hpre & Hall).
      exists added. cbn [app] in Hem. repeat split; assumption. }
  assert (forall id, id ∈ ids -> id ∈ (map_to_list gens).*1) as Hsub.
  { intros id Hin. subst ids. rewrite Hem in Hin.
    destruct Hpre as [rest ->]. apply elem_of_app. left. exact Hin. }
  split; [|split; [|split; [|split; [|split; [|split]]]]].
  - intros sg Hin. rewrite Hem in Hin.
    rewrite Forall_forall in Hall. destruct (Hall sg Hin) as (id & data & ->).
    exists id, data. split; [reflexivity|]. apply Hkeys, Hsub. subst ids.
    rewrite Hem. apply list_elem_of_omap.
    exists (IDataProvider.waveformDataReceived id now data).
    split; [exact Hin|reflexivity].
  - subst ids. rewrite Hem. destruct Hpre as [rest Hrest].
    rewrite Hrest in Hnodup. apply NoDup_app in Hnodup as [Hnd _]. exact Hnd.
  - intros Hin. apply Hsub, Hkeys in Hin.
    unfold VitalSync.CVP, VitalSync.ECG_I, VitalSync.ECG_II, VitalSync.ECG_III,
      VitalSync.RESP, VitalSync.PLETH, VitalSync.ABP, VitalSync.CAPNO in Hin.
    repeat (apply elem_of_cons in Hin as [Hin|Hin]; [discriminate Hin|]).
    inversion Hin.
  - intros Hin. apply Hsub, Hkeys in Hin.
    unfold VitalSync.EEG, VitalSync.ECG_I, VitalSync.ECG_II, VitalSync.ECG_III,
      VitalSync.RESP, VitalSync.PLETH, VitalSync.ABP, VitalSync.CAPNO in Hin.
    repeat (apply elem_of_cons in Hin as [Hin|Hin]; [discriminate Hin|]).
    inversion Hin.
  - rewrite Hem.
    assert (length added
            = length (omap DemoDataProviderSpec.waveform_id_of added)) as ->.
    { clear -Hall. induction Hall as [|sg l (id & data & ->) _ IH]; [reflexivity|].
      cbn. rewrite IH. reflexivity. }
    apply prefix_length in Hpre. rewrite length_fmap in Hpre.
    assert (length (map_to_list gens) = 7%nat) as Hlen.
    { rewrite length_map_to_list. unfold gens, DemoDataProvider.waveform_generators_.
      repeat (rewrite map_size_insert_None;
              [|repeat (rewrite lookup_insert_ne by (intros Hk; discriminate Hk));
                apply lookup_empty]).
      rewrite map_size_empty. reflexivity. }
    lia.
  - exact Hcrit.
  - intros Hact. subst tick. unfold DemoDataProvider.generateWaveformData,
      DemoDataProvider.isActive in *. rewrite Hact. reflexivity.
Qed.

(** ** Data manager: delivery and acquisition *)

Section Delivery.
Import DataManager DataManagerSpec.

Context {P : Type} `{IDataProvider.Ops P}.

Lemma same_wiring_refl (dm : t P) : same_wiring dm dm.
Proof. repeat split; auto. Qed.

Lemma same_wiring_trans (dm1 dm2 dm3 : t P) :
  same_wiring dm1 dm2 -> same_wiring dm2 dm3 -> same_wiring dm1 dm3.
Proof.
  intros (A1 & A2 & A3 & A4 & A5) (B1 & B2 & B3 & B4 & B5).
  split; [congruence|]. split; [congruence|]. split; [congruence|].
  split; intros id; [rewrite A4; apply B4|rewrite A5; apply B5].
Qed.

(** A slot replaces at most one model, under an identifier that had one:
    providers and wiring are as before, and a parameter model stays
    active when it was. *)
Lemma handle_frame (now : Z) (sg : IDataProvider.Signal) (dm : t P) :
  heap (fst (handle now sg dm)) = heap dm
  /\ same_wiring (fst (handle now sg dm)) dm
  /\ (all_parameters_active dm -> all_parameters_active (fst (handle now sg dm))).
Proof.
  assert (heap dm = heap dm /\ same_wiring dm dm
          /\ (all_parameters_active dm -> all_parameters_active dm)) as Hsame.
  { split; [reflexivity|]. split; [apply same_wiring_refl|auto]. }
  destruct sg as [st|ty ts data|ty ts v|code msg]; cbn [handle].
  - exact Hsame.
  - unfold HandleWaveformData.
    destruct (GetWaveformModel ty dm) as [model|] eqn:Hmodel; [|exact Hsame].
    destruct (WaveformModel.isActive model); [|exact Hsame].
    destruct (WaveformModel.addWaveformData ts data model) as [model' out].
    cbn [fst]. split; [reflexivity|]. split; [|intros Hall; exact Hall].
    split; [reflexivity|]. split; [reflexivity|]. split; [reflexivity|].
    split; [|intros id; reflexivity].
    intros id. unfold GetWaveformModel in *. cbn.
    destruct (decide (id = ty)) as [->|Hne].
    + rewrite lookup_insert_eq, Hmodel. split; intros _; eexists; reflexivity.
    + rewrite lookup_insert_ne by congruence. reflexivity.
  - unfold HandleParameterData.
    destruct (GetParameterModel ty dm) as [model|] eqn:Hmodel; [|exact Hsame].
    destruct (ParameterModel.isActive model) eqn:Hact; [|exact Hsame].
    cbn [fst]. split; [reflexivity|]. split.
    + split; [reflexivity|]. split; [reflexivity|]. split; [reflexivity|].
      split; [intros id; reflexivity|].
      intros id. unfold GetParameterModel in *. cbn.
      destruct (decide (id = ty)) as [->|Hne].
      * rewrite lookup_insert_eq, Hmodel. split; intros _; eexists; reflexivity.
      * rewrite lookup_insert_ne by congruence. reflexivity.
    + intros Hall id m. unfold GetParameterModel. cbn.
      destruct (decide (id = ty)) as [->|Hne].
      * rewrite lookup_insert_eq. intros Hm. injection Hm as <-. exact Hact.
      * rewrite lookup_insert_ne by congruence. apply Hall.
  - exact Hsame.
Qed.

Lemma deliver_frame (now : Z) (a : nat) (sigs : list IDataProvider.Signal)
    (dm : t P) :
  heap (fst (deliver now a sigs dm)) = heap dm
  /\ same_wiring (fst (deliver now a sigs dm)) dm
  /\ (all_parameters_active dm ->
      all_parameters_active (fst (deliver now a sigs dm))).
Proof.
  unfold deliver.
  set (G := fun sg (acc : t P * list Output) (_ : nat) =>
              let '(dm', out) := handle now sg (fst acc) in (dm', snd acc ++ out)).
  set (F := fun (acc0 : t P * list Output) sg =>
              fold_left (G sg) (filter (fun b => b = a) (connections (fst acc0)))
                acc0).
  set (frame := fun (dm2 dm1 : t P) =>
                  heap dm2 = heap dm1 /\ same_wiring dm2 dm1
                  /\ (all_parameters_active dm1 -> all_parameters_active dm2)).
  assert (forall dm1, frame dm1 dm1) as Hrefl.
  { intros dm1. split; [reflexivity|]. split; [apply same_wiring_refl|auto]. }
  assert (forall dm1 dm2 dm3, frame dm1 dm2 -> frame dm2 dm3 -> frame dm1 dm3)
    as Htrans.
  { intros dm1 dm2 dm3 (A1 & A2 & A3) (B1 & B2 & B3).
    split; [congruence|]. split; [eapply same_wiring_trans; eassumption|auto]. }
  assert (forall sg (l : list nat) acc,
            frame (fst (fold_left (G sg) l acc)) (fst acc)) as Hinner.
  { intros sg l. induction l as [|b l IH]; intros acc.
    - apply Hrefl.
    - cbn [fold_left]. apply (Htrans _ (fst (G sg acc b))); [apply IH|].
      unfold G. pose proof (handle_frame now sg (fst acc)) as Hh.
      destruct (handle now sg (fst acc)) as [dm' out]. exact Hh. }
  assert (forall acc, frame (fst (fold_left F sigs acc)) (fst acc)) as Houter.
  { induction sigs as [|sg sigs IH]; intros acc.
    - apply Hrefl.
    - cbn [fold_left]. apply (Htrans _ (fst (F acc sg))); [apply IH|].
      unfold F. apply Hinner. }
  exact (Houter (dm, [])).
Qed.

Lemma deliver_unconnected (now : Z) (a : nat) (sigs : list IDataProvider.Signal)
    (dm : t P) :
  a ∉ connections dm -> deliver now a sigs dm = (dm, []).
Proof.
  intros Hnot. unfold deliver.
  assert (filter (fun b => b = a) (connections dm) = []) as Hnil.
  { induction (connections dm) as [|b l IH]; [reflexivity|].
    rewrite filter_cons. apply not_elem_of_cons in Hnot as [Hne Hnot].
    destruct (decide (b = a)); [congruence|]. apply IH. exact Hnot. }
  induction sigs as [|sg sigs IH]; [reflexivity|].
  cbn [fold_left fst]. rewrite Hnil. cbn [fold_left]. exact IH.
Qed.

(** [stop_provider] replaces the provider object and delivers what it
    emitted. *)
Lemma stop_provider_frame (now : Z) (a : nat) (dm : t P) :
  same_wiring (fst (stop_provider now a dm)) dm
  /\ (all_parameters_active dm ->
      all_parameters_active (fst (stop_provider now a dm))).
Proof.
  unfold stop_provider. destruct (heap dm !! a) as [p|].
  - destruct (IDataProvider.stop p) as [p' sigs].
    destruct (deliver_frame now a sigs (set_heap (<[a := p']> (heap dm)) dm))
      as (_ & Hw & Hact).
    split; [exact Hw|exact Hact].
  - split; [apply same_wiring_refl|auto].
Qed.

(** The loop that forces the parameter models active, over any part of
    the entries. *)
Lemma activate_fold (l : list (Z * ParameterModel.t)) (acc : t P * list Output) :
  NoDup l.*1 ->
  (forall id m, (id, m) ∈ l -> parameter_models_ (fst acc) !! id = Some m) ->
  let r :=
    fold_left
      (fun acc km =>
         let '(id, model) := km in
         if ParameterModel.isActive model then acc
         else
           let '(model', out) := ParameterModel.SetActive true model in
           (set_parameter_models
              (<[id := model']> (parameter_models_ (fst acc))) (fst acc),
            snd acc ++ (parameter_output id <$> out)))
      l acc in
  heap (fst r) = heap (fst acc)
  /\ providers_ (fst r) = providers_ (fst acc)
  /\ current_provider_ (fst r) = current_provider_ (fst acc)
  /\ connections (fst r) = connections (fst acc)
  /\ waveform_models_ (fst r) = waveform_models_ (fst acc)
  /\ forall id,
       parameter_models_ (fst r) !! id
       = if decide (id ∈ l.*1)
         then (fun m => fst (ParameterModel.SetActive true m))
                <$> parameter_models_ (fst acc) !! id
         else parameter_models_ (fst acc) !! id.
Proof.
  revert acc. induction l as [|[k m] l IH]; intros acc Hnodup Hl.
  - cbn. repeat (split; [reflexivity|]).
    intros id. destruct (decide (id ∈ [])) as [Hin|_]; [inversion Hin|reflexivity].
  - cbn [fold_left]. cbn [fmap list_fmap fst] in Hnodup.
    apply NoDup_cons in Hnodup as [Hk Hnodup].
    pose proof (Hl k m ltac:(apply elem_of_cons; left; reflexivity)) as Hkm.
    set (acc' :=
           if ParameterModel.isActive m then acc
           else
             let '(model', out) := ParameterModel.SetActive true m in
             (set_parameter_models
                (<[k := model']> (parameter_models_ (fst acc))) (fst acc),
              snd acc ++ (parameter_output k <$> out))).
    assert (heap (fst acc') = heap (fst acc)
            /\ providers_ (fst acc') = providers_ (fst acc)
            /\ current_provider_ (fst acc') = current_provider_ (fst acc)
            /\ connections (fst acc') = connections (fst acc)
            /\ waveform_models_ (fst acc') = waveform_models_ (fst acc)
            /\ parameter_models_ (fst acc')
               = <[k := fst (ParameterModel.SetActive true m)]>
                   (parameter_models_ (fst acc)))
      as (Hh1 & Hpr1 & Hc1 & Hcn1 & Hwf1 & Hpm1).
    { subst acc'. unfold ParameterModel.SetActive, ParameterModel.isActive.
      destruct (ParameterModel.active_ m) eqn:Hact.
      - rewrite bool_decide_eq_true_2 by reflexivity. cbn [fst].
        repeat (split; [reflexivity|]).
        rewrite insert_id by exact Hkm. reflexivity.
      - rewrite bool_decide_eq_false_2 by discriminate. cbn.
        repeat (split; [reflexivity|]). reflexivity. }
    destruct (IH acc' Hnodup) as (Hh & Hpr & Hc & Hcn & Hwf & Hpm).
    { intros id m' Hin. rewrite Hpm1.
      rewrite lookup_insert_ne.
      - apply Hl. apply elem_of_cons. right. exact Hin.
      - intros <-. apply Hk. apply list_elem_of_fmap. exists (k, m').
        split; [reflexivity|exact Hin]. }
    split; [congruence|]. split; [congruence|]. split; [congruence|].
    split; [congruence|]. split; [congruence|].
    intros id. rewrite Hpm. cbn [fmap list_fmap fst]. rewrite Hpm1.
    destruct (decide (id = k)) as [->|Hne].
    + rewrite lookup_insert_eq, Hkm.
      destruct (decide (k ∈ l.*1)) as [Hin|_]; [contradiction|].
      destruct (decide (k ∈ k :: l.*1)) as [_|Hout]; [reflexivity|].
      exfalso. apply Hout. apply elem_of_cons. left. reflexivity.
    + rewrite lookup_insert_ne by congruence.
      destruct (decide (id ∈ l.*1)) as [Hin|Hout],
               (decide (id ∈ k :: l.*1)) as [Hin'|Hout']; try reflexivity.
      * exfalso. apply Hout'. apply elem_of_cons. right. exact Hin.
      * apply elem_of_cons in Hin' as [->|Hin']; [congruence|contradiction].
Qed.

Lemma activate_parameter_models_spec (dm : t P) :
  let r := activate_parameter_models dm in
  heap (fst r) = heap dm
  /\ same_wiring (fst r) dm
  /\ all_parameters_active (fst r)
  /\ forall id,
       GetParameterModel id (fst r)
       = (fun m => fst (ParameterModel.SetActive true m))
           <$> GetParameterModel id dm.
Proof.
  unfold activate_parameter_models.
  destruct (activate_fold (map_to_list (parameter_models_ dm)) (dm, []))
    as (Hh & Hpr & Hc & Hcn & Hwf & Hpm).
  - apply NoDup_fst_map_to_list.
  - intros id m Hin. apply elem_of_map_to_list in Hin. exact Hin.
  - cbv zeta in Hh, Hpr, Hc, Hcn, Hwf, Hpm. cbn [fst] in Hh, Hpr, Hc, Hcn, Hwf, Hpm.
    cbv zeta.
    assert (forall id,
              GetParameterModel id
                (fst (fold_left
                        (fun acc km =>
                           let '(id, model) := km in
                           if ParameterModel.isActive model then acc
                           else
                             let '(model', out) := ParameterModel.SetActive true model in
                             (set_parameter_models
                                (<[id := model']> (parameter_models_ (fst acc)))
                                (fst acc),
                              snd acc ++ (parameter_output id <$> out)))
                        (map_to_list (parameter_models_ dm)) (dm, [])))
              = (fun m => fst (ParameterModel.SetActive true m))
                  <$> GetParameterModel id dm) as Hget.
    { intros id. unfold GetParameterModel. rewrite Hpm.
      destruct (decide (id ∈ (map_to_list (parameter_models_ dm)).*1)) as [_|Hout];
        [reflexivity|].
      destruct (parameter_models_ dm !! id) as [m|] eqn:Hm; [|reflexivity].
      exfalso. apply Hout. apply list_elem_of_fmap. exists (id, m).
      split; [reflexivity|]. apply elem_of_map_to_list. exact Hm. }
    split; [exact Hh|]. split; [|split; [|exact Hget]].
    + split; [exact Hpr|]. split; [exact Hc|]. split; [exact Hcn|].
      split; intros id.
      * unfold GetWaveformModel. rewrite Hwf. reflexivity.
      * rewrite Hget. destruct (GetParameterModel id dm); cbn.
        -- split; intros _; eexists; reflexivity.
        -- split; intros [x Hx]; discriminate Hx.
    + intros id m Hm. rewrite Hget in Hm.
      destruct (GetParameterModel id dm) as [m0|]; [|discriminate Hm].
      cbn in Hm. injection Hm as <-.
      unfold ParameterModel.SetActive, ParameterModel.isActive.
      destruct (ParameterModel.active_ m0) eqn:Hact.
      * rewrite bool_decide_eq_true_2 by reflexivity. exact Hact.
      * rewrite bool_decide_eq_false_2 by discriminate. reflexivity.
Qed.

(** What [startAcquisition] leaves, and what it leaves when it
    succeeds. *)
Lemma startAcquisition_frame (now : Z) (dm : t P) :
  let r := startAcquisition now dm in
  same_wiring (fst (fst r)) dm
  /\ (snd (fst r) = true -> all_parameters_active (fst (fst r))).
Proof.
  cbv zeta. unfold startAcquisition.
  destruct (current_provider_ dm) as [a|] eqn:Hcur;
    [|split; [apply same_wiring_refl|intros Hf; discriminate Hf]].
  destruct (heap dm !! a) as [p|] eqn:Hp;
    [|split; [apply same_wiring_refl|intros Hf; discriminate Hf]].
  assert (exists dm1 out1,
            (if IDataProvider.isActive p then stop_provider now a dm else (dm, []))
            = (dm1, out1)
            /\ same_wiring dm1 dm) as (dm1 & out1 & Hdm1 & Hw1).
  { destruct (IDataProvider.isActive p).
    - pose proof (stop_provider_frame now a dm) as [Hw _].
      destruct (stop_provider now a dm) as [dm1 out1].
      exists dm1, out1. split; [reflexivity|exact Hw].
    - exists dm, []. split; [reflexivity|apply same_wiring_refl]. }
  rewrite Hdm1.
  pose proof (activate_parameter_models_spec dm1) as (_ & Hw2 & Hact2 & _).
  destruct (activate_parameter_models dm1) as [dm2 out2]. cbn [fst] in Hw2, Hact2.
  assert (same_wiring dm2 dm) as Hw12.
  { eapply same_wiring_trans; [exact Hw2|exact Hw1]. }
  destruct (heap dm2 !! a) as [p2|];
    [|split; [exact Hw12|intros Hf; discriminate Hf]].
  destruct (IDataProvider.start p2) as [[p3 success] sigs].
  pose proof (deliver_frame now a sigs (set_heap (<[a := p3]> (heap dm2)) dm2))
    as (_ & Hw3 & Hact3).
  destruct (deliver now a sigs (set_heap (<[a := p3]> (heap dm2)) dm2))
    as [dm3 out3].
  cbn [fst snd] in *.
  assert (same_wiring (set_heap (<[a := p3]> (heap dm2)) dm2) dm2) as Hw23.
  { repeat split; auto. }
  split.
  - eapply same_wiring_trans; [exact Hw3|].
    eapply same_wiring_trans; [exact Hw23|exact Hw12].
  - intros _. apply Hact3. intros id m Hm. exact (Hact2 id m Hm).
Qed.

Lemma same_wiring_wired (dm' dm : t P) :
  same_wiring dm' dm -> wired dm -> wired dm'.
Proof.
  intros (_ & Hc & Hn & _) Hw. unfold wired in *. rewrite Hc, Hn. exact Hw.
Qed.

Lemma SetActiveProvider_wired (now : Z) (providerName : string) (w : World P) :
  wired (fst w) ->
  wired (fst (fst (fst (SetActiveProvider now providerName w)))).
Proof.
  destruct w as [dm config]. cbn [fst]. intros Hw.
  unfold SetActiveProvider.
  assert (forall a, current_provider_ dm = Some a ->
            connections (fst (stop_provider now a (disconnectProviderSignals dm)))
            = []) as Hstopped.
  { intros a Hcur.
    destruct (stop_provider_frame now a (disconnectProviderSignals dm))
      as [(_ & _ & Hn & _) _].
    rewrite Hn. unfold disconnectProviderSignals. rewrite Hcur. cbn.
    unfold wired in Hw. rewrite Hcur in Hw. rewrite Hw.
    rewrite filter_cons. destruct (decide (a <> a)); [congruence|reflexivity]. }
  destruct (if bool_decide (providerName = ""%string)
            then current_provider_ dm else None) as [a|] eqn:Hsel.
  - assert (current_provider_ dm = Some a) as Hcur.
    { destruct (bool_decide (providerName = ""%string));
        [exact Hsel|discriminate Hsel]. }
    specialize (Hstopped a Hcur).
    destruct (stop_provider now a (disconnectProviderSignals dm)) as [dm2 out].
    cbn [fst] in Hstopped.
    rewrite saveCurrentProviderToSettings_none by reflexivity.
    cbn. unfold wired. cbn. exact Hstopped.
  - destruct (providers_ dm !! providerName) as [b|]; [|exact Hw].
    destruct (current_provider_ dm) as [a|] eqn:Hcur.
    + specialize (Hstopped a eq_refl).
      destruct (stop_provider now a (disconnectProviderSignals dm)) as [dm2 out].
      cbn [fst] in *. unfold wired, connectProviderSignals. cbn.
      rewrite Hstopped. reflexivity.
    + cbn. unfold wired, connectProviderSignals in *. cbn.
      rewrite Hcur in Hw. rewrite Hw. reflexivity.
Qed.

(** With its provider connected once, a signal runs its slot once. *)
Lemma deliver_wired (now : Z) (a : nat) (sg : IDataProvider.Signal) (dm : t P) :
  wired dm -> current_provider_ dm = Some a ->
  deliver now a [sg] dm = handle now sg dm.
Proof.
  intros Hw Hcur. unfold wired in Hw. rewrite Hcur in Hw.
  unfold deliver. cbn [fold_left fst]. rewrite Hw.
  rewrite filter_cons. destruct (decide (a = a)); [|congruence].
  rewrite filter_nil. cbn [fold_left fst snd].
  destruct (handle now sg dm) as [dm' out]. reflexivity.
Qed.

End Delivery.

(** X9. Delivering the signals of a provider to the manager changes no
    provider object, no registration, no selection and no connection, and
    creates or removes no model; parameter models that were all active
    stay active.  The signals of a provider that is not connected have no
    effect at all. *)
Theorem provider_signals_scope :
  forall {P : Type} `{IDataProvider.Ops P} (now : Z) (a : nat)
         (sigs : list IDataProvider.Signal) (dm : DataManager.t P),
    let dm' := fst (DataManager.deliver now a sigs dm) in
    DataManager.heap dm' = DataManager.heap dm
    /\ DataManagerSpec.same_wiring dm' dm
    /\ (a ∉ DataManager.connections dm ->
        DataManager.deliver now a sigs dm = (dm, []))
    /\ (DataManagerSpec.all_parameters_active dm ->
        DataManagerSpec.all_parameters_active dm').
Proof.
  intros P Hops now a sigs dm.
  destruct (deliver_frame now a sigs dm) as (Hh & Hw & Hact).
  split; [exact Hh|]. split; [exact Hw|].
  split; [apply deliver_unconnected|exact Hact].
Qed.

(** X10. A successful [startAcquisition] leaves every parameter model
    the manager holds active, whatever the configuration made of them; it
    keeps the registered providers, the current provider, the connections
    and the identifiers that have a model. *)
Theorem startAcquisition_activates_parameters :
  forall {P : Type} `{IDataProvider.Ops P} (now : Z) (dm dm' : DataManager.t P)
         (out : list DataManager.Output),
    DataManager.startAcquisition now dm = (dm', true, out) ->
    DataManagerSpec.all_parameters_active dm'
    /\ DataManagerSpec.same_wiring dm' dm.
Proof.
  intros P Hops now dm dm' out Hstart.
  destruct (startAcquisition_frame now dm) as [Hw Hact].
  rewrite Hstart in Hw, Hact. cbn [fst snd] in Hw, Hact.
  split; [apply Hact; reflexivity|exact Hw].
Qed.

(** The theorem applied to a manager whose only parameter model, for the
    heart rate, is inactive by configuration: after [startAcquisition]
    the model is active. *)
Lemma startAcquisition_activates_parameters_witness :
  let r := DataManager.startAcquisition 1000 DataManagerSpec.one_inactive_model in
  ParameterModel.isActive
    <$> DataManager.GetParameterModel VitalSync.HR
          DataManagerSpec.one_inactive_model = Some false
  /\ snd (fst r) = true
  /\ DataManagerSpec.all_parameters_active (fst (fst r)).
Proof.
  cbv zeta.
  split; [vm_compute; reflexivity|]. split; [vm_compute; reflexivity|].
  refine (proj1 (startAcquisition_activates_parameters 1000
                   DataManagerSpec.one_inactive_model _
                   (snd (DataManager.startAcquisition 1000
                           DataManagerSpec.one_inactive_model)) _)).
  vm_compute. reflexivity.
Defined.

(** ** Data manager: initialisation *)

Section InitializeWiring.
Import DataManager.

Context {P : Type} `{IDataProvider.Ops P}.



End InitializeWiring.




(** X12. The manager's operations keep its connections in step with its
    selection: the signals of the current provider, and of no other, are
    connected to its slots, exactly once.  This holds for a new manager
    and is kept by [registerProvider], [SetActiveProvider] (also when the
    current provider is selected again or deselected), [startAcquisition],
    [stopAcquisition] and the delivery of signals.  So every signal of the
    current provider runs its slot once, and the signals of any other
    provider are ignored. *)
Theorem single_connection_invariant :
  forall {P : Type} `{IDataProvider.Ops P},
    DataManagerSpec.wired (DataManager.new (P := P))
    /\ (forall (provider : P) (dm : DataManager.t P),
          DataManagerSpec.wired dm ->
          DataManagerSpec.wired (DataManager.registerProvider provider dm))
    /\ (forall now name (w : DataManager.World P),
          DataManagerSpec.wired (fst w) ->
          DataManagerSpec.wired
            (fst (fst (fst (DataManager.SetActiveProvider now name w)))))
    /\ (forall now (dm : DataManager.t P),
          DataManagerSpec.wired dm ->
          DataManagerSpec.wired (fst (fst (DataManager.startAcquisition now dm)))
          /\ DataManagerSpec.wired (fst (DataManager.stopAcquisition now dm)))
    /\ (forall now a sigs (dm : DataManager.t P),
          DataManagerSpec.wired dm ->
          DataManagerSpec.wired (fst (DataManager.deliver now a sigs dm)))
    /\ (forall now a sg (dm : DataManager.t P),
          DataManagerSpec.wired dm ->
          DataManager.current_provider_ dm = Some a ->
          DataManager.deliver now a [sg] dm = DataManager.handle now sg dm)
    /\ (forall now a b sigs (dm : DataManager.t P),
          DataManagerSpec.wired dm ->
          DataManager.current_provider_ dm = Some a ->
          b <> a ->
          DataManager.deliver now b sigs dm = (dm, [])).
Proof.
  intros P Hops.
  split; [reflexivity|].
  split; [intros provider dm Hw; exact Hw|].
  split; [intros now name w Hw; apply SetActiveProvider_wired; exact Hw|].
  split.
  { intros now dm Hw. split.
    - destruct (startAcquisition_frame now dm) as [Hsw _].
      eapply same_wiring_wired; eassumption.
    - unfold DataManager.stopAcquisition.
      destruct (DataManager.current_provider_ dm) as [a|]; [|exact Hw].
      destruct (stop_provider_frame now a dm) as [Hsw _].
      eapply same_wiring_wired; eassumption. }
  split.
  { intros now a sigs dm Hw.
    destruct (deliver_frame now a sigs dm) as (_ & Hsw & _).
    eapply same_wiring_wired; eassumption. }
  split; [intros now a sg dm Hw Hcur; apply deliver_wired; assumption|].
  intros now a b sigs dm Hw Hcur Hne. apply deliver_unconnected.
  unfold DataManagerSpec.wired in Hw. rewrite Hcur in Hw. rewrite Hw.
  intros Hin. apply elem_of_cons in Hin as [->|Hin]; [congruence|inversion Hin].
Qed.

(** The theorem applied to a manager with a registered, current demo
    provider: selecting the same provider again leaves it connected
    once. *)
Lemma single_connection_invariant_witness :
  DataManagerSpec.wired
    (fst (fst (fst (DataManager.SetActiveProvider 0 "Demo"
                      (DataManagerSpec.one_inactive_model, ConfigManager.empty))))).
Proof.
  refine (proj1 (proj2 (proj2 (single_connection_invariant
                                 (P := DemoDataProvider.t nat))))
            0 "Demo"%string
            (DataManagerSpec.one_inactive_model, ConfigManager.empty) _).
  vm_compute. reflexivity.
Defined.
